(** * ESMValTool: ERA-Interim CMORizer, inmcm4 fixes and the netcre derivation

    A shallow embedding of

    - [esmvaltool/cmorizers/obs/cmorize_obs_era_interim.py]
      ([_set_global_attributes], [_fix_coordinates], [_fix_frequency],
      [_get_files], [_extract_variable], [cmorization]),
    - [esmvaltool/cmor/_fixes/CMIP5/inmcm4.py] ([gpp.fix_data],
      [lai.fix_data]),
    - [esmvaltool/preprocessor/_derive/netcre.py]
      ([DerivedVariable.calculate]),
    - [esmvaltool/cmorizers/obs/cmorize_obs_duveiller2018.py]
      ([fix_time_coord_duveiller2018], [extract_variable], [cmorization]),
    - [esmvaltool/diag_scripts/ocean3d/ocean3d.py] ([main]),

    together with the properties of these functions.

    Conventions.  Floating point values are idealised as rationals ([Q]).
    Python objects that are mutated in place and may be reached through
    several names (cubes) live in an explicit store, addressed by
    locations; a Python variable holding a cube is a location.  The
    libraries the scripts call (iris, cf_units, numpy, pathlib, esmvalcore,
    the cmorizer utilities) are not part of the embedded sources; what the
    scripts need from them is collected in the class [External]; the
    Duveiller2018 script and the ocean3d diagnostic have classes of their
    own, [Duveiller2018.Utilities] and [Ocean3d.Libraries]. *)

From Stdlib Require Import ZArith QArith Qround Lia Ascii.
From stdpp Require Import base option list gmap strings sorting.

Local Open Scope string_scope.
Local Open Scope list_scope.

(** * Exceptions and results *)

Inductive Exn :=
| CoordinateNotFoundError (name : string)
| KeyError (key : string)
| UnboundLocalError (name : string)
| ConstraintMismatchError (name : string)
| NotYetImplementedError (what : string)
| ValueError (what : string)
| AttributeError (what : string)
| IndexError (what : string)
| TypeError (what : string).

Inductive Res (A : Type) :=
| Ok (a : A)
| Raise (e : Exn).
Arguments Ok {A} a.
Arguments Raise {A} e.

(** * The iris data model *)

(** A unit is kept as the expression the script builds: a unit string, or
    a product or quotient formed with [*] and [/]. *)
Inductive Unit :=
| UStr (s : string)
| UMul (a b : Unit)
| UDiv (a b : Unit).

#[global] Instance Unit_eq_dec : EqDecision Unit.
Proof. solve_decision. Defined.

(** Exponents of metre, kilogram and second of the unit strings the
    script writes as literals; [None] for any other string. *)
Definition literal_dimension (s : string) : option (Z * Z * Z) :=
  if decide (s = "m") then Some (1, 0, 0)%Z
  else if decide (s = "kg m-3 day-1") then Some (-3, 1, -1)%Z
  else if decide (s = "day-1") then Some (0, 0, -1)%Z
  else if decide (s = "m s-2") then Some (1, 0, -2)%Z
  else None.

Fixpoint dimension (u : Unit) : option (Z * Z * Z) :=
  match u with
  | UStr s => literal_dimension s
  | UMul a b =>
      match dimension a, dimension b with
      | Some (m1, k1, s1), Some (m2, k2, s2) =>
          Some (m1 + m2, k1 + k2, s1 + s2)%Z
      | _, _ => None
      end
  | UDiv a b =>
      match dimension a, dimension b with
      | Some (m1, k1, s1), Some (m2, k2, s2) =>
          Some (m1 - m2, k1 - k2, s1 - s2)%Z
      | _, _ => None
      end
  end.

(** The axis iris guesses for a coordinate ([iris.util.guess_coord_axis]). *)
Inductive Axis := AxisT | AxisX | AxisY | AxisZ.

#[global] Instance Axis_eq_dec : EqDecision Axis.
Proof. solve_decision. Defined.

Module Coord.

Record t := mk {
  standard_name : option string;
  long_name : option string;
  var_name : option string;
  units : Unit;
  points : list Q;
  bounds : option (list (Q * Q));
  (** data dimension the coordinate spans; [None] for a scalar coordinate *)
  dim : option nat;
  axis : option Axis
}.

(** [Coord.name()]: the first of standard name, long name and var name
    that is set. *)
Definition name (c : t) : string :=
  match standard_name c, long_name c, var_name c with
  | Some n, _, _ => n
  | None, Some n, _ => n
  | None, None, Some n => n
  | None, None, None => "unknown"
  end.

Definition set_standard_name (v : option string) (c : t) : t :=
  mk v (long_name c) (var_name c) (units c) (points c) (bounds c) (dim c) (axis c).
Definition set_long_name (v : option string) (c : t) : t :=
  mk (standard_name c) v (var_name c) (units c) (points c) (bounds c) (dim c) (axis c).
Definition set_var_name (v : option string) (c : t) : t :=
  mk (standard_name c) (long_name c) v (units c) (points c) (bounds c) (dim c) (axis c).
Definition set_units (v : Unit) (c : t) : t :=
  mk (standard_name c) (long_name c) (var_name c) v (points c) (bounds c) (dim c) (axis c).
Definition set_points (v : list Q) (c : t) : t :=
  mk (standard_name c) (long_name c) (var_name c) (units c) v (bounds c) (dim c) (axis c).
Definition set_bounds (v : option (list (Q * Q))) (c : t) : t :=
  mk (standard_name c) (long_name c) (var_name c) (units c) (points c) v (dim c) (axis c).

(** [coord[::-1]]: a copy with points and bounds rows reversed. *)
Definition reversed (c : t) : t :=
  set_bounds (@rev (Q * Q) <$> bounds c) (set_points (rev (points c)) c).

End Coord.

#[global] Instance Q_eq_dec : EqDecision Q.
Proof. solve_decision. Defined.
#[global] Instance Coord_eq_dec : EqDecision Coord.t.
Proof. solve_decision. Defined.

(** The six fields of [iris.cube.CubeMetadata]. *)
Record CubeMetadata := mkMetadata {
  md_standard_name : option string;
  md_long_name : option string;
  md_var_name : option string;
  md_units : Unit;
  md_attributes : gmap string string;
  md_cell_methods : list string
}.

Module Cube.

(** A cube: the phenomenon's metadata, the data array and the
    coordinates.  The array is indexed by its first two dimensions; the
    innermost list holds the remaining dimensions flattened. *)
Record t := mk {
  metadata : CubeMetadata;
  data : list (list (list Q));
  coords : list Coord.t
}.

Definition standard_name (c : t) := md_standard_name (metadata c).
Definition long_name (c : t) := md_long_name (metadata c).
Definition var_name (c : t) := md_var_name (metadata c).
Definition units (c : t) := md_units (metadata c).
Definition attributes (c : t) := md_attributes (metadata c).
Definition cell_methods (c : t) := md_cell_methods (metadata c).

Definition set_metadata (m : CubeMetadata) (c : t) : t :=
  mk m (data c) (coords c).
Definition set_data (d : list (list (list Q))) (c : t) : t :=
  mk (metadata c) d (coords c).
Definition set_coords (cs : list Coord.t) (c : t) : t :=
  mk (metadata c) (data c) cs.

Definition set_standard_name (v : option string) (c : t) : t :=
  let m := metadata c in
  set_metadata (mkMetadata v (md_long_name m) (md_var_name m) (md_units m)
                  (md_attributes m) (md_cell_methods m)) c.
Definition set_long_name (v : option string) (c : t) : t :=
  let m := metadata c in
  set_metadata (mkMetadata (md_standard_name m) v (md_var_name m) (md_units m)
                  (md_attributes m) (md_cell_methods m)) c.
Definition set_var_name (v : option string) (c : t) : t :=
  let m := metadata c in
  set_metadata (mkMetadata (md_standard_name m) (md_long_name m) v (md_units m)
                  (md_attributes m) (md_cell_methods m)) c.
Definition set_units (v : Unit) (c : t) : t :=
  let m := metadata c in
  set_metadata (mkMetadata (md_standard_name m) (md_long_name m) (md_var_name m) v
                  (md_attributes m) (md_cell_methods m)) c.
Definition set_attributes (v : gmap string string) (c : t) : t :=
  let m := metadata c in
  set_metadata (mkMetadata (md_standard_name m) (md_long_name m) (md_var_name m)
                  (md_units m) v (md_cell_methods m)) c.

(** Elementwise operations on the data array. *)
Definition map_data (f : Q → Q) (d : list (list (list Q))) : list (list (list Q)) :=
  map (map (map f)) d.
Definition zip_data (f : Q → Q → Q) (d1 d2 : list (list (list Q)))
  : list (list (list Q)) :=
  zip_with (zip_with (zip_with f)) d1 d2.
Definition shape (d : list (list (list Q))) : list (list nat) :=
  map (map length) d.

(** [cube.coord(name)]: the coordinate of that name; an error when there
    is none or more than one. *)
Definition coord (name : string) (c : t) : Res Coord.t :=
  match filter (λ k, Coord.name k = name) (coords c) with
  | [k] => Ok k
  | _ => Raise (CoordinateNotFoundError name)
  end.

(** [cube.coord(axis=axis)]. *)
Definition coord_of_axis (a : Axis) (c : t) : Res Coord.t :=
  match filter (λ k, Coord.axis k = Some a) (coords c) with
  | [k] => Ok k
  | _ => Raise (CoordinateNotFoundError "axis")
  end.

(** In-place update of the coordinates selected by [sel]. *)
Definition update_coords (sel : Coord.t → bool) (f : Coord.t → Coord.t) (c : t) : t :=
  set_coords (map (λ k, if sel k then f k else k) (coords c)) c.

(** [cube.remove_coord(coord)]. *)
Definition remove_coord (k : Coord.t) (c : t) : t :=
  set_coords (filter (λ k', Coord.name k' ≠ Coord.name k) (coords c)) c.

(** [cube[:, ::-1, ...]]: a new cube, independent of the indexed one,
    with dimension 1 of the data and every coordinate spanning
    dimension 1 reversed. *)
Definition slice_reverse_dim1 (c : t) : t :=
  mk (metadata c)
     (map (@rev (list Q)) (data c))
     (map (λ k, if decide (Coord.dim k = Some 1%nat) then Coord.reversed k else k)
          (coords c)).

End Cube.

(** * Reference data and configuration *)

(** [esmvalcore.cmor.table.CoordinateInfo], the fields the script reads. *)
Record CoordinateInfo := mkCoordinateInfo {
  ci_standard_name : string;
  ci_out_name : string;
  ci_long_name : string;
  ci_units : string
}.

(** [esmvalcore.cmor.table.VariableInfo], the fields the script reads;
    [vi_coordinates] is the dictionary keyed by axis letter. *)
Record VariableInfo := mkVariableInfo {
  vi_short_name : string;
  vi_standard_name : string;
  vi_long_name : string;
  vi_units : string;
  vi_dimensions : list string;
  vi_coordinates : Axis → option CoordinateInfo
}.

(** [var['raw']]: one raw name, or one per file pattern. *)
Inductive Raw :=
| RawName (name : string)
| RawNames (names : list string).

(** An entry of [cfg['variables']]; an absent key is [None]. *)
Record Var := mkVar {
  short_name : option string;
  mip : string;
  raw : Raw;
  file : option string;
  files : option (list string);
  operator : option string
}.

Record Cfg := mkCfg {
  cfg_attributes : gmap string string;
  cfg_variables : list (string * Var)
}.

(** A point in time, as a [datetime]: microseconds since midnight of a
    fixed day 0. *)
Definition datetime := Z.

Definition microseconds_per_second : Z := 1000000.
Definition microseconds_per_day : Z := (86400 * microseconds_per_second)%Z.

(** [timedelta(seconds=n)]. *)
Definition timedelta_seconds (n : Z) : Z := (n * microseconds_per_second)%Z.

(** [t.replace(hour=h, minute=0, second=0, microsecond=0)]: same date,
    time of day set to [h] o'clock sharp. *)
Definition replace_hour (h : Z) (t : datetime) : datetime :=
  ((t `div` microseconds_per_day) * microseconds_per_day
   + h * 3600 * microseconds_per_second)%Z.

(** * The libraries behind the scripts *)

Class External := {
  (** numpy: [astype('float32')] and [astype('float64')] on one value *)
  astype_float32 : Q → Q;
  astype_float64 : Q → Q;
  (** cf_units: value conversion between two units, and the calendar
      functions of a time unit *)
  unit_convert : Unit → Unit → Q → Q;
  date2num : Unit → datetime → Q;
  num2date : Unit → Q → datetime;
  (** iris: the bounds guessed from points; what arithmetic does to the
      phenomenon metadata of its result (on a cube changed in place, the
      attributes dictionary is changed, not replaced); the sum of two
      cubes of one unit whose coordinates or shapes differ, where the
      coordinates are compared and the data broadcast; loading the cube
      named by a var-name constraint from a file *)
  guessed_bounds : list Q → list (Q * Q);
  arith_metadata : CubeMetadata → CubeMetadata;
  add_mismatched : Cube.t → Cube.t → Res Cube.t;
  load_cube : string → string → Res Cube.t;
  (** esmvalcore: [daily_statistics(cube, operator)]; whether
      [CMOR_TABLES] has a table for a project, and the lookup
      [CMOR_TABLES[project].get_variable(mip, short_name)] in it *)
  daily_statistics : Cube.t → string → Cube.t;
  has_cmor_table : string → bool;
  get_variable : string → string → string → option VariableInfo;
  (** cmorizer utilities *)
  set_global_atts : gmap string string → Cube.t → Cube.t;
  add_scalar_height_coord : Q → Cube.t → Cube.t;
  (** pathlib: [Path(in_dir).glob(pattern)] for a relative pattern that
      is not empty, in the order the file system lists the matches *)
  glob : string → string → list string;
  (** os and datetime: [cpu_count()], and [comment.format(year=...)] with
      the current year *)
  cpu_count : Z;
  format_year : string → string;
  (** concurrent.futures: the order in which [as_completed] yields
      futures that are all done, the futures given by submission index *)
  as_completed : list nat → list nat
}.

(** * Store of cubes and the monad of the scripts' statements *)

Abbreviation loc := positive (only parsing).
Abbreviation store := (gmap positive Cube.t) (only parsing).

Definition M (A : Type) : Type := store → Res (A * store).

Definition ret {A} (a : A) : M A := λ h, Ok (a, h).
Definition bind {A B} (m : M A) (k : A → M B) : M B :=
  λ h, match m h with
       | Ok (a, h') => k a h'
       | Raise e => Raise e
       end.
Definition raise {A} (e : Exn) : M A := λ _, Raise e.
Definition lift {A} (r : Res A) : M A :=
  λ h, match r with Ok a => Ok (a, h) | Raise e => Raise e end.

#[global] Instance M_ret : MRet M := @ret.
#[global] Instance M_bind : MBind M := λ A B k m, bind m k.

(** A new object in the store. *)
Definition alloc (c : Cube.t) : M loc :=
  λ h, let l := fresh (dom h) in Ok (l, <[l := c]> h).
(** The object a variable refers to. *)
Definition read (l : loc) : M Cube.t :=
  λ h, match h !! l with
       | Some c => Ok (c, h)
       | None => Raise (UnboundLocalError "cube")
       end.
(** In-place mutation of the object a variable refers to. *)
Definition modify (l : loc) (f : Cube.t → Cube.t) : M unit :=
  λ h, match h !! l with
       | Some c => Ok (tt, <[l := f c]> h)
       | None => Raise (UnboundLocalError "cube")
       end.
Definition modify_res (l : loc) (f : Cube.t → Res Cube.t) : M unit :=
  c ← read l; c' ← lift (f c); modify l (λ _, c').
Definition when (b : bool) (m : M unit) : M unit :=
  if b then m else ret tt.

(** [x in {...}] for a name that may be [None]. *)
Definition name_in (n : option string) (names : list string) : bool :=
  match n with
  | Some s => bool_decide (s ∈ names)
  | None => false
  end.

#[global] Instance Res_ret : MRet Res := @Ok.
#[global] Instance Res_bind : MBind Res :=
  λ A B k r, match r with Ok a => k a | Raise e => Raise e end.

(** * Library operations on coordinates and cubes *)

Section iris_operations.
Context `{!External}.

(** [coord.convert_units(unit)]. *)
Definition coord_convert_units (unit : Unit) (coord : Coord.t) : Coord.t :=
  let conv := unit_convert (Coord.units coord) unit in
  Coord.set_units unit
    (Coord.set_bounds (map (λ b, (conv b.1, conv b.2)) <$> Coord.bounds coord)
       (Coord.set_points (map conv (Coord.points coord)) coord)).

(** [coord.guess_bounds()]: refused for a coordinate that has bounds
    already, or fewer than two points. *)
Definition coord_guess_bounds (coord : Coord.t) : Res Coord.t :=
  match Coord.bounds coord with
  | Some _ => Raise (ValueError "Coord already has bounds")
  | None =>
      if decide (length (Coord.points coord) < 2)%nat
      then Raise (ValueError "Cannot guess bounds for a coordinate of length 1")
      else Ok (Coord.set_bounds (Some (guessed_bounds (Coord.points coord))) coord)
  end.

(** [cube.convert_units(unit)]. *)
Definition cube_convert_units (unit : Unit) (cube : Cube.t) : Cube.t :=
  Cube.set_units unit
    (Cube.set_data (Cube.map_data (unit_convert (Cube.units cube) unit) (Cube.data cube))
       cube).

(** [cube += other]: elementwise, in place; refused when units or
    shapes differ. *)
Definition cube_iadd (other : Cube.t) (cube : Cube.t) : Res Cube.t :=
  if decide (Cube.units cube = Cube.units other) then
    if decide (Cube.shape (Cube.data cube) = Cube.shape (Cube.data other)) then
      Ok (Cube.mk (arith_metadata (Cube.metadata cube))
            (Cube.zip_data Qplus (Cube.data cube) (Cube.data other))
            (Cube.coords cube))
    else Raise (ValueError "shapes differ")
  else Raise (NotYetImplementedError "Differing units").

(** [cube + other]: a new cube.  The units are compared first.  Two cubes
    on the same coordinates and of the same shape give the elementwise sum
    on these coordinates; for any other pair the library compares the
    coordinates one by one. *)
Definition cube_add (cube other : Cube.t) : Res Cube.t :=
  if decide (Cube.units cube = Cube.units other) then
    if decide (Cube.coords cube = Cube.coords other
               ∧ Cube.shape (Cube.data cube) = Cube.shape (Cube.data other)) then
      Ok (Cube.mk (arith_metadata (Cube.metadata cube))
            (Cube.zip_data Qplus (Cube.data cube) (Cube.data other))
            (Cube.coords cube))
    else add_mismatched cube other
  else Raise (NotYetImplementedError "Differing units").

(** [cube *= k] for a number [k]: elementwise, in place. *)
Definition cube_imul (k : Q) (cube : Cube.t) : Cube.t :=
  Cube.mk (arith_metadata (Cube.metadata cube))
          (Cube.map_data (λ x, x * k)%Q (Cube.data cube))
          (Cube.coords cube).

End iris_operations.

(** * cmorize_obs_era_interim.py *)

Module EraInterim.

(** ** The table form of the attribute and unit rules *)

(** What a rule does to the values of the field. *)
Inductive Scaling :=
| Unscaled
| Times (k : Q)
| Over (k : Q).

Definition scale (s : Scaling) (x : Q) : Q :=
  match s with
  | Unscaled => x
  | Times k => x * k
  | Over k => x / k
  end.

(** The scaling that undoes [s]. *)
Definition inverse (s : Scaling) : Scaling :=
  match s with
  | Unscaled => Unscaled
  | Times k => Over k
  | Over k => Times k
  end.

(** One [if cube.var_name in {...}:] block of [_set_global_attributes]:
    the raw names it is for, how it rewrites the units, how it scales the
    data and whether it marks the field as positive downwards. *)
Record Rule := mkRule {
  rule_names : list string;
  rule_units : option (VariableInfo → Unit → Unit);
  rule_scaling : Scaling;
  rule_positive : option string
}.

Definition rule_metres : Rule :=
  mkRule ["e"; "sf"] (Some (λ _ _, UStr "m")) Unscaled None.
Definition rule_mass_flux : Rule :=
  mkRule ["e"; "sf"; "tp"; "pev"]
         (Some (λ _ u, UMul u (UStr "kg m-3 day-1"))) (Times 1000) None.
Definition rule_per_day : Rule :=
  mkRule ["ssr"; "ssrd"; "tisr"; "hfds"]
         (Some (λ _ u, UMul u (UStr "day-1"))) Unscaled (Some "down").
Definition rule_stress : Rule :=
  mkRule ["iews"; "inss"] None Unscaled (Some "down").
Definition rule_percent : Rule :=
  mkRule ["lsm"; "tcc"] (Some (λ d _, UStr (vi_units d))) (Times 100) None.
Definition rule_geopotential : Rule :=
  mkRule ["z"] (Some (λ _ u, UDiv u (UStr "m s-2"))) (Over 9.80665) None.

Definition rules : list Rule :=
  [rule_metres; rule_mass_flux; rule_per_day; rule_stress; rule_percent;
   rule_geopotential].

Definition rule_applies (r : Rule) (name : option string) : bool :=
  name_in name (rule_names r).

Definition rule_action (r : Rule) (definition : VariableInfo) (cube : Cube.t) : Cube.t :=
  let cube :=
    match rule_units r with
    | Some f => Cube.set_units (f definition (Cube.units cube)) cube
    | None => cube
    end in
  let cube :=
    match rule_scaling r with
    | Unscaled => cube
    | s => Cube.set_data (Cube.map_data (scale s) (Cube.data cube)) cube
    end in
  match rule_positive r with
  | Some v => Cube.set_attributes (<["positive" := v]> (Cube.attributes cube)) cube
  | None => cube
  end.

Definition apply_rule (definition : VariableInfo) (cube : Cube.t) (r : Rule) : Cube.t :=
  if rule_applies r (Cube.var_name cube) then rule_action r definition cube else cube.

Definition apply_rules (definition : VariableInfo) (rs : list Rule) (cube : Cube.t)
  : Cube.t :=
  fold_left (apply_rule definition) rs cube.

(** ** File name keys *)

Fixpoint take_until (sep : ascii) (l : list ascii) : list ascii :=
  match l with
  | [] => []
  | c :: l' => if decide (c = sep) then [] else c :: take_until sep l'
  end.

(** [s.split(sep)[-1]]: what follows the last [sep]; all of [s] when
    [sep] does not occur. *)
Definition last_field (sep : ascii) (l : list ascii) : list ascii :=
  rev (take_until sep (rev l)).

(** [Path(p).stem]: the final path component without its last suffix. *)
Definition stem (p : string) : string :=
  let name := last_field "/"%char (String.list_ascii_of_string p) in
  let len := length name in
  if decide ("."%char ∈ name) then
    (* i = name.rfind('.') *)
    let i := (len - length (last_field "."%char name) - 1)%nat in
    if decide (0 < i ∧ i < len - 1)%nat
    then String.string_of_list_ascii (take i name)
    else String.string_of_list_ascii name
  else String.string_of_list_ascii name.

(** [str(item.stem).split('_')[-1]]. *)
Definition year_of (item : string) : string :=
  String.string_of_list_ascii (last_field "_"%char (String.list_ascii_of_string (stem item))).

(** The runs of characters between two [sep]. *)
Fixpoint split_on (sep : ascii) (l : list ascii) : list (list ascii) :=
  match l with
  | [] => [[]]
  | c :: l' =>
      if decide (c = sep) then [] :: split_on sep l'
      else
        match split_on sep l' with
        | w :: ws => (c :: w) :: ws
        | [] => [[c]]
        end
  end.

Fixpoint leading (sep : ascii) (l : list ascii) : nat :=
  match l with
  | c :: l' => if decide (c = sep) then S (leading sep l') else 0%nat
  | [] => 0%nat
  end.

(** [PurePosixPath(p).parts]: the root, if the path has one (two leading
    slashes are a root of their own), and then the names between the
    slashes, empty ones and dots left out. *)
Definition parts (p : string) : list string :=
  let l := String.list_ascii_of_string p in
  let root :=
    match leading "/"%char l with
    | 0%nat => []
    | 2%nat => ["//"]
    | _ => ["/"]
    end in
  root ++ map String.string_of_list_ascii
              (filter (λ w, w ≠ [] ∧ w ≠ ["."%char]) (split_on "/"%char l)).

(** The order of lists of strings, as Python compares them: by the first
    place where they differ, a list coming before its extensions. *)
Fixpoint parts_leb (a b : list string) : bool :=
  match a, b with
  | [], _ => true
  | _ :: _, [] => false
  | x :: a', y :: b' =>
      match String.compare x y with
      | Lt => true
      | Gt => false
      | Eq => parts_leb a' b'
      end
  end.

(** The order of paths: that of their parts, component by component. *)
Definition path_le (a b : string) : Prop := parts_leb (parts a) (parts b) = true.

#[global] Instance path_le_dec : RelDecision path_le.
Proof. intros a b. unfold path_le. apply _. Defined.

(** [sorted(...)] on paths. *)
Definition sorted (l : list string) : list string := merge_sort path_le l.

(** ** A [defaultdict(list)], in insertion order *)

Definition files_dict := list (string * list string).

(** [d[key]], without inserting. *)
Fixpoint get (d : files_dict) (key : string) : list string :=
  match d with
  | [] => []
  | (k, v) :: d' => if decide (k = key) then v else get d' key
  end.

(** [d[key].append(item)]. *)
Fixpoint append_at (d : files_dict) (key : string) (item : string) : files_dict :=
  match d with
  | [] => [(key, [item])]
  | (k, v) :: d' =>
      if decide (k = key) then (k, v ++ [item]) :: d'
      else (k, v) :: append_at d' key item
  end.

(** [d.pop(key)]. *)
Fixpoint pop (d : files_dict) (key : string) : files_dict :=
  match d with
  | [] => []
  | (k, v) :: d' => if decide (k = key) then d' else (k, v) :: pop d' key
  end.

(** ** Log records *)

Inductive Level := INFO | ERROR.

(** What a log record is made from. *)
Inductive LogArg :=
| ArgStr (s : string)
| ArgList (l : list string)
| ArgInt (n : Z).

(** A [logging.LogRecord]: level, format string, arguments, and the
    exception attached with [exc_info] (none unless the call asks). *)
Record LogRecord := mkLog {
  levelname : Level;
  msg : string;
  args : list LogArg;
  exc_info : option Exn
}.

Definition info (m : string) (a : list LogArg) : LogRecord := mkLog INFO m a None.
Definition error (m : string) (a : list LogArg) : LogRecord := mkLog ERROR m a None.

Section with_libraries.
Context `{!External}.

(** ** [_set_global_attributes] *)

Definition _set_global_attributes (cube : Cube.t) (attributes : gmap string string)
    (definition : VariableInfo) : Cube.t :=
  let cube := set_global_atts attributes cube in
  let cube :=
    if name_in (Cube.var_name cube) ["e"; "sf"]
    then Cube.set_units (UStr "m") cube
    else cube in
  let cube :=
    if name_in (Cube.var_name cube) ["e"; "sf"; "tp"; "pev"]
    then
      let cube := Cube.set_units (UMul (Cube.units cube) (UStr "kg m-3 day-1")) cube in
      Cube.set_data (Cube.map_data (λ x, x * 1000)%Q (Cube.data cube)) cube
    else cube in
  let cube :=
    if name_in (Cube.var_name cube) ["ssr"; "ssrd"; "tisr"; "hfds"]
    then
      let cube := Cube.set_units (UMul (Cube.units cube) (UStr "day-1")) cube in
      Cube.set_attributes (<["positive" := "down"]> (Cube.attributes cube)) cube
    else cube in
  let cube :=
    if name_in (Cube.var_name cube) ["iews"; "inss"]
    then Cube.set_attributes (<["positive" := "down"]> (Cube.attributes cube)) cube
    else cube in
  let cube :=
    if name_in (Cube.var_name cube) ["lsm"; "tcc"]
    then
      let cube := Cube.set_units (UStr (vi_units definition)) cube in
      Cube.set_data (Cube.map_data (λ x, x * 100)%Q (Cube.data cube)) cube
    else cube in
  let cube :=
    if name_in (Cube.var_name cube) ["z"]
    then
      let cube := Cube.set_units (UDiv (Cube.units cube) (UStr "m s-2")) cube in
      Cube.set_data (Cube.map_data (λ x, x / 9.80665)%Q (Cube.data cube)) cube
    else cube in
  cube.

(** ** [_fix_coordinates] *)

(** The body of the loop over the axes, on the coordinate object. *)
Definition fix_coordinate (axis : Axis) (coord_def : CoordinateInfo) (coord : Coord.t)
  : Res Coord.t :=
  let coord :=
    if decide (axis = AxisT)
    then coord_convert_units (UStr "days since 1850-1-1 00:00:00.0") coord
    else coord in
  let coord :=
    if decide (axis = AxisZ)
    then coord_convert_units (UStr (ci_units coord_def)) coord
    else coord in
  let coord := Coord.set_standard_name (Some (ci_standard_name coord_def)) coord in
  let coord := Coord.set_var_name (Some (ci_out_name coord_def)) coord in
  let coord := Coord.set_long_name (Some (ci_long_name coord_def)) coord in
  let coord := Coord.set_points (map astype_float64 (Coord.points coord)) coord in
  if decide (1 < length (Coord.points coord))%nat
  then coord_guess_bounds coord
  else Ok coord.

Definition fix_axis (cube : loc) (definition : VariableInfo) (axis : Axis) : M unit :=
  match vi_coordinates definition axis with
  | Some coord_def =>
      c ← read cube;
      coord ← lift (Cube.coord_of_axis axis c);
      coord ← lift (fix_coordinate axis coord_def coord);
      modify cube
        (Cube.update_coords (λ k, bool_decide (Coord.axis k = Some axis)) (λ _, coord))
  | None => ret tt
  end.

(** The function rebinds its local name [cube] to the cube made by the
    slice, works on that one, and returns nothing. *)
Definition _fix_coordinates (cube : loc) (definition : VariableInfo) : M unit :=
  c ← read cube;
  cube ← alloc (Cube.slice_reverse_dim1 c);
  when (bool_decide ("height2m" ∈ vi_dimensions definition))
       (modify cube (add_scalar_height_coord 2));;
  when (bool_decide ("height10m" ∈ vi_dimensions definition))
       (modify cube (add_scalar_height_coord 10));;
  fix_axis cube definition AxisT;;
  fix_axis cube definition AxisX;;
  fix_axis cube definition AxisY;;
  fix_axis cube definition AxisZ.

(** ** [_fix_frequency] *)

Definition is_time (k : Coord.t) : bool := bool_decide (Coord.name k = "time").

(** [cube.coord('time').points = [units.date2num(cell.point -
    timedelta(seconds=1)) for cell in cube.coord('time').cells()]]. *)
Definition shift_time_points (cube : Cube.t) : Res Cube.t :=
  time ← Cube.coord "time" cube;
  let u := Coord.units time in
  let points :=
    map (λ p, date2num u (num2date u p - timedelta_seconds 1)%Z) (Coord.points time) in
  Ok (Cube.update_coords is_time (Coord.set_points points) cube).

(** [cube.remove_coord(cube.coord(name))]. *)
Definition remove_named_coord (name : string) (cube : Cube.t) : Res Cube.t :=
  k ← Cube.coord name cube;
  Ok (Cube.remove_coord k cube).

(** [cube.coord('time').points = units.date2num([cell.point.replace(
    hour=12, minute=0, second=0, microsecond=0) for cell in ...])]. *)
Definition reset_time_points (cube : Cube.t) : Res Cube.t :=
  time ← Cube.coord "time" cube;
  let u := Coord.units time in
  let points :=
    map (λ p, date2num u (replace_hour 12 (num2date u p))) (Coord.points time) in
  Ok (Cube.update_coords is_time (Coord.set_points points) cube).

(** [cube.coord('time').bounds = None]. *)
Definition clear_time_bounds (cube : Cube.t) : Res Cube.t :=
  time ← Cube.coord "time" cube;
  Ok (Cube.update_coords is_time (Coord.set_bounds None) cube).

(** [cube.coord('time').guess_bounds()]. *)
Definition guess_time_bounds (cube : Cube.t) : Res Cube.t :=
  time ← Cube.coord "time" cube;
  time ← coord_guess_bounds time;
  Ok (Cube.update_coords is_time (λ _, time) cube).

Definition _fix_frequency (cube : loc) (var : Var) : M loc :=
  if bool_decide (mip var ∈ ["day"; "Eday"; "CFday"]) then
    c ← read cube;
    when (name_in (Cube.var_name c)
            ["tasmax"; "tasmin"; "pr"; "rsds"; "hfds"; "evspsbl"; "rsdt"; "rss"; "prsn"])
         (modify_res cube shift_time_points);;
    c ← read cube;
    cube ←
      (if decide (Cube.var_name c = Some "tasmax") then
         alloc (daily_statistics c "max")
       else if decide (Cube.var_name c = Some "tasmin") then
         alloc (daily_statistics c "min")
       else if name_in (Cube.var_name c)
                 ["pr"; "rsds"; "hfds"; "evspsbl"; "rsdt"; "rss"; "prsn"] then
         alloc (daily_statistics c "sum")
       else
         alloc (daily_statistics c "mean"));
    modify_res cube (remove_named_coord "day_of_year");;
    modify_res cube (remove_named_coord "year");;
    modify_res cube reset_time_points;;
    modify_res cube clear_time_bounds;;
    modify_res cube guess_time_bounds;;
    ret cube
  else ret cube.

(** ** [_get_files] *)

Definition var_short_name (var : Var) : Res string :=
  match short_name var with
  | Some s => Ok s
  | None => Raise (KeyError "short_name")
  end.

Definition var_files (var : Var) : Res (list string) :=
  match files var with
  | Some l => Ok l
  | None => Raise (KeyError "files")
  end.

(** The first loop: every match of every pattern, filed under its year. *)
Definition add_matches (in_dir : string) (d : files_dict) (in_file : string)
  : files_dict :=
  fold_left (λ d item, append_at d (year_of item) item)
            (sorted (glob in_dir in_file)) d.

Definition collect_files (in_dir : string) (patterns : list string) : files_dict :=
  fold_left (add_matches in_dir) patterns [].

(** The second loop, over the keys of a copy of the dictionary. *)
Fixpoint check_complete (var : Var) (n : nat) (years : list string)
    (d : files_dict) (log : list LogRecord) : Res (files_dict * list LogRecord) :=
  match years with
  | [] => Ok (d, log)
  | year :: years' =>
      if decide (length (get d year) ≠ n) then
        name ← var_short_name var;
        check_complete var n years' (pop d year)
          (log ++ [info "CMORizing %s at time '%s' needs '%s' input file/s"
                     [ArgStr name; ArgStr year; ArgInt (Z.of_nat n)]])
      else check_complete var n years' d log
  end.

Definition _get_files (in_dir : string) (var : Var)
  : Res (files_dict * list LogRecord) :=
  patterns ← var_files var;
  let d := collect_files in_dir patterns in
  check_complete var (length patterns) (map fst d) d [].

(** ** [_extract_variable] *)

(** The argument [in_file]: one path, or the paths of one year. *)
Inductive InFile :=
| OneFile (path : string)
| FileGroup (paths : list string).

(** What [utils.save_variable] is given. *)
Record Artifact := mkArtifact {
  saved_cube : Cube.t;
  saved_short_name : option string;
  saved_attributes : gmap string string;
  saved_local_keys : list string
}.

(** [var['raw'][i]]. *)
Definition raw_at (r : Raw) (i : nat) : Res string :=
  match r with
  | RawNames names =>
      match names !! i with
      | Some n => Ok n
      | None => Raise (IndexError "list index out of range")
      end
  | RawName name =>
      match String.get i name with
      | Some ch => Ok (String ch EmptyString)
      | None => Raise (IndexError "string index out of range")
      end
  end.

(** The loop [for i, item in enumerate(in_file)], from index [i] on;
    [cube] is the local variable, unbound ([None]) before the first
    round. *)
Fixpoint load_and_sum (items : list string) (i : nat) (r : Raw) (cube : option loc)
  : M (option loc) :=
  match items with
  | [] => ret cube
  | item :: items' =>
      name ← lift (raw_at r i);
      in_cube ← lift (load_cube item name);
      cube ←
        (match i, cube with
         | O, _ => alloc in_cube
         | S _, Some l => modify_res l (cube_iadd in_cube);; ret l
         | S _, None => raise (UnboundLocalError "cube")
         end);
      load_and_sum items' (S i) r (Some cube)
  end.

Definition load_input (in_file : InFile) (var : Var) : M loc :=
  match files var with
  | Some _ =>
      match operator var with
      | None => raise (KeyError "operator")
      | Some op =>
          if decide (op = "sum") then
            match in_file with
            | FileGroup items =>
                cube ← load_and_sum items 0 (raw var) None;
                match cube with
                | Some l =>
                    modify l (Cube.set_var_name (short_name var));;
                    ret l
                | None => raise (UnboundLocalError "cube")
                end
            | OneFile _ => raise (TypeError "'PosixPath' object is not iterable")
            end
          else raise (UnboundLocalError "cube")
      end
  | None =>
      match in_file, raw var with
      | OneFile path, RawName name =>
          c ← lift (load_cube path name);
          alloc c
      | _, _ => raise (ConstraintMismatchError "var_name")
      end
  end.

(** The first statement: the record of the variable and its input.  With
    ['files'] in the entry the paths are listed one by one, which a single
    path does not allow. *)
Definition log_extracting (in_file : InFile) (var : Var) : Res LogRecord :=
  name ← var_short_name var;
  match files var, in_file with
  | Some _, OneFile _ => Raise (TypeError "'PosixPath' object is not iterable")
  | Some _, FileGroup items | None, FileGroup items =>
      Ok (info "CMORizing variable '%s' from input file/s '%s'"
               [ArgStr name; ArgList items])
  | None, OneFile path =>
      Ok (info "CMORizing variable '%s' from input file/s '%s'"
               [ArgStr name; ArgStr path])
  end.

(** The records a task logs stay in its worker process and are not kept;
    the first one is built all the same, and building it may raise. *)
Definition _extract_variable (in_file : InFile) (var : Var) (cfg : Cfg) : M Artifact :=
  lift (log_extracting in_file var);;
  let attributes := <["mip" := mip var]> (cfg_attributes cfg) in
  project_id ←
    (match attributes !! "project_id" with
     | Some v => ret v
     | None => raise (KeyError "project_id")
     end);
  (* cmor_table = CMOR_TABLES[attributes['project_id']] *)
  (if has_cmor_table project_id then ret tt else raise (KeyError project_id));;
  name ← lift (var_short_name var);
  let definition := get_variable project_id (mip var) name in
  cube ← load_input in_file var;
  (* a variable the table does not know gives None, and the first use of
     one of its attributes raises *)
  definition ←
    (match definition with
     | Some d => ret d
     | None => raise (AttributeError "'NoneType' object has no attribute")
     end);
  modify cube (λ c, _set_global_attributes c attributes definition);;
  modify cube (Cube.set_var_name (Some (vi_short_name definition)));;
  modify cube (Cube.set_standard_name (Some (vi_standard_name definition)));;
  modify cube (Cube.set_long_name (Some (vi_long_name definition)));;
  modify cube (λ c, Cube.set_data (Cube.map_data astype_float32 (Cube.data c)) c);;
  _fix_coordinates cube definition;;
  cube ← _fix_frequency cube var;
  modify cube (cube_convert_units (UStr (vi_units definition)));;
  c ← read cube;
  ret (mkArtifact c (Cube.var_name c) attributes ["positive"]).

(** ** [cmorization] *)

(** A submitted task: the arguments of [_extract_variable] and the value
    kept for it in [futures]. *)
Record Task := mkTask {
  task_in_file : InFile;
  task_var : Var;
  task_key : LogArg
}.

(** [int(cpu_count() / 1.5)].  Dividing by 1.5 is two thirds; no
    rounding of the quotient reaches the next integer for a count below
    2^50, so truncating gives the integer quotient. *)
Definition n_workers : Z := (2 * cpu_count) `quot` 3.

(** The pool made by [ProcessPoolExecutor(max_workers=1)]. *)
Definition max_workers : Z := 1.

(** The tasks one variable submits, with what [_get_files] logs. *)
Definition submit_variable (in_dir : string) (short : string) (var : Var)
  : list Task * list LogRecord * Res unit :=
  let var :=
    match short_name var with
    | Some _ => var
    | None => mkVar (Some short) (mip var) (raw var) (file var) (files var) (operator var)
    end in
  let single :=
    match file var with
    | Some pattern =>
        map (λ in_file, mkTask (OneFile in_file) var (ArgStr in_file))
            (sorted (glob in_dir pattern))
    | None => []
    end in
  match files var with
  | Some _ =>
      match _get_files in_dir var with
      | Ok (d, log) =>
          (single ++ map (λ kv, mkTask (FileGroup kv.2) var (ArgList kv.2)) d, log, Ok tt)
      | Raise e => (single, [], Raise e)
      end
  | None => (single, [], Ok tt)
  end.

(** The loop over [cfg['variables'].items()]; it stops at an exception. *)
Fixpoint submit_all (in_dir : string) (vars : list (string * Var))
  : list Task * list LogRecord * Res unit :=
  match vars with
  | [] => ([], [], Ok tt)
  | (short, var) :: vars' =>
      match submit_variable in_dir short var with
      | (tasks, log, Ok _) =>
          let '(tasks', log', r) := submit_all in_dir vars' in
          (tasks ++ tasks', log ++ log', r)
      | (tasks, log, Raise e) => (tasks, log, Raise e)
      end
  end.

(** A task in its worker process: a store of its own. *)
Definition run_task (cfg : Cfg) (t : Task) : Res Artifact :=
  match _extract_variable (task_in_file t) (task_var t) cfg ∅ with
  | Ok (a, _) => Ok a
  | Raise e => Raise e
  end.

(** The loop over [as_completed(futures)]: a future is a task with its
    outcome. *)
Fixpoint collect (futures : list (Task * Res Artifact)) (log : list LogRecord)
  : list LogRecord * Res unit :=
  match futures with
  | [] => (log, Ok tt)
  | (t, r) :: futures' =>
      match r with
      | Raise e => (log ++ [error "Failed to CMORize %s" [task_key t]], Raise e)
      | Ok _ => collect futures' (log ++ [info "Finished CMORizing %s" [task_key t]])
      end
  end.

(** What a run leaves behind. *)
Record Run := mkRun {
  run_log : list LogRecord;
  run_pool_size : Z;
  run_attempted : list Task;
  run_written : list Artifact;
  run_result : Res unit
}.

Definition artifacts (outcomes : list (Res Artifact)) : list Artifact :=
  omap (λ r, match r with Ok a => Some a | Raise _ => None end) outcomes.

Definition cmorization (in_dir : string) (cfg : Cfg) (cmor_table : option string) : Run :=
  match cfg_attributes cfg !! "comment", cmor_table with
  | None, _ => mkRun [] 0 [] [] (Raise (KeyError "comment"))
  | _, None => mkRun [] 0 [] [] (Raise (KeyError "cmor_table"))
  | Some comment, Some _ =>
      let cfg := mkCfg (<["comment" := format_year comment]> (cfg_attributes cfg))
                       (cfg_variables cfg) in
      let log := [info "Using at most %s workers" [ArgInt n_workers]] in
      (* with ProcessPoolExecutor(max_workers=1) as executor: *)
      let '(tasks, log', submitted) := submit_all in_dir (cfg_variables cfg) in
      (* leaving the block waits until every submitted task has run *)
      let outcomes := map (run_task cfg) tasks in
      let log := log ++ log' in
      match submitted with
      | Raise e => mkRun log max_workers tasks (artifacts outcomes) (Raise e)
      | Ok _ =>
          let futures := zip tasks outcomes in
          let order := as_completed (seq 0 (length futures)) in
          let '(log, r) := collect (omap (λ i, futures !! i) order) log in
          mkRun log max_workers tasks (artifacts outcomes) r
      end
  end.

End with_libraries.

End EraInterim.

(** * inmcm4.py *)

Module Inmcm4.

(** What a tuple taken earlier by [cube.metadata] holds when it is used:
    the names, the units and the cell methods read then, and the
    attributes dictionary of the cube itself, not a copy, so with the
    entries the cube has [now]. *)
Definition shared_attributes (now : Cube.t) (metadata : CubeMetadata) : CubeMetadata :=
  mkMetadata (md_standard_name metadata) (md_long_name metadata)
             (md_var_name metadata) (md_units metadata)
             (Cube.attributes now) (md_cell_methods metadata).

Module gpp.
Section with_libraries.
Context `{!External}.

Definition fix_data (cube : loc) : M loc :=
  c ← read cube;
  let metadata := Cube.metadata c in
  modify cube (cube_imul (-1));;
  now ← read cube;
  modify cube (Cube.set_metadata (shared_attributes now metadata));;
  ret cube.

End with_libraries.
End gpp.

Module lai.
Section with_libraries.
Context `{!External}.

Definition fix_data (cube : loc) : M loc :=
  c ← read cube;
  let metadata := Cube.metadata c in
  modify cube (cube_imul 0.01);;
  now ← read cube;
  modify cube (Cube.set_metadata (shared_attributes now metadata));;
  ret cube.

End with_libraries.
End lai.

End Inmcm4.

(** * netcre.py *)

Module Netcre.
Section with_libraries.
Context `{!External}.

(** [Lwcre().calculate] and [Swcre().calculate], of the sibling modules
    [lwcre] and [swcre]. *)
Variable Lwcre_calculate Swcre_calculate : list Cube.t → Res Cube.t.

Definition get_required (frequency : string) : list (string * string) :=
  [("rlut", "T2" +:+ frequency +:+ "s");
   ("rlutcs", "T2" +:+ frequency +:+ "s");
   ("rsut", "T2" +:+ frequency +:+ "s");
   ("rsutcs", "T2" +:+ frequency +:+ "s")].

Definition calculate (cubes : list Cube.t) : Res Cube.t :=
  lwcre_cube ← Lwcre_calculate cubes;
  swcre_cube ← Swcre_calculate cubes;
  netcre_cube ← cube_add lwcre_cube swcre_cube;
  let netcre_cube := Cube.set_units (Cube.units lwcre_cube) netcre_cube in
  Ok netcre_cube.

End with_libraries.
End Netcre.

(** * cmorize_obs_duveiller2018.py *)

Module Duveiller2018.

(** ** Dates *)

(** Day number of a date of the Gregorian calendar, day 0 being
    1970-01-01. *)
Definition days_from_civil (y m d : Z) : Z :=
  let y := if decide (m ≤ 2)%Z then (y - 1)%Z else y in
  let era := (y `div` 400)%Z in
  let yoe := (y - era * 400)%Z in
  let mp := ((m + 9) `mod` 12)%Z in
  let doy := ((153 * mp + 2) `div` 5 + d - 1)%Z in
  let doe := (yoe * 365 + yoe `div` 4 - yoe `div` 100 + doy)%Z in
  (era * 146097 + doe - 719468)%Z.

(** [datetime.datetime(y, m, d)]: midnight of that day. *)
Definition datetime_ymd (y m d : Z) : datetime :=
  (days_from_civil y m d * microseconds_per_day)%Z.

(** [0.5 * delta] for a [timedelta]: half of it, rounded to a whole
    microsecond, a tie going to the even one. *)
Definition half_timedelta (delta : Z) : Z :=
  let q := (delta `div` 2)%Z in
  if decide (delta `mod` 2 = 0)%Z then q
  else if decide (q `mod` 2 = 0)%Z then q else (q + 1)%Z.

(** [cf_units.date2num(t, 'days since 1950-01-01', CALENDAR_GREGORIAN)]. *)
Definition custom_time_units : string := "days since 1950-01-01".

Definition date2num (t : datetime) : Q :=
  Qred (Qmake (t - datetime_ymd 1950 1 1)%Z (Z.to_pos microseconds_per_day)).

(** ** [fix_time_coord_duveiller2018] *)

(** One round of the loop: the bounds of month [n_month] and the point
    between them. *)
Definition time_bnd_a (n_month : Z) : datetime := datetime_ymd 2010 n_month 1.

Definition time_bnd_b (n_month : Z) : datetime :=
  if decide (n_month = 12)%Z then datetime_ymd 2011 1 1
  else datetime_ymd 2010 (n_month + 1) 1.

Definition time_midpoint (n_month : Z) : datetime :=
  (time_bnd_a n_month + half_timedelta (time_bnd_b n_month - time_bnd_a n_month))%Z.

(** The month numbers [i + 1] for [i] in [range(12)]. *)
Definition month_numbers : list Z := map (λ i, (Z.of_nat i + 1)%Z) (seq 0 12).

Definition time_bnds : list (Q * Q) :=
  map (λ n_month, (date2num (time_bnd_a n_month), date2num (time_bnd_b n_month)))
      month_numbers.

Definition time_midpoints : list Q :=
  map (λ n_month, date2num (time_midpoint n_month)) month_numbers.

(** [coord.rename(name)] for a name that is a standard name, as [time]
    is: the standard name is set, long name and var name are cleared. *)
Definition rename (name : string) (coord : Coord.t) : Coord.t :=
  Coord.set_var_name None
    (Coord.set_long_name None (Coord.set_standard_name (Some name) coord)).

(** [coord.bounds = bounds] and [coord.points = points]: refused when the
    new array has not the shape of the points. *)
Definition assign_bounds (bounds : list (Q * Q)) (coord : Coord.t) : Res Coord.t :=
  if decide (length bounds = length (Coord.points coord))
  then Ok (Coord.set_bounds (Some bounds) coord)
  else Raise (ValueError "Bounds shape must be compatible with points shape.").

Definition assign_points (points : list Q) (coord : Coord.t) : Res Coord.t :=
  if decide (length points = length (Coord.points coord))
  then Ok (Coord.set_points points coord)
  else Raise (ValueError "Require data with the shape of the points").

Definition named (name : string) (k : Coord.t) : bool :=
  bool_decide (Coord.name k = name).

Definition fix_time_coord_duveiller2018 (cube : Cube.t) : Res Cube.t :=
  (* Rename 'Month' to 'time' *)
  _ ← Cube.coord "Month" cube;
  let cube := Cube.update_coords (named "Month") (rename "time") cube in
  (* Add them to the cube *)
  time ← Cube.coord "time" cube;
  time ← assign_bounds time_bnds time;
  let cube := Cube.update_coords (named "time") (λ _, time) cube in
  time ← Cube.coord "time" cube;
  time ← assign_points time_midpoints time;
  let cube := Cube.update_coords (named "time") (λ _, time) cube in
  (* Set the correct time unit *)
  time ← Cube.coord "time" cube;
  Ok (Cube.update_coords (named "time")
        (Coord.set_units (UStr custom_time_units)) cube).

(** ** The raw file *)

(** A cube of the raw file: transition code, month, latitude and
    longitude are its four dimensions. *)
Record RawCube := mkRawCube {
  raw_metadata : CubeMetadata;
  raw_data : list (list (list (list Q)));
  raw_coords : list Coord.t
}.

(** An entry of [cfg['variables']] and the configuration; an absent key
    is [None]. *)
Record Vals := mkVals {
  vals_file : option string;
  vals_mip : option string;
  vals_raw : option string
}.

Record Config := mkConfig {
  config_cmor_table : option unit;
  config_attributes : option (gmap string string);
  config_variables : option (list (string * Vals));
  config_parameters : option (gmap string Q)
}.

Class Utilities := {
  (** iris: [iris.load(file)] *)
  iris_load : string → Res (list RawCube);
  (** cmorizer utilities *)
  fix_var_metadata : VariableInfo → Cube.t → Cube.t;
  fix_coords : Cube.t → Cube.t;
  (** the table of the configuration: [cmor_table.get_variable(mip, var)] *)
  table_get_variable : string → string → option VariableInfo;
  (** a number as the value of an attribute *)
  attribute_text : Q → string
}.

(** What a run leaves behind: the log, the cubes handed to
    [save_variable], and how it ended. *)
Record Outcome := mkOutcome {
  out_log : list EraInterim.LogRecord;
  out_written : list EraInterim.Artifact;
  out_result : Res unit
}.

(** ** [extract_variable] *)

(** [np.where(points == itr)[0][0]]. *)
Fixpoint index_where (itr : Q) (points : list Q) : Res nat :=
  match points with
  | [] => Raise (IndexError "index 0 is out of bounds for axis 0 with size 0")
  | p :: points' =>
      if Qeq_bool p itr then Ok 0%nat
      else i ← index_where itr points'; Ok (S i)
  end.

(** The coordinates of [cube[i, :, :, :]]: a coordinate of dimension 0
    is left with its value at [i] and spans no dimension; the others move
    down by one dimension. *)
Definition index_coord (i : nat) (k : Coord.t) : Coord.t :=
  match Coord.dim k with
  | Some 0%nat =>
      Coord.mk (Coord.standard_name k) (Coord.long_name k) (Coord.var_name k)
               (Coord.units k) (take 1 (drop i (Coord.points k)))
               ((λ b, take 1 (drop i b)) <$> Coord.bounds k) None (Coord.axis k)
  | Some (S d) =>
      Coord.mk (Coord.standard_name k) (Coord.long_name k) (Coord.var_name k)
               (Coord.units k) (Coord.points k) (Coord.bounds k) (Some d) (Coord.axis k)
  | None => k
  end.

(** [cube[i, :, :, :]]: a new cube. *)
Definition index_dim0 (i : nat) (cube : RawCube) : Res Cube.t :=
  match raw_data cube !! i with
  | Some data => Ok (Cube.mk (raw_metadata cube) data (map (index_coord i) (raw_coords cube)))
  | None => Raise (IndexError "index out of bounds for axis 0")
  end.

(** [np.flip(a, axis)] on the data of a cube of three dimensions. *)
Definition flip (axis : nat) (data : list (list (list Q))) : Res (list (list (list Q))) :=
  match axis with
  | 0%nat => Ok (rev data)
  | 1%nat => Ok (map (@rev (list Q)) data)
  | 2%nat => Ok (map (map (@rev Q)) data)
  | _ => Raise (ValueError "axis is out of bounds for array of dimension 3")
  end.

(** [np.flip(bounds, axis=0)] and [np.flip(bounds, axis=1)]. *)
Definition flip_rows (bounds : list (Q * Q)) : list (Q * Q) := rev bounds.
Definition flip_columns (bounds : list (Q * Q)) : list (Q * Q) :=
  map (λ b, (b.2, b.1)) bounds.

Definition dim_coord_named (name : string) (k : Coord.t) : bool :=
  bool_decide (Coord.name k = name ∧ is_Some (Coord.dim k)).

(** The latitude block: the coordinate found by
    [cube.coord('latitude', dim_coords=True)] and the data along its
    dimension are flipped. *)
Definition flip_latitude (cube : Cube.t) : Res Cube.t :=
  match filter (λ k, dim_coord_named "latitude" k = true) (Cube.coords cube) with
  | [coord] =>
      coord_idx ←
        (match Coord.dim coord with
         | Some d => Ok d
         | None => Raise (CoordinateNotFoundError "latitude")
         end);
      let coord := Coord.set_points (rev (Coord.points coord)) coord in
      bounds ←
        (match Coord.bounds coord with
         | Some b => Ok b
         | None => Raise (ValueError "axis 0 is out of bounds for array of dimension 0")
         end);
      let coord := Coord.set_bounds (Some (flip_rows bounds)) coord in
      let coord := Coord.set_bounds (Some (flip_columns (flip_rows bounds))) coord in
      data ← flip coord_idx (Cube.data cube);
      Ok (Cube.set_data data
            (Cube.update_coords (dim_coord_named "latitude") (λ _, coord) cube))
  | _ => Raise (CoordinateNotFoundError "latitude")
  end.

Section with_libraries.
Context `{!External, !Utilities}.

(** The body of the loop for a cube that has the raw name, up to the
    time coordinate. *)
Definition prepare_cube (var_info : VariableInfo) (cfg : Config) (cube : RawCube)
  : Res Cube.t :=
  parameters ←
    (match config_parameters cfg with
     | Some p => Ok p
     | None => Raise (KeyError "parameters")
     end);
  itr ←
    (match parameters !! "iTr" with
     | Some v => Ok v
     | None => Raise (KeyError "iTr")
     end);
  code ←
    (match filter (λ k, Coord.name k = "Vegetation transition code") (raw_coords cube) with
     | k :: _ => Ok k
     | [] => Raise (IndexError "list index out of range")
     end);
  itr_index ← index_where itr (Coord.points code);
  cube ← index_dim0 itr_index cube;
  let cube :=
    Cube.set_attributes
      (<["Vegetation transition code" := attribute_text itr]> (Cube.attributes cube))
      cube in
  cube ← EraInterim.remove_named_coord "Vegetation transition code" cube;
  let cube := fix_var_metadata var_info cube in
  let cube := fix_coords cube in
  fix_time_coord_duveiller2018 cube.

(** The loop over the cubes of the file. *)
Fixpoint extract_cubes (var_info : VariableInfo) (rawvar : string)
    (attrs : gmap string string) (cfg : Config) (cubes : list RawCube) : Outcome :=
  match cubes with
  | [] => mkOutcome [] [] (Ok tt)
  | cube :: cubes' =>
      if decide (md_var_name (raw_metadata cube) = Some rawvar) then
        match prepare_cube var_info cfg cube with
        | Raise e => mkOutcome [] [] (Raise e)
        | Ok cube =>
            let log :=
              [EraInterim.info "Flipping dimensional coordinate (custom) %s..."
                 [EraInterim.ArgStr "latitude"]] in
            match flip_latitude cube with
            | Raise e => mkOutcome log [] (Raise e)
            | Ok cube =>
                let cube := set_global_atts attrs cube in
                let saved :=
                  EraInterim.mkArtifact cube (Some (vi_short_name var_info)) attrs
                    ["positive"] in
                let rest := extract_cubes var_info rawvar attrs cfg cubes' in
                mkOutcome (log ++ out_log rest) (saved :: out_written rest)
                          (out_result rest)
            end
        end
      else extract_cubes var_info rawvar attrs cfg cubes'
  end.

(** [raw_info] is given by its two entries. *)
Definition extract_variable (var_info : option VariableInfo) (raw_name raw_file : string)
    (attrs : gmap string string) (cfg : Config) : Outcome :=
  match var_info with
  | None =>
      mkOutcome [] []
        (Raise (AttributeError "'NoneType' object has no attribute 'short_name'"))
  | Some var_info =>
      match iris_load raw_file with
      | Raise e => mkOutcome [] [] (Raise e)
      | Ok cubes => extract_cubes var_info raw_name attrs cfg cubes
      end
  end.

(** ** [cmorization] *)

(** [os.path.join(a, b)]. *)
Definition path_join (a b : string) : string :=
  if String.prefix "/" b then b
  else if decide (a = "") then b
  else if decide (List.last (String.list_ascii_of_string a) "/"%char = "/"%char)
       then a +:+ b
       else a +:+ "/" +:+ b.

(** The loop over [cfg['variables'].items()]; [glob_attrs] is the
    dictionary [cfg['attributes']] itself, which the loop writes to.  What
    [print] sends to the standard output is left out. *)
Fixpoint process_variables (in_dir : string) (cfg : Config)
    (glob_attrs : gmap string string) (variables : list (string * Vals)) : Outcome :=
  match variables with
  | [] => mkOutcome [] [] (Ok tt)
  | (var, vals) :: variables' =>
      match vals_file vals with
      | None => mkOutcome [] [] (Raise (KeyError "file"))
      | Some file =>
          let inpfile := path_join in_dir file in
          let log :=
            [EraInterim.info "CMORizing var %s from file %s"
               [EraInterim.ArgStr var; EraInterim.ArgStr inpfile]] in
          match vals_mip vals, vals_raw vals with
          | None, _ => mkOutcome log [] (Raise (KeyError "mip"))
          | Some _, None => mkOutcome log [] (Raise (KeyError "raw"))
          | Some mip, Some raw =>
              let var_info := table_get_variable mip var in
              let glob_attrs := <["mip" := mip]> glob_attrs in
              let this := extract_variable var_info raw inpfile glob_attrs cfg in
              match out_result this with
              | Raise e => mkOutcome (log ++ out_log this) (out_written this) (Raise e)
              | Ok _ =>
                  let rest := process_variables in_dir cfg glob_attrs variables' in
                  mkOutcome (log ++ out_log this ++ out_log rest)
                            (out_written this ++ out_written rest)
                            (out_result rest)
              end
          end
      end
  end.

Definition cmorization (in_dir out_dir : string) (cfg : Config) : Outcome :=
  match config_cmor_table cfg, config_attributes cfg with
  | None, _ => mkOutcome [] [] (Raise (KeyError "cmor_table"))
  | Some _, None => mkOutcome [] [] (Raise (KeyError "attributes"))
  | Some _, Some glob_attrs =>
      match glob_attrs !! "tier", glob_attrs !! "dataset_id" with
      | None, _ => mkOutcome [] [] (Raise (KeyError "tier"))
      | Some _, None => mkOutcome [] [] (Raise (KeyError "dataset_id"))
      | Some tier, Some dataset_id =>
          let log :=
            [EraInterim.info "Starting cmorization for Tier%s OBS files: %s"
               [EraInterim.ArgStr tier; EraInterim.ArgStr dataset_id];
             EraInterim.info "Input data from: %s" [EraInterim.ArgStr in_dir];
             EraInterim.info "Output will be written to: %s" [EraInterim.ArgStr out_dir]] in
          match config_variables cfg with
          | None => mkOutcome log [] (Raise (KeyError "variables"))
          | Some variables =>
              let run := process_variables in_dir cfg glob_attrs variables in
              mkOutcome (log ++ out_log run) (out_written run) (out_result run)
          end
      end
  end.

End with_libraries.

End Duveiller2018.

(** * ocean3d.py *)

Module Ocean3d.

(** ** Values of the configuration *)

(** What the recipe can put under a key, and what the functions of the
    diagnostic hand around; [VObject] stands for an object of a library
    (a colour map, an array of levels, a projection). *)
Inductive Value :=
| VNone
| VBool (b : bool)
| VInt (n : Z)
| VFloat (x : Q)
| VStr (s : string)
| VList (l : list Value)
| VDict (d : list (string * Value))
| VObject (repr : string).

Abbreviation Cfg := (gmap string Value) (only parsing).

(** [bool(v)]. *)
Definition truthy (v : Value) : bool :=
  match v with
  | VNone => false
  | VBool b => b
  | VInt n => negb (n =? 0)%Z
  | VFloat x => negb (Qeq_bool x 0)
  | VStr s => negb (String.eqb s "")
  | VList l => match l with [] => false | _ => true end
  | VDict d => match d with [] => false | _ => true end
  | VObject _ => true
  end.

Definition characters (s : string) : list Value :=
  map (λ c, VStr (String c EmptyString)) (String.list_ascii_of_string s).

(** [list(v)]: the items a loop over [v] goes through. *)
Definition iterate (v : Value) : Res (list Value) :=
  match v with
  | VList l => Ok l
  | VStr s => Ok (characters s)
  | VDict d => Ok (map (λ kv, VStr kv.1) d)
  | _ => Raise (TypeError "object is not iterable")
  end.

(** [v[i]] for a number [i]. *)
Definition index (v : Value) (i : nat) : Res Value :=
  match v with
  | VList l =>
      match l !! i with
      | Some x => Ok x
      | None => Raise (IndexError "list index out of range")
      end
  | VStr s =>
      match characters s !! i with
      | Some x => Ok x
      | None => Raise (IndexError "string index out of range")
      end
  | VDict _ => Raise (KeyError "var_number")
  | _ => Raise (TypeError "object is not subscriptable")
  end.

(** [a, b, c, d = v]. *)
Definition unpack4 (v : Value) : Res (Value * Value * Value * Value) :=
  match iterate v with
  | Ok [a; b; c; d] => Ok (a, b, c, d)
  | Ok _ => Raise (ValueError "wrong number of values to unpack")
  | Raise _ => Raise (TypeError "cannot unpack non-iterable object")
  end.

(** [cfg[key]]. *)
Definition item (cfg : Cfg) (key : string) : Res Value :=
  match cfg !! key with
  | Some v => Ok v
  | None => Raise (KeyError key)
  end.

(** ** Calls, log records and the trace of a run *)

(** A call of a function of [getdata], [plotting] or [utils]: positional
    and keyword arguments. *)
Record Call := mkCall {
  function : string;
  args : list Value;
  kwargs : list (string * Value)
}.

Inductive Event :=
| Dumped
| Logged (msg : string) (arguments : list Value)
| Called (c : Call).

Class Libraries := {
  (** [pickle.dump(cfg, handle)] into the file [cfg_NK.joblib] *)
  dump : Cfg → Res unit;
  (** ocean3d.utils *)
  find_observations_name : Cfg → string → Res Value;
  get_fx_filenames : Cfg → string → string → Res Value;
  get_clim_model_filenames : Cfg → Value → Res (list (string * Value));
  get_cmap : Value → Res Value;
  (** numpy: [np.round(np.linspace(vmin, vmax, sstep), roundlimit)] *)
  levels : Value → Value → Value → Value → Res Value;
  (** what a call returns, or raises *)
  returns : Call → Res Value
}.

(** A statement: the events it adds to the trace, and its result. *)
Definition W (A : Type) : Type := list Event * Res A.

Definition unit_W {A} (a : A) : W A := ([], Ok a).
Definition bind_W {A B} (m : W A) (k : A → W B) : W B :=
  match m with
  | (trace, Ok a) => let '(trace', r) := k a in (trace ++ trace', r)
  | (trace, Raise e) => (trace, Raise e)
  end.

#[global] Instance W_ret : MRet W := @unit_W.
#[global] Instance W_bind : MBind W := λ A B k m, bind_W m k.

Definition eval {A} (r : Res A) : W A := ([], r).
Definition logger_info (msg : string) (arguments : list Value) : W unit :=
  ([Logged msg arguments], Ok tt).
Definition if_then (b : bool) (m : W unit) : W unit := if b then m else mret tt.

Fixpoint for_each {A} (l : list A) (body : A → W unit) : W unit :=
  match l with
  | [] => mret tt
  | a :: l' => body a;; for_each l' body
  end.

(** [OrderedDict(sorted(d.items(), key=lambda t: t[0]))]. *)
Definition key_le (a b : string * Value) : Prop := String.leb a.1 b.1 = true.

#[global] Instance key_le_dec : RelDecision key_le.
Proof. intros a b. unfold key_le. apply _. Defined.

Definition sorted_by_name (d : list (string * Value)) : list (string * Value) :=
  merge_sort key_le d.

(** [itertools.product(d, l)] for a dictionary [d]: its keys, each with
    every item of [l]. *)
Definition product (d : list (string * Value)) (l : list Value) : list (string * Value) :=
  kv ← d; map (λ x, (kv.1, x)) l.

(** [enumerate(l)]. *)
Definition enumerate (l : list Value) : list (nat * Value) := zip (seq 0 (length l)) l.

Section with_libraries.
Context `{!Libraries}.

Definition call (function : string) (args : list Value) (kwargs : list (string * Value))
  : W Value :=
  let c := mkCall function args kwargs in ([Called c], returns c).

(** The models of a variable, by name. *)
Definition models (cfg : Cfg) (var : Value) : W (list (string * Value)) :=
  model_filenames ← eval (get_clim_model_filenames cfg var);
  mret (sorted_by_name model_filenames).

(** [get_cmap(cfg[key][var_number])] if [cfg[key]] is set, and
    [get_cmap('Spectral_r')] otherwise. *)
Definition colour_map (cfg : Cfg) (key : string) (var_number : nat) : W Value :=
  v ← eval (item cfg key);
  if truthy v then
    v ← eval (item cfg key);
    name ← eval (index v var_number);
    eval (get_cmap name)
  else eval (get_cmap (VStr "Spectral_r")).

(** [cfg[key]] if it is set, and 3 otherwise. *)
Definition columns (cfg : Cfg) (key : string) : W Value :=
  v ← eval (item cfg key);
  if truthy v then eval (item cfg key) else mret (VInt 3).

(** [vmin, vmax, sstep, roundlimit = cfg[key][var_number]]. *)
Definition limits (cfg : Cfg) (key : string) (var_number : nat)
  : W (Value * Value * Value * Value) :=
  v ← eval (item cfg key);
  v ← eval (index v var_number);
  eval (unpack4 v).

(** The items of [cfg[key]], for a loop. *)
Definition items (cfg : Cfg) (key : string) : W (list Value) :=
  v ← eval (item cfg key);
  eval (iterate v).

(** *** Extract data for Hovmoeller diagrams *)
Definition extract_hofm (cfg : Cfg) (areacello_fx diagworkdir : Value) : W unit :=
  flag ← eval (item cfg "hofm_data");
  if_then (truthy flag)
    (logger_info "The `hofm_data` is True, going                      to extract monthly values for `hofm_regions`" [];;
     hofm_vars ← eval (item cfg "hofm_vars");
     logger_info "`hofm_vars` are: %s" [hofm_vars];;
     hofm_vars ← items cfg "hofm_vars";
     for_each hofm_vars (λ hofm_var,
       logger_info "Processing %s" [hofm_var];;
       model_filenames ← models cfg hofm_var;
       regions ← items cfg "hofm_regions";
       for_each (product model_filenames regions) (λ '(mmodel, region),
         depth ← eval (item cfg "hofm_depth");
         call "hofm_data"
              [VDict model_filenames; VStr mmodel; hofm_var; areacello_fx; depth; region;
               diagworkdir] [];;
         mret tt))).

(** *** Plot Hovmoeller diagrams for each variable *)
Definition plot_hofm (cfg : Cfg) (diagworkdir diagplotdir observations : Value) : W unit :=
  flag ← eval (item cfg "hofm_plot");
  if_then (truthy flag)
    (hofm_vars ← items cfg "hofm_vars";
     for_each (enumerate hofm_vars) (λ '(var_number, hofm_var),
       model_filenames ← models cfg hofm_var;
       cmap ← colour_map cfg "hofm_cmap" var_number;
       ncols ← columns cfg "hofm_ncol";
       '(vmin, vmax, sstep, roundlimit) ← limits cfg "hofm_limits" var_number;
       regions ← items cfg "hofm_regions";
       for_each (product model_filenames regions) (λ '(mmodel, region),
         logger_info "Plotting Model: %s for Region: %s, Variable %s"
                     [VStr mmodel; region; hofm_var];;
         depth ← eval (item cfg "hofm_depth");
         lev ← eval (levels vmin vmax sstep roundlimit);
         call "hofm_plot"
              [VDict model_filenames; hofm_var; depth; region; diagworkdir; diagplotdir]
              [("levels", lev); ("ncols", ncols); ("cmap", cmap);
               ("observations", observations)];;
         mret tt))).

(** *** Create timemean *)
Definition time_mean (cfg : Cfg) (diagworkdir observations : Value) : W unit :=
  flag ← eval (item cfg "mean");
  if_then (truthy flag)
    (hofm_vars ← items cfg "hofm_vars";
     for_each hofm_vars (λ hofm_var,
       model_filenames ← models cfg hofm_var;
       for_each model_filenames (λ '(model, _),
         call "timmean" [VDict model_filenames; VStr model; hofm_var; diagworkdir]
              [("observations", observations)];;
         mret tt))).

(** *** Plot average vertical profiles for regions *)
Definition plot_profiles (cfg : Cfg) (diagworkdir diagplotdir observations : Value)
  : W unit :=
  flag ← eval (item cfg "profiles");
  if_then (truthy flag)
    (hofm_vars ← items cfg "hofm_vars";
     for_each (enumerate hofm_vars) (λ '(var_number, hofm_var),
       model_filenames ← models cfg hofm_var;
       regions ← items cfg "hofm_regions";
       for_each regions (λ region,
         depth ← eval (item cfg "hofm_depth");
         call "plot_profile"
              [VDict model_filenames; hofm_var; depth; region; diagworkdir; diagplotdir]
              [("cmap", VObject "cm.Set2"); ("dpi", VInt 100);
               ("observations", observations)];;
         mret tt))).

(** *** Plot 2d maps on original grid *)
Definition plot_2d (cfg : Cfg) (diagworkdir diagplotdir : Value) : W unit :=
  flag ← eval (item cfg "plot2d");
  if_then (truthy flag)
    (plot2d_vars ← items cfg "plot2d_vars";
     for_each (enumerate plot2d_vars) (λ '(var_number, plot2d_var),
       model_filenames ← models cfg plot2d_var;
       cmap ← colour_map cfg "plot2d_cmap" var_number;
       ncols ← columns cfg "plot2d_ncol";
       '(vmin, vmax, sstep, roundlimit) ← limits cfg "plot2d_limits" var_number;
       depths ← items cfg "plot2d_depths";
       for_each depths (λ depth,
         lev ← eval (levels vmin vmax sstep roundlimit);
         call "plot2d_original_grid" [VDict model_filenames; plot2d_var; depth]
              [("levels", lev); ("diagworkdir", diagworkdir);
               ("diagplotdir", diagplotdir); ("dpi", VInt 100)];;
         mret tt))).

(** *** Plot model biases over depth *)
Definition plot_2d_bias (cfg : Cfg) (diagworkdir diagplotdir observations : Value)
  : W unit :=
  flag ← eval (item cfg "plot2d_bias");
  if_then (truthy flag)
    (plot2d_bias_vars ← items cfg "plot2d_bias_vars";
     for_each (enumerate plot2d_bias_vars) (λ '(var_number, plot2d_bias_var),
       model_filenames ← models cfg plot2d_bias_var;
       cmap ← colour_map cfg "plot2d_bias_cmap" var_number;
       ncols ← columns cfg "plot2d_bias_ncol";
       '(vmin, vmax, sstep, roundlimit) ← limits cfg "plot2d_bias_limits" var_number;
       depths ← items cfg "plot2d_bias_depths";
       for_each depths (λ depth,
         lev ← eval (levels vmin vmax sstep roundlimit);
         call "plot2d_bias"
              [VDict model_filenames; plot2d_bias_var; depth; diagworkdir; diagplotdir]
              [("levels", lev); ("dpi", VInt 100); ("observations", observations)];;
         mret tt))).

(** *** Plot transects *)
Definition plot_transects (cfg : Cfg) (diagworkdir diagplotdir : Value) : W unit :=
  flag ← eval (item cfg "transects");
  if_then (truthy flag)
    (regions ← items cfg "transects_regions";
     for_each regions (λ region,
       call "transect_map" [region; diagplotdir]
            [("projection", VObject "ccrs.NorthPolarStereo()");
             ("bbox", VList [VInt (-180); VInt 180; VInt 60; VInt 90]);
             ("mult", VInt 2)];;
       mret tt);;
     transects_vars ← items cfg "transects_vars";
     for_each (enumerate transects_vars) (λ '(var_number, trans_var),
       model_filenames ← models cfg trans_var;
       regions ← items cfg "transects_regions";
       for_each (product model_filenames regions) (λ '(mmodel, region),
         call "transect_data" [VStr mmodel; trans_var; region; diagworkdir] [];;
         mret tt);;
       cmap ← colour_map cfg "transects_cmap" var_number;
       ncols ← columns cfg "transects_ncol";
       '(vmin, vmax, sstep, roundlimit) ← limits cfg "transects_limits" var_number;
       regions ← items cfg "transects_regions";
       for_each regions (λ region,
         depth ← eval (item cfg "transects_depth");
         lev ← eval (levels vmin vmax sstep roundlimit);
         call "transect_plot"
              [VDict model_filenames; trans_var; depth; region; diagworkdir; diagplotdir]
              [("levels", lev); ("ncols", ncols); ("cmap", cmap)];;
         mret tt))).

(** *** The Atlantic Water core *)
Definition atlantic_water_core (cfg : Cfg) (diagworkdir diagplotdir : Value) : W unit :=
  flag ← eval (item cfg "AW_core");
  if_then (truthy flag)
    (model_filenames ← models cfg (VStr "thetao");
     aw_core_parameters ←
       call "aw_core" [VDict model_filenames; diagworkdir; VStr "EB"; VStr "thetao"] [];
     call "plot_aw_core_stat" [aw_core_parameters; diagplotdir] [];;
     mret tt).

Definition atlantic_water_core_2d (cfg : Cfg) (diagworkdir diagplotdir : Value) : W unit :=
  flag ← eval (item cfg "AW_core_2d");
  if_then (truthy flag)
    (model_filenames ← models cfg (VStr "thetao");
     aw_core_parameters ←
       call "aw_core" [VDict model_filenames; diagworkdir; VStr "EB"; VStr "thetao"] [];
     lev ← eval (levels (VInt (-2)) (VFloat 2.3) (VInt 41) (VInt 1));
     call "plot2d_original_grid" [VDict model_filenames]
          [("cmor_var", VStr "thetao"); ("depth", VInt 0); ("levels", lev);
           ("diagworkdir", diagworkdir); ("diagplotdir", diagplotdir);
           ("dpi", VInt 100); ("explicit_depths", aw_core_parameters)];;
     mret tt).

(** *** Plot TS diagrams *)
Definition plot_ts (cfg : Cfg) (diagworkdir diagplotdir observations : Value) : W unit :=
  flag ← eval (item cfg "tsdiag");
  if_then (truthy flag)
    (model_filenames ← models cfg (VStr "thetao");
     regions ← items cfg "tsdiag_regions";
     for_each (product model_filenames regions) (λ '(mmodel, region),
       depth ← eval (item cfg "tsdiag_depth");
       call "tsplot_data" [VStr mmodel; depth; region; diagworkdir]
            [("observations", observations)];;
       mret tt);;
     ncols ← columns cfg "tsdiag_ncol";
     regions ← items cfg "tsdiag_regions";
     for_each regions (λ region,
       depth ← eval (item cfg "tsdiag_depth");
       call "tsplot_plot" [VDict model_filenames; depth; region; diagworkdir; diagplotdir]
            [("ncols", ncols); ("cmap", VObject "cm.Set1");
             ("observations", observations)];;
       mret tt)).

Definition main (cfg : Cfg) : W unit :=
  ([Dumped], dump cfg);;
  diagworkdir ← eval (item cfg "work_dir");
  diagplotdir ← eval (item cfg "plot_dir");
  logger_info "Starting APPLICATE/TRR Arctic Ocean diagnostics" [];;
  observations ← eval (find_observations_name cfg "thetao");
  logger_info "Name of the Observations: %s{}" [observations];;
  areacello_fx ← eval (get_fx_filenames cfg "thetao" "areacello");
  logger_info "areacello_fx files: %s" [areacello_fx];;
  extract_hofm cfg areacello_fx diagworkdir;;
  plot_hofm cfg diagworkdir diagplotdir observations;;
  time_mean cfg diagworkdir observations;;
  plot_profiles cfg diagworkdir diagplotdir observations;;
  plot_2d cfg diagworkdir diagplotdir;;
  plot_2d_bias cfg diagworkdir diagplotdir observations;;
  plot_transects cfg diagworkdir diagplotdir;;
  atlantic_water_core cfg diagworkdir diagplotdir;;
  atlantic_water_core_2d cfg diagworkdir diagplotdir;;
  plot_ts cfg diagworkdir diagplotdir observations.

End with_libraries.

End Ocean3d.

(** * A concrete file system, table and library *)

Module Example.

(** ** pathlib *)

(** Matching of a path against a glob pattern; [*] stands for any run of
    characters within one path component. *)
Fixpoint glob_match (p s : list ascii) : bool :=
  match p with
  | [] => match s with [] => true | _ => false end
  | c :: p' =>
      if decide (c = "*"%char) then
        (fix star (s : list ascii) : bool :=
           glob_match p' s
           || match s with
              | [] => false
              | d :: s' => if decide (d = "/"%char) then false else star s'
              end) s
      else
        match s with
        | [] => false
        | d :: s' => bool_decide (c = d) && glob_match p' s'
        end
  end.

Definition listing_glob (listing : list string) (in_dir pattern : string)
  : list string :=
  filter (λ path, glob_match (String.list_ascii_of_string (in_dir +:+ "/" +:+ pattern))
                             (String.list_ascii_of_string path))
         listing.

(** ** cf_units: two time units, day 0 being 1850-01-01 *)

Definition hours_since_1900 : Unit := UStr "hours since 1900-01-01 00:00:00.0".
Definition days_since_1850 : Unit := UStr "days since 1850-1-1 00:00:00.0".

(** Length of one unit and start of the count, in microseconds. *)
Definition unit_length (u : Unit) : Z :=
  if decide (u = hours_since_1900) then (3600 * microseconds_per_second)%Z
  else if decide (u = days_since_1850) then microseconds_per_day
  else microseconds_per_second.
Definition unit_epoch (u : Unit) : Z :=
  if decide (u = hours_since_1900) then (18262 * microseconds_per_day)%Z else 0%Z.

Definition ex_date2num (u : Unit) (t : datetime) : Q :=
  Qred (Qmake (t - unit_epoch u)%Z (Z.to_pos (unit_length u))).
Definition ex_num2date (u : Unit) (p : Q) : datetime :=
  (unit_epoch u + Qfloor (p * inject_Z (unit_length u)))%Z.

Definition is_time_unit (u : Unit) : bool :=
  bool_decide (u = hours_since_1900 ∨ u = days_since_1850).
Definition ex_unit_convert (a b : Unit) (x : Q) : Q :=
  if is_time_unit a && is_time_unit b then ex_date2num b (ex_num2date a x) else x.

(** ** iris *)

(** [guess_bounds]: half a step to either side of each point. *)
Definition ex_guessed_bounds (points : list Q) : list (Q * Q) :=
  let diffs := zip_with Qminus (drop 1 points) points in
  let before := hd 0%Q diffs :: diffs in
  let after := diffs ++ [List.last diffs 0%Q] in
  zip_with (λ p d, (Qred (p - d.1 / 2), Qred (p + d.2 / 2))%Q) points (zip before after).

(** Arithmetic clears the phenomenon's names, attributes and cell
    methods. *)
Definition ex_arith_metadata (m : CubeMetadata) : CubeMetadata :=
  mkMetadata None None None (md_units m) ∅ [].

(** Two cubes that differ in a coordinate of a data dimension, or in
    shape, are not added. *)
Definition ex_add_mismatched (cube other : Cube.t) : Res Cube.t :=
  Raise (ValueError "This operation cannot be performed as there are differing coordinates remaining which cannot be ignored.").

(** ** esmvalcore: daily statistics in a calendar of 365-day years *)

Definition Qmax (a b : Q) : Q := if Qle_bool a b then b else a.
Definition Qmin (a b : Q) : Q := if Qle_bool a b then a else b.

Definition reduce (operator : string) (rows : list (list (list Q))) : list (list Q) :=
  match rows with
  | [] => []
  | r :: rs =>
      let f := if decide (operator = "max") then Qmax
               else if decide (operator = "min") then Qmin
               else Qplus in
      let total := fold_left (zip_with (zip_with f)) rs r in
      if decide (operator = "mean")
      then map (map (λ x, Qred (x / inject_Z (Z.of_nat (length rows))))) total
      else map (map Qred) total
  end.

(** Consecutive time steps of the same day, with their points and rows. *)
Fixpoint group_days (steps : list (Z * Q * list (list Q)))
  : list (Z * list Q * list (list (list Q))) :=
  match steps with
  | [] => []
  | (day, p, row) :: steps' =>
      match group_days steps' with
      | (day', ps, rows) :: groups =>
          if decide (day = day') then (day, p :: ps, row :: rows) :: groups
          else (day, [p], [row]) :: (day', ps, rows) :: groups
      | [] => [(day, [p], [row])]
      end
  end.

Definition helper_coord (name : string) (points : list Q) : Coord.t :=
  Coord.mk None (Some name) (Some name) (UStr "1") points None (Some 0%nat) None.

Definition ex_daily_statistics (cube : Cube.t) (operator : string) : Cube.t :=
  match Cube.coord "time" cube with
  | Raise _ => cube
  | Ok time =>
      let u := Coord.units time in
      let days := map (λ p, (ex_num2date u p `div` microseconds_per_day)%Z) (Coord.points time) in
      let groups := group_days (zip (zip days (Coord.points time)) (Cube.data cube)) in
      let midpoint (ps : list Q) := Qred ((hd 0 ps + List.last ps 0) / 2)%Q in
      let new_time :=
        Coord.set_bounds
          (Some (map (λ g, (hd 0%Q g.1.2, List.last g.1.2 0%Q)) groups))
          (Coord.set_points (map (λ g, midpoint g.1.2) groups) time) in
      Cube.mk (Cube.metadata cube)
        (map (λ g, reduce operator g.2) groups)
        (map (λ k, if bool_decide (Coord.name k = "time") then new_time else k)
             (Cube.coords cube)
         ++ [helper_coord "day_of_year"
               (map (λ g, inject_Z (g.1.1 `mod` 365 + 1)%Z) groups);
             helper_coord "year"
               (map (λ g, inject_Z (g.1.1 `div` 365 + 1850)%Z) groups)])
  end.

(** ** cmorizer utilities *)

Definition ex_set_global_atts (attributes : gmap string string) (cube : Cube.t) : Cube.t :=
  Cube.set_attributes (attributes ∪ Cube.attributes cube) cube.

Definition ex_add_scalar_height_coord (height : Q) (cube : Cube.t) : Cube.t :=
  Cube.set_coords
    (Cube.coords cube
     ++ [Coord.mk (Some "height") (Some "height") (Some "height") (UStr "m")
           [height] None None (Some AxisZ)])
    cube.

(** ** The library over a directory listing, file contents and a table *)

Definition ex_load_cube (content : list (string * Cube.t)) (path name : string)
  : Res Cube.t :=
  match filter (λ f, f.1 = path ∧ Cube.var_name f.2 = Some name) content with
  | [f] => Ok f.2
  | _ => Raise (ConstraintMismatchError name)
  end.

Definition ex_get_variable (table : list (string * VariableInfo))
    (project mip short_name : string) : option VariableInfo :=
  snd <$> head (filter (λ e, e.1 = mip ∧ vi_short_name e.2 = short_name) table).

Definition library (listing : list string) (content : list (string * Cube.t))
    (table : list (string * VariableInfo)) (cpus : Z)
    (completion : list nat → list nat) : External :=
  {| astype_float32 := λ x, x;
     astype_float64 := λ x, x;
     unit_convert := ex_unit_convert;
     date2num := ex_date2num;
     num2date := ex_num2date;
     guessed_bounds := ex_guessed_bounds;
     arith_metadata := ex_arith_metadata;
     add_mismatched := ex_add_mismatched;
     load_cube := ex_load_cube content;
     daily_statistics := ex_daily_statistics;
     has_cmor_table := λ project, bool_decide (project = "OBS");
     get_variable := ex_get_variable table;
     set_global_atts := ex_set_global_atts;
     add_scalar_height_coord := ex_add_scalar_height_coord;
     glob := listing_glob listing;
     cpu_count := cpus;
     format_year := λ comment, comment;
     as_completed := completion |}.

(** ** Reference table *)

Definition time_info : CoordinateInfo :=
  mkCoordinateInfo "time" "time" "time" "days since ?".
Definition lat_info : CoordinateInfo :=
  mkCoordinateInfo "latitude" "lat" "latitude" "degrees_north".
Definition lon_info : CoordinateInfo :=
  mkCoordinateInfo "longitude" "lon" "longitude" "degrees_east".
Definition height2m_info : CoordinateInfo :=
  mkCoordinateInfo "height" "height" "height" "m".

Definition surface_coordinates (a : Axis) : option CoordinateInfo :=
  match a with
  | AxisT => Some time_info
  | AxisX => Some lon_info
  | AxisY => Some lat_info
  | AxisZ => Some height2m_info
  end.

Definition flux_coordinates (a : Axis) : option CoordinateInfo :=
  match a with
  | AxisT => Some time_info
  | AxisX => Some lon_info
  | AxisY => Some lat_info
  | AxisZ => None
  end.

Definition tas_info : VariableInfo :=
  mkVariableInfo "tas" "air_temperature" "Near-Surface Air Temperature" "K"
    ["longitude"; "latitude"; "time"; "height2m"] surface_coordinates.
Definition tasmax_info : VariableInfo :=
  mkVariableInfo "tasmax" "air_temperature"
    "Daily Maximum Near-Surface Air Temperature" "K"
    ["longitude"; "latitude"; "time"; "height2m"] surface_coordinates.
Definition evspsbl_info : VariableInfo :=
  mkVariableInfo "evspsbl" "water_evaporation_flux" "Evaporation" "kg m-2 s-1"
    ["longitude"; "latitude"; "time"] flux_coordinates.

Definition table : list (string * VariableInfo) :=
  [("Amon", tas_info); ("day", tasmax_info); ("Amon", evspsbl_info)].

(** ** Raw fields *)

Definition raw_time (points : list Q) : Coord.t :=
  Coord.mk (Some "time") (Some "time") (Some "time") hours_since_1900 points None
           (Some 0%nat) (Some AxisT).
(** Latitudes as the files have them: from north to south. *)
Definition raw_latitude : Coord.t :=
  Coord.mk (Some "latitude") (Some "latitude") (Some "latitude") (UStr "degrees_north")
           [90; 0; -90]%Q None (Some 1%nat) (Some AxisY).
Definition raw_longitude : Coord.t :=
  Coord.mk (Some "longitude") (Some "longitude") (Some "longitude")
           (UStr "degrees_east") [0; 180]%Q None (Some 2%nat) (Some AxisX).

Definition raw_cube (var_name : string) (units : string) (times : list Q)
    (data : list (list (list Q))) : Cube.t :=
  Cube.mk (mkMetadata None None (Some var_name) (UStr units) ∅ [])
          data [raw_time times; raw_latitude; raw_longitude].

(** One monthly mean of the 2 metre temperature; rows from north to
    south. *)
Definition t2m_2000 : Cube.t :=
  raw_cube "t2m" "K" [12]%Q [[[251; 252]; [301; 302]; [231; 232]]]%Q.

(** Twelve-hourly maxima of the 2 metre temperature over two days,
    stamped at the end of each interval: 12:00 and 24:00. *)
Definition mx2t_2000 : Cube.t :=
  raw_cube "mx2t" "K" [12; 24; 36; 48]%Q
    [[[281; 281]; [301; 301]; [271; 271]];
     [[285; 285]; [305; 305]; [275; 275]];
     [[280; 280]; [300; 300]; [270; 270]];
     [[283; 283]; [303; 303]; [273; 273]]]%Q.

Definition attributes : gmap string string :=
  {[ "project_id" := "OBS"; "dataset_id" := "ERA-Interim"; "tier" := "3";
     "comment" := "downloaded" ]}.

Definition tas_var : Var :=
  mkVar (Some "tas") "Amon" (RawName "t2m") (Some "ERA-Interim_t2m_monthly_*.nc")
        None None.
Definition tasmax_var : Var :=
  mkVar (Some "tasmax") "day" (RawName "mx2t") (Some "ERA-Interim_mx2t_daily_*.nc")
        None None.

Definition listing : list string :=
  ["/in/ERA-Interim_t2m_monthly_2000.nc"; "/in/ERA-Interim_mx2t_daily_2000.nc"].
Definition content : list (string * Cube.t) :=
  [("/in/ERA-Interim_t2m_monthly_2000.nc", t2m_2000);
   ("/in/ERA-Interim_mx2t_daily_2000.nc", mx2t_2000)].

(** A machine with three processing units. *)
Definition three_cpus : External := library listing content table 3 (λ l, l).

(** ** A variable summed from two raw fields *)

Definition hfds_var : Var :=
  mkVar (Some "hfds") "Amon" (RawNames ["ssr"; "str"]) None
        (Some ["ERA-Interim_ssr_monthly_*.nc"; "ERA-Interim_str_monthly_*.nc"])
        (Some "sum").

(** Both fields for 2000, only one of them for 2001. *)
Definition listing_2001_incomplete : list string :=
  ["/in/ERA-Interim_ssr_monthly_2000.nc"; "/in/ERA-Interim_str_monthly_2000.nc";
   "/in/ERA-Interim_ssr_monthly_2001.nc"].

(** Two files of the first field for 2000, none of the second. *)
Definition listing_2000_twice : list string :=
  ["/in/ERA-Interim_ssr_monthly_a_2000.nc"; "/in/ERA-Interim_ssr_monthly_b_2000.nc"].

Definition incomplete_2001 : External :=
  library listing_2001_incomplete [] table 3 (λ l, l).
Definition twice_2000 : External :=
  library listing_2000_twice [] table 3 (λ l, l).

(** ** A directory in which one file lacks the field *)

Definition z_2001 : Cube.t :=
  raw_cube "z" "m**2 s**-2" [12]%Q [[[1; 1]; [1; 1]; [1; 1]]]%Q.

Definition listing_two_years : list string :=
  ["/in/ERA-Interim_t2m_monthly_2000.nc"; "/in/ERA-Interim_t2m_monthly_2001.nc"].
Definition content_2001_broken : list (string * Cube.t) :=
  [("/in/ERA-Interim_t2m_monthly_2000.nc", t2m_2000);
   ("/in/ERA-Interim_t2m_monthly_2001.nc", z_2001)].

(** The pool hands back the futures in the reverse of the submission
    order. *)
Definition broken_2001 : External :=
  library listing_two_years content_2001_broken table 3 (@rev nat).

Definition tas_cfg : Cfg := mkCfg attributes [("tas", tas_var)].

(** ** A field of inmcm4 *)

Definition gpp_inmcm4 : Cube.t :=
  Cube.mk (mkMetadata (Some "gross_primary_productivity_of_carbon")
                      (Some "Carbon Mass Flux out of Atmosphere due to Gross Primary Production on Land")
                      (Some "gpp") (UStr "kg m-2 s-1")
                      {[ "model_id" := "inmcm4"; "experiment_id" := "historical" ]}
                      ["time: mean"])
          [[[-1; -2]; [-3; -4]; [0; -6]]]%Q
          [raw_time [12]%Q; raw_latitude; raw_longitude].

(** ** Radiation fluxes at the top of the atmosphere *)

Definition flux (name : string) (values : list (list (list Q))) : Cube.t :=
  Cube.mk (mkMetadata (Some name) None None (UStr "W m-2") ∅ [])
          values [raw_time [12]%Q; raw_latitude; raw_longitude].

Definition fluxes : list Cube.t :=
  [flux "toa_outgoing_longwave_flux" [[[240; 241]; [250; 251]; [200; 201]]]%Q;
   flux "toa_outgoing_longwave_flux_assuming_clear_sky"
        [[[260; 261]; [280; 281]; [210; 211]]]%Q;
   flux "toa_outgoing_shortwave_flux" [[[100; 101]; [90; 91]; [120; 121]]]%Q;
   flux "toa_outgoing_shortwave_flux_assuming_clear_sky"
        [[[50; 51]; [40; 41]; [110; 111]]]%Q].

(** The same four fluxes, the shortwave ones in kilowatts. *)
Definition fluxes_mixed_units : list Cube.t :=
  [flux "toa_outgoing_longwave_flux" [[[240; 241]; [250; 251]; [200; 201]]]%Q;
   flux "toa_outgoing_longwave_flux_assuming_clear_sky"
        [[[260; 261]; [280; 281]; [210; 211]]]%Q;
   Cube.set_units (UStr "kW m-2")
     (flux "toa_outgoing_shortwave_flux" [[[0.100; 0.101]; [0.090; 0.091]; [0.120; 0.121]]]%Q);
   Cube.set_units (UStr "kW m-2")
     (flux "toa_outgoing_shortwave_flux_assuming_clear_sky"
           [[[0.050; 0.051]; [0.040; 0.041]; [0.110; 0.111]]]%Q)].

(** Clear-sky flux minus all-sky flux, in the units of the all-sky flux. *)
Definition cloud_effect (all_sky clear_sky : string) (cubes : list Cube.t)
  : Res Cube.t :=
  match filter (λ c, Cube.standard_name c = Some all_sky) cubes,
        filter (λ c, Cube.standard_name c = Some clear_sky) cubes with
  | [a], [c] =>
      Ok (Cube.mk (mkMetadata None None None (Cube.units a) ∅ [])
            (Cube.zip_data Qminus (Cube.data c) (Cube.data a)) (Cube.coords c))
  | _, _ => Raise (ConstraintMismatchError all_sky)
  end.

Definition lwcre : list Cube.t → Res Cube.t :=
  cloud_effect "toa_outgoing_longwave_flux"
               "toa_outgoing_longwave_flux_assuming_clear_sky".
Definition swcre : list Cube.t → Res Cube.t :=
  cloud_effect "toa_outgoing_shortwave_flux"
               "toa_outgoing_shortwave_flux_assuming_clear_sky".

(** ** Evaporation, in metres of water equivalent *)

Definition e_2000 : Cube.t :=
  raw_cube "e" "m of water equivalent" [12]%Q [[[1; 2]; [3; 4]; [5; 6]]]%Q.
Definition tp_2000 : Cube.t :=
  raw_cube "tp" "m" [12]%Q [[[1; 2]; [3; 4]; [5; 6]]]%Q.

(** The table with its first two rules exchanged. *)
Definition rules_exchanged : list EraInterim.Rule :=
  [EraInterim.rule_mass_flux; EraInterim.rule_metres; EraInterim.rule_per_day;
   EraInterim.rule_stress; EraInterim.rule_percent; EraInterim.rule_geopotential].

(** ** Daily maxima *)

(** The twelve-hourly maxima, renamed as [_extract_variable] has them
    when it calls [_fix_frequency]. *)
Definition tasmax_12h : Cube.t := Cube.set_var_name (Some "tasmax") mx2t_2000.

(** ** The two fields of the surface heat flux *)

Definition ssr_2000 : Cube.t :=
  raw_cube "ssr" "J m**-2" [12]%Q [[[10; 20]; [30; 40]; [50; 60]]]%Q.
Definition str_2000 : Cube.t :=
  raw_cube "str" "J m**-2" [12]%Q [[[1; 2]; [3; 4]; [5; 6]]]%Q.

Definition content_radiation : list (string * Cube.t) :=
  [("/in/ERA-Interim_ssr_monthly_2000.nc", ssr_2000);
   ("/in/ERA-Interim_str_monthly_2000.nc", str_2000)].

Definition radiation_2000 : External :=
  library listing_2001_incomplete content_radiation table 3 (λ l, l).

(** The same variable, as the configuration file has it before
    [cmorization] fills in the short name. *)
Definition hfds_unnamed : Var :=
  mkVar None "Amon" (RawNames ["ssr"; "str"]) None
        (Some ["ERA-Interim_ssr_monthly_*.nc"; "ERA-Interim_str_monthly_*.nc"])
        (Some "sum").

(** A variable whose operator the script does not know. *)
Definition hfds_mean : Var :=
  mkVar (Some "hfds") "Amon" (RawNames ["ssr"; "str"]) None
        (Some ["ERA-Interim_ssr_monthly_*.nc"; "ERA-Interim_str_monthly_*.nc"])
        (Some "mean").

(** A latitude coordinate that comes with bounds. *)
Definition bounded_latitude : Coord.t :=
  Coord.set_bounds (Some [(90, 45); (45, -45); (-45, -90)]%Q) raw_latitude.

End Example.

(** * A raw file for the Duveiller2018 script *)

Module DuveillerExample.

Import Duveiller2018.

(** Two transition codes, twelve months, two latitudes from north to
    south and two longitudes. *)
Definition code_coord : Coord.t :=
  Coord.mk None (Some "Vegetation transition code") (Some "iTr") (UStr "1")
           [1; 2]%Q None (Some 0%nat) None.
Definition month_coord : Coord.t :=
  Coord.mk None (Some "Month") (Some "Month") (UStr "1")
           (map (λ i, inject_Z (Z.of_nat i + 1)) (seq 0 12)) None (Some 1%nat) None.
Definition latitude_coord : Coord.t :=
  Coord.mk (Some "latitude") None (Some "lat") (UStr "degrees_north")
           [45; -45]%Q (Some [(90, 0); (0, -90)]%Q) (Some 2%nat) (Some AxisY).
Definition longitude_coord : Coord.t :=
  Coord.mk (Some "longitude") None (Some "lon") (UStr "degrees_east")
           [-90; 90]%Q (Some [(-180, 0); (0, 180)]%Q) (Some 3%nat) (Some AxisX).

(** The value at code [c], month [m], latitude [j], longitude [i] is
    [1000 c + 10 m + 2 j + i]. *)
Definition albedo_data : list (list (list (list Q))) :=
  map (λ c, map (λ m, map (λ j, map (λ i, inject_Z (1000 * Z.of_nat c + 10 * Z.of_nat m
                                                     + 2 * Z.of_nat j + Z.of_nat i))
                                    (seq 0 2))
                          (seq 0 2))
                (seq 0 12))
      (seq 0 2).

Definition albedo_change : RawCube :=
  mkRawCube (mkMetadata None (Some "albedo change") (Some "Delta_albedo") (UStr "1") ∅ [])
            albedo_data [code_coord; month_coord; latitude_coord; longitude_coord].

(** Another variable of the same file. *)
Definition albedo_error : RawCube :=
  mkRawCube (mkMetadata None (Some "error") (Some "SD_Delta_albedo") (UStr "1") ∅ [])
            albedo_data [code_coord; month_coord; latitude_coord; longitude_coord].

Definition albedo_info : VariableInfo :=
  mkVariableInfo "albDiffiTr13" "albedo_difference" "Albedo difference" "1"
    ["longitude"; "latitude"; "time"] Example.flux_coordinates.

Definition ex_fix_var_metadata (info : VariableInfo) (cube : Cube.t) : Cube.t :=
  Cube.set_units (UStr (vi_units info))
    (Cube.set_long_name (Some (vi_long_name info))
       (Cube.set_standard_name (Some (vi_standard_name info))
          (Cube.set_var_name (Some (vi_short_name info)) cube))).

Definition utilities : Utilities :=
  {| iris_load := λ file,
       if decide (file = "/in/albedo_IGBPgen.nc")
       then Ok [albedo_error; albedo_change] else Ok [];
     fix_var_metadata := ex_fix_var_metadata;
     fix_coords := λ cube, cube;
     table_get_variable := λ mip var,
       if decide (mip = "Lmon" ∧ var = "albDiffiTr13") then Some albedo_info else None;
     attribute_text := λ x, if Qeq_bool x 2 then "2" else "1" |}.

Definition albedo_vals : Vals :=
  mkVals (Some "albedo_IGBPgen.nc") (Some "Lmon") (Some "Delta_albedo").

Definition config (itr : Q) (variables : list (string * Vals)) : Config :=
  mkConfig (Some tt) (Some Example.attributes) (Some variables) (Some {[ "iTr" := itr ]}).

(** The cube of the second transition code, as it is when the time
    coordinate is fixed: months, latitudes and longitudes are its
    dimensions 0, 1 and 2. *)
Definition selected : Cube.t :=
  Cube.mk (mkMetadata None (Some "albedo change") (Some "Delta_albedo") (UStr "1") ∅ [])
          (default [] (albedo_data !! 1%nat))
          (map (index_coord 1) [month_coord; latitude_coord; longitude_coord]).

(** A variable the table does not have, after the one it has. *)
Definition two_variables : list (string * Vals) :=
  [("albDiffiTr13", albedo_vals); ("unknown", albedo_vals)].

End DuveillerExample.

(** * A configuration for the ocean3d diagnostic *)

Module OceanExample.

Import Ocean3d.

(** Libraries that do not look at the configuration: two models for
    every variable, every call returning [None]. *)
Definition libraries : Libraries :=
  {| dump := λ _, Ok tt;
     find_observations_name := λ _ _, Ok (VStr "PHC");
     get_fx_filenames := λ _ _ _, Ok (VDict []);
     get_clim_model_filenames := λ _ _,
       Ok [("MPI-ESM", VStr "/work/mpi.nc"); ("ACCESS", VStr "/work/access.nc")];
     get_cmap := λ name, Ok (VObject "colour map");
     levels := λ _ _ _ _, Ok (VObject "levels");
     returns := λ _, Ok VNone |}.

(** Only the 2d maps are asked for: one variable at two depths, in four
    columns. *)
Definition maps_only : gmap string Value :=
  list_to_map
    [("work_dir", VStr "/work"); ("plot_dir", VStr "/plots");
     ("hofm_data", VBool false); ("hofm_plot", VBool false); ("mean", VBool false);
     ("profiles", VBool false); ("plot2d", VBool true);
     ("plot2d_vars", VList [VStr "thetao"]); ("plot2d_cmap", VBool false);
     ("plot2d_ncol", VInt 4);
     ("plot2d_limits", VList [VList [VInt (-2); VInt 20; VInt 41; VInt 1]]);
     ("plot2d_depths", VList [VInt 10; VInt 100]);
     ("plot2d_bias", VBool false); ("transects", VBool false);
     ("AW_core", VBool false); ("AW_core_2d", VBool false); ("tsdiag", VBool false)].

End OceanExample.

(** * Vocabulary of the properties *)

Section vocabulary.
Context `{!External}.

Import EraInterim.

(** Values of two arrays agree as rationals. *)
Definition data_equiv (d1 d2 : list (list (list Q))) : Prop :=
  Forall2 (Forall2 (Forall2 Qeq)) d1 d2.

(** The rules of the table that fire for a raw name. *)
Definition applicable (name : option string) : list EraInterim.Rule :=
  filter (λ r, EraInterim.rule_applies r name) EraInterim.rules.

(** A dictionary has each key once. *)
Definition unique_keys (d : EraInterim.files_dict) : Prop := NoDup (map fst d).

(** The files one pattern matches for a year, and the files of a year
    over all patterns, in pattern order. *)
Definition matches_of_year (in_dir year pattern : string) : list string :=
  filter (λ item, year_of item = year) (sorted (glob in_dir pattern)).

Definition group_of_year (in_dir : string) (patterns : list string) (year : string)
  : list string :=
  concat (map (matches_of_year in_dir year) patterns).

(** The record logged for a year that is dropped. *)
Definition dropped_record (name year : string) (n : nat) : LogRecord :=
  info "CMORizing %s at time '%s' needs '%s' input file/s"
       [ArgStr name; ArgStr year; ArgInt (Z.of_nat n)].

(** A dictionary filled by the first loop has no empty entry. *)
Definition no_empty_entry (d : files_dict) : Prop := Forall (λ kv, kv.2 ≠ []) d.

(** The group has, position by position, a file of that year matched by
    the pattern at that position. *)
Definition one_per_pattern (in_dir : string) (patterns : list string)
    (year : string) (group : list string) : Prop :=
  Forall2 (λ pattern item, item ∈ glob in_dir pattern ∧ year_of item = year)
          patterns group.

(** No pattern matches two files of one year. *)
Definition one_match_per_year (in_dir : string) (patterns : list string) : Prop :=
  ∀ pattern year, pattern ∈ patterns →
    (length (filter (λ item, year_of item = year) (glob in_dir pattern)) ≤ 1)%nat.

(** A statement that changes the store at most at [l]. *)
Definition writes_only {A} (l : loc) (m : M A) : Prop :=
  ∀ (h h' : store) (a : A), m h = Ok (a, h') → ∀ l', l' ≠ l → h' !! l' = h !! l'.

(** The variables whose time stamps mark the end of an interval, and the
    ones among them that are accumulated. *)
Definition end_of_interval_variables : list string :=
  ["tasmax"; "tasmin"; "pr"; "rsds"; "hfds"; "evspsbl"; "rsdt"; "rss"; "prsn"].

Definition accumulated_variables : list string :=
  ["pr"; "rsds"; "hfds"; "evspsbl"; "rsdt"; "rss"; "prsn"].

(** The reducer of a variable. *)
Definition reducer (name : option string) : string :=
  if decide (name = Some "tasmax") then "max"
  else if decide (name = Some "tasmin") then "min"
  else if name_in name accumulated_variables then "sum"
  else "mean".

(** The time stamps moved back by one second, and set to 12:00 of their
    day, in the numbers of the time unit [u]. *)
Definition one_second_earlier (u : Unit) (points : list Q) : list Q :=
  map (λ p, date2num u (num2date u p - timedelta_seconds 1)%Z) points.

(** The time stamps moved back by one unit of the time coordinate. *)
Definition one_unit_earlier (points : list Q) : list Q :=
  map (λ p, p - 1)%Q points.

Definition at_midday (u : Unit) (points : list Q) : list Q :=
  map (λ p, date2num u (replace_hour 12 (num2date u p))) points.

(** A task that ran to the end. *)
Definition succeeded {A} (r : Res A) : bool :=
  match r with Ok _ => true | Raise _ => false end.

(** The records the loop over the completed futures writes. *)
Definition finished_record (t : Task) : LogRecord :=
  info "Finished CMORizing %s" [task_key t].

Definition failed_record (t : Task) : LogRecord :=
  error "Failed to CMORize %s" [task_key t].

(** The configuration as the tasks get it. *)
Definition dispatched_cfg (cfg : Cfg) (comment : string) : Cfg :=
  mkCfg (<["comment" := format_year comment]> (cfg_attributes cfg)) (cfg_variables cfg).

(** The log has an error record that carries the exception [e]. *)
Definition logs_exception (log : list LogRecord) (e : Exn) : Prop :=
  ∃ r, r ∈ log ∧ levelname r = ERROR ∧ exc_info r = Some e.

(** The cube a task hands to [utils.save_variable], if it gets there. *)
Definition written_cube (r : Res (Artifact * gmap positive Cube.t)) : option Cube.t :=
  match r with
  | Ok (a, _) => Some (saved_cube a)
  | Raise _ => None
  end.


End vocabulary.

(** ** The time axis of the Duveiller2018 script *)

Section duveiller_vocabulary.

(** The months of 2010 in days since 1950-01-01: from the first day of
    each month to the first day of the next. *)
Definition bounds_2010 : list (Q * Q) :=
  [(21915, 21946); (21946, 21974); (21974, 22005); (22005, 22035);
   (22035, 22066); (22066, 22096); (22096, 22127); (22127, 22158);
   (22158, 22188); (22188, 22219); (22219, 22249); (22249, 22280)]%Q.

(** The middle of each month. *)
Definition midpoints_2010 : list Q :=
  map (λ b, Qred ((b.1 + b.2) / 2)) bounds_2010.

(** The coordinate [fix_time_coord_duveiller2018] makes of the month
    coordinate. *)
Definition time_2010 (month : Coord.t) : Coord.t :=
  Coord.mk (Some "time") None None (UStr "days since 1950-01-01")
           midpoints_2010 (Some bounds_2010) (Coord.dim month) (Coord.axis month).

(** A cell given with its upper bound first, and with its lower bound
    first. *)
Definition descending_cell (p : Q) (b : Q * Q) : Prop := (b.2 <= p)%Q ∧ (p <= b.1)%Q.
Definition ascending_cell (p : Q) (b : Q * Q) : Prop := (b.1 <= p)%Q ∧ (p <= b.2)%Q.

End duveiller_vocabulary.

(** ** The switches of the ocean3d diagnostic *)

Section ocean3d_vocabulary.

(** The keys that switch the parts of the diagnostic on. *)
Definition switches : list string :=
  ["hofm_data"; "hofm_plot"; "mean"; "profiles"; "plot2d"; "plot2d_bias"; "transects";
   "AW_core"; "AW_core_2d"; "tsdiag"].

End ocean3d_vocabulary.

(** * Properties *)

(** ** The store *)

Section store_facts.

Lemma modify_bound (l : loc) (f : Cube.t → Cube.t) (h : store) (c : Cube.t) :
  h !! l = Some c → modify l f h = Ok (tt, <[l := f c]> h).
Proof. intros Hl. unfold modify. by rewrite Hl. Qed.

Lemma read_bound (l : loc) (h : store) (c : Cube.t) :
  h !! l = Some c → read l h = Ok (c, h).
Proof. intros Hl. unfold read. by rewrite Hl. Qed.

Lemma bind_ok {A B} (m : M A) (k : A → M B) (h h' : store) (a : A) :
  m h = Ok (a, h') → (m ≫= k) h = k a h'.
Proof. intros Hm. unfold mbind, M_bind, bind. by rewrite Hm. Qed.

Lemma Res_bind_Ok {A B} (a : A) (f : A → Res B) : (Ok a ≫= f) = f a.
Proof. done. Qed.

Lemma bind_inv {A B} (m : M A) (k : A → M B) (h h2 : store) (b : B) :
  (m ≫= k) h = Ok (b, h2) → ∃ a h1, m h = Ok (a, h1) ∧ k a h1 = Ok (b, h2).
Proof.
  unfold mbind, M_bind, bind. destruct (m h) as [[a h1]|e]; [|done].
  intros Hk. by exists a, h1.
Qed.

End store_facts.

(** ** Reversal along the second dimension *)

Section slice_facts.

Lemma reversed_involutive (k : Coord.t) : Coord.reversed (Coord.reversed k) = k.
Proof.
  destruct k as [sn ln vn u points bounds dim axis]. unfold Coord.reversed. cbn.
  rewrite rev_involutive. destruct bounds as [b|]; cbn; [|done].
  by rewrite rev_involutive.
Qed.

(** Reversing twice gives back the cube: data, points and bounds. *)
Lemma slice_reverse_dim1_involutive (c : Cube.t) :
  Cube.slice_reverse_dim1 (Cube.slice_reverse_dim1 c) = c.
Proof.
  destruct c as [m d cs]. unfold Cube.slice_reverse_dim1. cbn. f_equal.
  - rewrite map_map. rewrite <-(map_id d) at 2. apply map_ext.
    intros plane. apply rev_involutive.
  - rewrite map_map. rewrite <-(map_id cs) at 2. apply map_ext. intros k.
    destruct (decide (Coord.dim k = Some 1%nat)) as [Hk|Hk].
    + change (Coord.dim (Coord.reversed k)) with (Coord.dim k).
      rewrite decide_True by done. apply reversed_involutive.
    + by rewrite decide_False by done.
Qed.

End slice_facts.

(** ** inmcm4: what the data fixes keep *)

Section inmcm4_facts.
Context `{!External}.

Lemma imul_then_restore (k : Q) (c : Cube.t) :
  Cube.set_metadata
    (Inmcm4.shared_attributes (cube_imul k c) (Cube.metadata c)) (cube_imul k c)
  = Cube.set_data (Cube.map_data (λ x, x * k)%Q (Cube.data c))
      (Cube.set_attributes (md_attributes (arith_metadata (Cube.metadata c))) c).
Proof. by destruct c. Qed.

Lemma scaled_in_place (fix_data : loc → M loc) (k : Q) :
  (∀ cube, fix_data cube =
     (c ← read cube;
      let metadata := Cube.metadata c in
      modify cube (cube_imul k);;
      now ← read cube;
      modify cube (Cube.set_metadata (Inmcm4.shared_attributes now metadata));;
      ret cube)) →
  ∀ (h : store) (cube : loc) (c : Cube.t),
    h !! cube = Some c →
    fix_data cube h
    = Ok (cube,
          <[cube := Cube.set_data (Cube.map_data (λ x, x * k)%Q (Cube.data c))
                      (Cube.set_attributes
                         (md_attributes (arith_metadata (Cube.metadata c))) c)]> h).
Proof.
  intros Hdef h cube c Hc. rewrite Hdef.
  rewrite (bind_ok _ _ _ _ _ (read_bound _ _ _ Hc)). cbn zeta.
  rewrite (bind_ok _ _ _ _ _ (modify_bound _ _ _ _ Hc)).
  erewrite bind_ok; [|apply read_bound, lookup_insert_eq].
  erewrite bind_ok; [|apply modify_bound, lookup_insert_eq].
  rewrite insert_insert_eq, imul_then_restore. done.
Qed.

(** For a cube bound in the store, [gpp.fix_data] and [lai.fix_data]
    return that same cube, changed in place: names, units, cell methods
    and coordinates are what they were, every data value is multiplied by
    -1 (gpp) or by 0.01 (lai), and the attributes are what the in-place
    multiplication of the library left of them. *)
Lemma fix_data_result (h : store) (cube : loc) (c : Cube.t) (k : Q)
    (fix_data : loc → M loc) :
  (fix_data = Inmcm4.gpp.fix_data ∧ k = (-1)%Q)
  ∨ (fix_data = Inmcm4.lai.fix_data ∧ k = 0.01%Q) →
  h !! cube = Some c →
  ∃ c', fix_data cube h = Ok (cube, <[cube := c']> h)
        ∧ Cube.standard_name c' = Cube.standard_name c
        ∧ Cube.long_name c' = Cube.long_name c
        ∧ Cube.var_name c' = Cube.var_name c
        ∧ Cube.units c' = Cube.units c
        ∧ Cube.cell_methods c' = Cube.cell_methods c
        ∧ Cube.attributes c' = md_attributes (arith_metadata (Cube.metadata c))
        ∧ Cube.coords c' = Cube.coords c
        ∧ Cube.data c' = Cube.map_data (λ x, x * k)%Q (Cube.data c).
Proof.
  intros [[-> ->]|[-> ->]] Hc; eexists.
  - split; [by apply (scaled_in_place Inmcm4.gpp.fix_data (-1))|done].
  - split; [by apply (scaled_in_place Inmcm4.lai.fix_data 0.01)|done].
Qed.

End inmcm4_facts.

(** ** netcre: the sum of the two cloud radiative effects *)

Section netcre_facts.
Context `{!External}.
Variable Lwcre_calculate Swcre_calculate : list Cube.t → Res Cube.t.

Lemma cube_add_ok (a b : Cube.t) :
  Cube.units a = Cube.units b →
  Cube.coords a = Cube.coords b →
  Cube.shape (Cube.data a) = Cube.shape (Cube.data b) →
  cube_add a b
  = Ok (Cube.mk (arith_metadata (Cube.metadata a))
          (Cube.zip_data Qplus (Cube.data a) (Cube.data b)) (Cube.coords a)).
Proof.
  intros Hu Hc Hs. unfold cube_add.
  rewrite decide_True by done. by rewrite decide_True by done.
Qed.

(** The sum is refused when the two effects come in different units. *)
Lemma calculate_differing_units (cubes : list Cube.t) (lw sw : Cube.t) :
  Lwcre_calculate cubes = Ok lw →
  Swcre_calculate cubes = Ok sw →
  Cube.units lw ≠ Cube.units sw →
  Netcre.calculate Lwcre_calculate Swcre_calculate cubes
  = Raise (NotYetImplementedError "Differing units").
Proof.
  intros Hl Hs Hu. unfold Netcre.calculate. rewrite Hl. cbn. rewrite Hs. cbn.
  unfold cube_add. by rewrite decide_False by done.
Qed.

(** C10, amended.  When the longwave and the shortwave cloud radiative
    effect are computed from the cube list in the same units, on the same
    coordinates and with the same shape, [calculate] returns a cube whose
    data is their elementwise sum and whose units are those of the
    longwave effect. *)
Theorem calculate_is_sum (cubes : list Cube.t) (lw sw : Cube.t) :
  Lwcre_calculate cubes = Ok lw →
  Swcre_calculate cubes = Ok sw →
  Cube.units lw = Cube.units sw →
  Cube.coords lw = Cube.coords sw →
  Cube.shape (Cube.data lw) = Cube.shape (Cube.data sw) →
  ∃ netcre,
    Netcre.calculate Lwcre_calculate Swcre_calculate cubes = Ok netcre
    ∧ Cube.data netcre = Cube.zip_data Qplus (Cube.data lw) (Cube.data sw)
    ∧ Cube.units netcre = Cube.units lw.
Proof.
  intros Hl Hs Hu Hcoords Hshape. unfold Netcre.calculate.
  rewrite Hl. cbn. rewrite Hs. cbn.
  rewrite (cube_add_ok _ _ Hu Hcoords Hshape). cbn.
  eexists. split; [reflexivity|]. done.
Qed.

End netcre_facts.

(** ** The attribute and unit rules *)

Section rule_facts.
Context `{!External}.

(** The chain of [if] blocks is the table, applied top to bottom. *)
Ltac rule_block c :=
  unfold c, EraInterim.apply_rule, EraInterim.rule_applies, EraInterim.rule_action;
  cbn [EraInterim.rule_names EraInterim.rule_units EraInterim.rule_scaling
       EraInterim.rule_positive EraInterim.rule_metres EraInterim.rule_mass_flux
       EraInterim.rule_per_day EraInterim.rule_stress EraInterim.rule_percent
       EraInterim.rule_geopotential];
  destruct (name_in _ _); reflexivity.

Lemma _set_global_attributes_table (cube : Cube.t) (attributes : gmap string string)
    (definition : VariableInfo) :
  EraInterim._set_global_attributes cube attributes definition
  = EraInterim.apply_rules definition EraInterim.rules (set_global_atts attributes cube).
Proof.
  cbv beta delta [EraInterim._set_global_attributes].
  generalize (set_global_atts attributes cube). intros c.
  repeat lazymatch goal with
  | |- (let x := ?e in @?b x) = ?r =>
      let y := fresh "c" in
      change (let y := e in b y = r); intros y; cbv beta
  end.
  assert (c1 = EraInterim.apply_rule definition c0 EraInterim.rule_metres) as H1
    by rule_block c1.
  assert (c2 = EraInterim.apply_rule definition c1 EraInterim.rule_mass_flux) as H2
    by rule_block c2.
  assert (c3 = EraInterim.apply_rule definition c2 EraInterim.rule_per_day) as H3
    by rule_block c3.
  assert (c4 = EraInterim.apply_rule definition c3 EraInterim.rule_stress) as H4
    by rule_block c4.
  assert (c5 = EraInterim.apply_rule definition c4 EraInterim.rule_percent) as H5
    by rule_block c5.
  assert (c6 = EraInterim.apply_rule definition c5 EraInterim.rule_geopotential) as H6
    by rule_block c6.
  rewrite H6, H5, H4, H3, H2, H1. reflexivity.
Qed.

Lemma scale_inverse (s : EraInterim.Scaling) (x : Q) :
  match s with
  | EraInterim.Unscaled => True
  | EraInterim.Times k | EraInterim.Over k => ¬ (k == 0)%Q
  end →
  (EraInterim.scale (EraInterim.inverse s) (EraInterim.scale s x) == x)%Q.
Proof.
  destruct s as [|k|k]; cbn; intros Hk.
  - reflexivity.
  - by apply Qdiv_mult_l.
  - rewrite Qmult_comm. by apply Qmult_div_r.
Qed.

Lemma map_data_round_trip (f g : Q → Q) (d : list (list (list Q))) :
  (∀ x, (g (f x) == x)%Q) →
  data_equiv (Cube.map_data g (Cube.map_data f d)) d.
Proof.
  intros Hgf. unfold data_equiv, Cube.map_data.
  induction d as [|plane d IHd]; constructor; [|exact IHd].
  induction plane as [|row plane IHp]; constructor; [|exact IHp].
  induction row as [|x row IHr]; constructor; [apply Hgf|exact IHr].
Qed.

Lemma data_equiv_refl (d : list (list (list Q))) : data_equiv d d.
Proof.
  unfold data_equiv.
  induction d as [|plane d IHd]; constructor; [|exact IHd].
  induction plane as [|row plane IHp]; constructor; [|exact IHp].
  induction row as [|x row IHr]; constructor; [reflexivity|exact IHr].
Qed.

Lemma map_data_id_equiv (g : Q → Q) (d : list (list (list Q))) :
  (∀ x, (g x == x)%Q) → data_equiv (Cube.map_data g d) d.
Proof.
  intros Hg. unfold data_equiv, Cube.map_data.
  induction d as [|plane d IHd]; constructor; [|exact IHd].
  induction plane as [|row plane IHp]; constructor; [|exact IHp].
  induction row as [|x row IHr]; constructor; [apply Hg|exact IHr].
Qed.

(** The data a rule leaves: the old values, scaled as the rule says. *)
Lemma rule_action_data (r : EraInterim.Rule) (definition : VariableInfo) (c : Cube.t) :
  Cube.data (EraInterim.rule_action r definition c)
  = match EraInterim.rule_scaling r with
    | EraInterim.Unscaled => Cube.data c
    | s => Cube.map_data (EraInterim.scale s) (Cube.data c)
    end.
Proof.
  unfold EraInterim.rule_action.
  destruct (EraInterim.rule_units r), (EraInterim.rule_scaling r),
    (EraInterim.rule_positive r); reflexivity.
Qed.

(** C8.  The rules of the table that scale the data are: times 1000
    (water equivalent to mass), times 100 (fraction to percentage) and
    divided by 9.80665 (gravity); and for every rule of the table,
    applying the rule to a cube and then the inverse of its scaling gives
    back the original values, exactly, over the rationals. *)
Theorem scaling_round_trip :
  omap (λ r, match EraInterim.rule_scaling r with
             | EraInterim.Unscaled => None
             | s => Some s
             end) EraInterim.rules
  = [EraInterim.Times 1000; EraInterim.Times 100; EraInterim.Over 9.80665]
  ∧ Forall (λ r, ∀ (definition : VariableInfo) (cube : Cube.t),
       data_equiv
         (Cube.map_data (EraInterim.scale (EraInterim.inverse (EraInterim.rule_scaling r)))
            (Cube.data (EraInterim.rule_action r definition cube)))
         (Cube.data cube))
     EraInterim.rules.
Proof.
  split; [reflexivity|].
  unfold EraInterim.rules.
  repeat constructor; intros definition cube; rewrite rule_action_data;
    cbn [EraInterim.rule_scaling EraInterim.inverse].
  all: try (apply map_data_id_equiv; intros x; reflexivity).
  all: apply map_data_round_trip; intros x;
    match goal with
    | |- (EraInterim.scale (?i ?k) (EraInterim.scale ?s x) == x)%Q =>
        apply (scale_inverse s x); cbn; discriminate
    end.
Qed.

(** *** Which rules fire together *)

Lemma rule_action_var_name (r : EraInterim.Rule) (definition : VariableInfo)
    (c : Cube.t) :
  Cube.var_name (EraInterim.rule_action r definition c) = Cube.var_name c.
Proof.
  unfold EraInterim.rule_action.
  destruct (EraInterim.rule_units r), (EraInterim.rule_scaling r),
    (EraInterim.rule_positive r); reflexivity.
Qed.

Lemma apply_rule_var_name (r : EraInterim.Rule) (definition : VariableInfo)
    (c : Cube.t) :
  Cube.var_name (EraInterim.apply_rule definition c r) = Cube.var_name c.
Proof.
  unfold EraInterim.apply_rule.
  destruct (EraInterim.rule_applies r (Cube.var_name c)); [|done].
  apply rule_action_var_name.
Qed.

(** Rules that do not fire can be left out. *)
Lemma apply_rules_filter (definition : VariableInfo) (rs : list EraInterim.Rule)
    (c : Cube.t) :
  EraInterim.apply_rules definition rs c
  = fold_left (λ c r, EraInterim.rule_action r definition c)
      (filter (λ r, EraInterim.rule_applies r (Cube.var_name c)) rs) c.
Proof.
  unfold EraInterim.apply_rules.
  revert c. induction rs as [|r rs IH]; intros c; [done|].
  cbn [fold_left]. rewrite IH, apply_rule_var_name.
  rewrite filter_cons. unfold EraInterim.apply_rule.
  destruct (EraInterim.rule_applies r (Cube.var_name c)) eqn:Hr.
  - rewrite decide_True by done. done.
  - rewrite decide_False by (by rewrite Is_true_false). done.
Qed.

Lemma short_permutations_equal {A} (l1 l2 : list A) :
  l1 ≡ₚ l2 → (length l2 ≤ 1)%nat → l1 = l2.
Proof.
  intros Hp Hlen. destruct l2 as [|x [|y l2]]; cbn in Hlen; [| |lia].
  - by apply Permutation_nil_r in Hp.
  - by apply Permutation_singleton_r in Hp.
Qed.

Ltac split_name s :=
  repeat match goal with
  | |- context [bool_decide (s ∈ ?l)] =>
      match l with
      | context [?lit :: _] =>
          lazymatch goal with
          | H : s ≠ lit |- _ => fail
          | _ => destruct (decide (s = lit)) as [Heq|?];
                 [rewrite Heq; vm_compute; lia|]
          end
      end
  end.

(** Apart from [e] and [sf], a raw name is in at most one rule. *)
Lemma at_most_one_rule (name : option string) :
  name ≠ Some "e" → name ≠ Some "sf" → (length (applicable name) ≤ 1)%nat.
Proof.
  intros He Hsf. destruct name as [s|]; [|vm_compute; lia].
  assert (s ≠ "e") by congruence. assert (s ≠ "sf") by congruence.
  unfold applicable, EraInterim.rules, EraInterim.rule_metres,
    EraInterim.rule_mass_flux, EraInterim.rule_per_day, EraInterim.rule_stress,
    EraInterim.rule_percent, EraInterim.rule_geopotential.
  rewrite !filter_cons, filter_nil.
  unfold EraInterim.rule_applies, name_in. cbn [EraInterim.rule_names].
  split_name s.
  repeat (rewrite (bool_decide_eq_false_2 (s ∈ _))
            by (rewrite !elem_of_cons, elem_of_nil; tauto)).
  vm_compute. lia.
Qed.

(** C4, as amended.  Let [c0] be the cube as [utils.set_global_atts]
    leaves it.  When its raw name is neither [e] nor [sf], at most one rule
    of the table fires for it, and applying the rules of the table in any
    order gives exactly the cube [_set_global_attributes] produces (units,
    data and attributes alike). *)
Theorem rules_commute_unless_e_sf (cube : Cube.t) (attributes : gmap string string)
    (definition : VariableInfo) (rs : list EraInterim.Rule) :
  Cube.var_name (set_global_atts attributes cube) ≠ Some "e" →
  Cube.var_name (set_global_atts attributes cube) ≠ Some "sf" →
  rs ≡ₚ EraInterim.rules →
  (length (applicable (Cube.var_name (set_global_atts attributes cube))) ≤ 1)%nat
  ∧ EraInterim.apply_rules definition rs (set_global_atts attributes cube)
    = EraInterim._set_global_attributes cube attributes definition.
Proof.
  intros He Hsf Hperm.
  pose proof (at_most_one_rule _ He Hsf) as Hone.
  split; [exact Hone|].
  rewrite _set_global_attributes_table, !apply_rules_filter.
  f_equal. apply short_permutations_equal; [|exact Hone].
  by rewrite Hperm.
Qed.

End rule_facts.

(** ** The file resolver *)

Section files_dict_facts.

Import EraInterim.

Lemma get_append_at (d : files_dict) (key item key' : string) :
  get (append_at d key item) key'
  = if decide (key = key') then get d key' ++ [item] else get d key'.
Proof.
  induction d as [|[k v] d IH]; cbn.
  - repeat case_decide; congruence.
  - repeat (case_decide; cbn); try congruence.
Qed.

Lemma keys_append_at (d : files_dict) (key item : string) :
  map fst (append_at d key item)
  = if decide (key ∈ map fst d) then map fst d else map fst d ++ [key].
Proof.
  induction d as [|[k v] d IH]; cbn.
  - rewrite decide_False by set_solver. done.
  - destruct (decide (k = key)) as [->|Hk]; cbn.
    + rewrite decide_True by set_solver. done.
    + rewrite IH. destruct (decide (key ∈ map fst d)).
      * rewrite decide_True by set_solver. done.
      * rewrite decide_False by set_solver. done.
Qed.

Lemma unique_keys_append_at (d : files_dict) (key item : string) :
  unique_keys d → unique_keys (append_at d key item).
Proof.
  unfold unique_keys. intros Hd. rewrite keys_append_at.
  case_decide; [done|].
  apply NoDup_app. split_and!; [done|set_solver|apply NoDup_singleton].
Qed.

Lemma get_elem_of (d : files_dict) (key : string) (v : list string) :
  unique_keys d → (key, v) ∈ d → get d key = v.
Proof.
  unfold unique_keys. induction d as [|[k w] d IH]; cbn; intros Hd Hin.
  - by apply elem_of_nil in Hin.
  - apply NoDup_cons in Hd as [Hk Hd].
    apply elem_of_cons in Hin as [Heq|Hin].
    + injection Heq as -> ->. by rewrite decide_True.
    + rewrite decide_False; [by apply IH|].
      intros ->. apply Hk. apply list_elem_of_fmap. by exists (key, v).
Qed.

Lemma get_not_key (d : files_dict) (key : string) :
  key ∉ map fst d → get d key = [].
Proof.
  induction d as [|[k w] d IH]; cbn; intros Hk; [done|].
  rewrite decide_False by set_solver. apply IH. set_solver.
Qed.

Lemma pop_not_key (d : files_dict) (key : string) :
  key ∉ map fst d → pop d key = d.
Proof.
  induction d as [|[k w] d IH]; cbn; intros Hk; [done|].
  rewrite decide_False by set_solver. f_equal. apply IH. set_solver.
Qed.

Lemma get_app_r (d1 d2 : files_dict) (key : string) :
  key ∉ map fst d1 → get (d1 ++ d2) key = get d2 key.
Proof.
  induction d1 as [|[k w] d1 IH]; cbn; intros Hk; [done|].
  rewrite decide_False by set_solver. apply IH. set_solver.
Qed.

Lemma pop_app_r (d1 d2 : files_dict) (key : string) :
  key ∉ map fst d1 → pop (d1 ++ d2) key = d1 ++ pop d2 key.
Proof.
  induction d1 as [|[k w] d1 IH]; cbn; intros Hk; [done|].
  rewrite decide_False by set_solver. f_equal. apply IH. set_solver.
Qed.

End files_dict_facts.

Section get_files_facts.
Context `{!External}.

Import EraInterim.

Lemma no_empty_entry_append_at (d : files_dict) (key item : string) :
  no_empty_entry d → no_empty_entry (append_at d key item).
Proof.
  unfold no_empty_entry. induction d as [|[k v] d IH]; cbn; intros Hd.
  - by repeat constructor.
  - apply Forall_cons in Hd as [Hv Hd]. case_decide.
    + constructor; [|done]. cbn. by destruct v.
    + constructor; [done|by apply IH].
Qed.

Lemma add_items_spec (items : list string) (d : files_dict) :
  let d' := fold_left (λ d item, append_at d (year_of item) item) items d in
  (∀ y, get d' y = get d y ++ filter (λ item, year_of item = y) items)
  ∧ (unique_keys d → unique_keys d')
  ∧ (no_empty_entry d → no_empty_entry d').
Proof.
  revert d. induction items as [|item items IH]; intros d; cbn.
  - split_and!; [|done..]. intros y. by rewrite app_nil_r.
  - destruct (IH (append_at d (year_of item) item)) as (Hget & Hu & Hne).
    split_and!.
    + intros y. rewrite Hget, get_append_at.
      destruct (decide (year_of item = y)); [by rewrite <-app_assoc|done].
    + intros Hd. by apply Hu, unique_keys_append_at.
    + intros Hd. by apply Hne, no_empty_entry_append_at.
Qed.

Lemma add_patterns_spec (in_dir : string) (patterns : list string) (d : files_dict) :
  let d' := fold_left (add_matches in_dir) patterns d in
  (∀ y, get d' y = get d y ++ group_of_year in_dir patterns y)
  ∧ (unique_keys d → unique_keys d')
  ∧ (no_empty_entry d → no_empty_entry d').
Proof.
  revert d. induction patterns as [|pat patterns IH]; intros d; cbn.
  - split_and!; [|done..]. intros y. by rewrite app_nil_r.
  - destruct (IH (add_matches in_dir d pat)) as (Hget & Hu & Hne).
    destruct (add_items_spec (sorted (glob in_dir pat)) d) as (Hget1 & Hu1 & Hne1).
    split_and!.
    + intros y. rewrite Hget. unfold add_matches at 1. rewrite Hget1.
      unfold group_of_year. cbn. by rewrite <-app_assoc.
    + intros Hd. by apply Hu, Hu1.
    + intros Hd. by apply Hne, Hne1.
Qed.

Lemma collect_files_spec (in_dir : string) (patterns : list string) :
  (∀ y, get (collect_files in_dir patterns) y = group_of_year in_dir patterns y)
  ∧ unique_keys (collect_files in_dir patterns)
  ∧ no_empty_entry (collect_files in_dir patterns).
Proof.
  destruct (add_patterns_spec in_dir patterns []) as (Hget & Hu & Hne).
  split_and!; [done|..].
  - apply Hu. constructor.
  - apply Hne. constructor.
Qed.

(** The second loop keeps the entries of the right length, in order, and
    logs one record for each entry it drops. *)
Lemma check_complete_filter (var : Var) (name : string) (n : nat)
    (kept todo : files_dict) (log : list LogRecord) :
  short_name var = Some name →
  unique_keys (kept ++ todo) →
  check_complete var n (map fst todo) (kept ++ todo) log
  = Ok (kept ++ filter (λ kv, length kv.2 = n) todo,
        log ++ map (λ kv, dropped_record name kv.1 n)
                   (filter (λ kv, length kv.2 ≠ n) todo)).
Proof.
  intros Hname. revert kept log.
  induction todo as [|[k v] todo IH]; intros kept log Hu;
    cbn [map fst snd check_complete filter list_filter].
  - by rewrite !app_nil_r.
  - assert (k ∉ map fst kept) as Hk.
    { unfold unique_keys in Hu. rewrite map_app in Hu.
      apply NoDup_app in Hu as (_ & Hdisj & _).
      intros Hin. apply (Hdisj k Hin). cbn. set_solver. }
    assert (k ∉ map fst todo) as Hk'.
    { unfold unique_keys in Hu. rewrite map_app in Hu.
      apply NoDup_app in Hu as (_ & _ & Hnd). cbn in Hnd.
      by apply NoDup_cons in Hnd as [? _]. }
    rewrite get_app_r by done. cbn [get].
    rewrite (decide_True (P := k = k)) by done.
    destruct (decide (length v ≠ n)) as [Hlen|Hlen]; last first.
    + apply dec_stable in Hlen.
      rewrite (decide_True (P := length v = n)) by done.
      replace (kept ++ (k, v) :: todo) with ((kept ++ [(k, v)]) ++ todo)
        by (by rewrite <-app_assoc).
      rewrite IH; [by rewrite <-app_assoc|].
      by rewrite <-app_assoc.
    + rewrite (decide_False (P := length v = n)) by done.
      unfold var_short_name. rewrite Hname, Res_bind_Ok.
      rewrite pop_app_r by done. cbn [pop].
      rewrite (decide_True (P := k = k)) by done.
      rewrite IH.
      * cbn [map]. by rewrite <-app_assoc.
      * unfold unique_keys in *. rewrite map_app in *. cbn [map] in Hu.
        apply NoDup_app in Hu as (Hnd1 & Hdisj & Hnd2).
        apply NoDup_cons in Hnd2 as [_ Hnd2].
        apply NoDup_app. split_and!; [done| |done].
        intros x Hx Hx'. apply (Hdisj x Hx). set_solver.
Qed.

(** The resolver returns, and what it returns. *)
Lemma _get_files_spec (in_dir : string) (var : Var) (patterns : list string)
    (name : string) :
  files var = Some patterns →
  short_name var = Some name →
  _get_files in_dir var
  = Ok (filter (λ kv, length kv.2 = length patterns) (collect_files in_dir patterns),
        map (λ kv, dropped_record name kv.1 (length patterns))
            (filter (λ kv, length kv.2 ≠ length patterns)
                    (collect_files in_dir patterns))).
Proof.
  intros Hfiles Hname. unfold _get_files, var_files. rewrite Hfiles. cbn.
  apply (check_complete_filter var name (length patterns) []); [done|].
  apply collect_files_spec.
Qed.

(** C6.  For a variable with file patterns, the resolver returns, and
    every group in what it returns has as many paths as the variable has
    patterns. *)
Theorem get_files_group_sizes (in_dir : string) (var : Var) (patterns : list string)
    (name : string) :
  files var = Some patterns →
  short_name var = Some name →
  ∃ d log,
    _get_files in_dir var = Ok (d, log)
    ∧ Forall (λ kv, length kv.2 = length patterns) d.
Proof.
  intros Hfiles Hname. eexists _, _. split; [by apply _get_files_spec|].
  apply Forall_forall. intros kv Hkv. by apply list_elem_of_filter in Hkv as [? _].
Qed.

(** *** One file per pattern *)

Lemma concat_short_length {A B} (f : A → list B) (l : list A) :
  (∀ x, x ∈ l → (length (f x) ≤ 1)%nat) →
  (length (concat (map f l)) ≤ length l)%nat.
Proof.
  induction l as [|a l IH]; cbn; intros Hf; [done|].
  rewrite length_app. pose proof (Hf a ltac:(set_solver)).
  assert (length (concat (map f l)) ≤ length l)%nat by (apply IH; set_solver).
  lia.
Qed.

Lemma concat_short_full {A B} (f : A → list B) (l : list A) :
  (∀ x, x ∈ l → (length (f x) ≤ 1)%nat) →
  length (concat (map f l)) = length l →
  Forall2 (λ x y, f x = [y]) l (concat (map f l)).
Proof.
  induction l as [|a l IH]; cbn; intros Hf Hlen; [constructor|].
  pose proof (Hf a ltac:(set_solver)) as Ha.
  assert (length (concat (map f l)) ≤ length l)%nat as Hl
    by (apply concat_short_length; set_solver).
  rewrite length_app in Hlen.
  destruct (f a) as [|y [|z ys]] eqn:Hfa; cbn in *; [lia| |lia].
  constructor; [done|]. apply IH; [set_solver|lia].
Qed.

Lemma concat_short_missing {A B} (f : A → list B) (l : list A) (a : A) :
  (∀ x, x ∈ l → (length (f x) ≤ 1)%nat) →
  a ∈ l → f a = [] →
  (length (concat (map f l)) < length l)%nat.
Proof.
  induction l as [|b l IH]; cbn; intros Hf Ha Hfa; [by apply elem_of_nil in Ha|].
  rewrite length_app. pose proof (Hf b ltac:(set_solver)) as Hb.
  apply elem_of_cons in Ha as [->|Ha].
  - rewrite Hfa. cbn.
    assert (length (concat (map f l)) ≤ length l)%nat
      by (apply concat_short_length; set_solver).
    lia.
  - assert (length (concat (map f l)) < length l)%nat
      by (apply IH; [set_solver|done..]).
    lia.
Qed.

Lemma matches_of_year_short (in_dir : string) (patterns : list string)
    (year pattern : string) :
  one_match_per_year in_dir patterns → pattern ∈ patterns →
  (length (matches_of_year in_dir year pattern) ≤ 1)%nat.
Proof.
  intros Hone Hin. unfold matches_of_year, sorted.
  rewrite (Permutation_length
             (filter_Permutation _ _ _ (merge_sort_Permutation path_le _))).
  by apply Hone.
Qed.

Lemma elem_of_matches_of_year (in_dir year pattern item : string) :
  item ∈ matches_of_year in_dir year pattern →
  item ∈ glob in_dir pattern ∧ year_of item = year.
Proof.
  unfold matches_of_year, sorted. intros Hin.
  apply list_elem_of_filter in Hin as [Hy Hin].
  by rewrite merge_sort_Permutation in Hin.
Qed.

(** C5, as amended.  Provided no pattern matches two files of the same
    year, the resolver returns groups that have exactly one matched file
    per pattern, in pattern order; and a year for which some pattern has
    a file and some pattern has none is not among the groups, and is
    logged. *)
Theorem get_files_one_per_pattern (in_dir : string) (var : Var)
    (patterns : list string) (name : string) :
  files var = Some patterns →
  short_name var = Some name →
  one_match_per_year in_dir patterns →
  ∃ d log,
    _get_files in_dir var = Ok (d, log)
    ∧ (∀ year group, (year, group) ∈ d →
         one_per_pattern in_dir patterns year group)
    ∧ (∀ year pattern,
         group_of_year in_dir patterns year ≠ [] →
         pattern ∈ patterns → matches_of_year in_dir year pattern = [] →
         (year ∉ map fst d)
         ∧ dropped_record name year (length patterns) ∈ log).
Proof.
  intros Hfiles Hname Hone. eexists _, _.
  split; [by apply _get_files_spec|].
  destruct (collect_files_spec in_dir patterns) as (Hget & Hu & Hne).
  assert (∀ year, ∀ x, x ∈ patterns →
            (length (matches_of_year in_dir year x) ≤ 1)%nat) as Hshort.
  { intros year x Hx. by apply (matches_of_year_short in_dir patterns). }
  split.
  - intros year group Hin.
    apply list_elem_of_filter in Hin as [Hlen Hin]. cbn in Hlen.
    pose proof (get_elem_of _ _ _ Hu Hin) as Hgroup. rewrite Hget in Hgroup.
    subst group. unfold group_of_year in *.
    eapply Forall2_impl; [apply concat_short_full; [apply Hshort|done]|].
    cbn. intros pat item Hm. apply (elem_of_matches_of_year in_dir year pat item).
    rewrite Hm. set_solver.
  - intros year pat Hsome Hpat Hnone.
    assert (length (group_of_year in_dir patterns year) < length patterns)%nat as Hlt.
    { apply (concat_short_missing _ _ pat); [apply Hshort|done..]. }
    assert (year ∈ map fst (collect_files in_dir patterns)) as Hkey.
    { destruct (decide (year ∈ map fst (collect_files in_dir patterns))); [done|].
      exfalso. apply Hsome. rewrite <-Hget. by apply get_not_key. }
    apply list_elem_of_fmap in Hkey as ([y v] & -> & Hin). cbn in *.
    pose proof (get_elem_of _ _ _ Hu Hin) as Hv. rewrite Hget in Hv. subst v.
    split.
    + intros Hkey. apply list_elem_of_fmap in Hkey as ([y' v'] & Hy & Hin').
      cbn in Hy. subst y'.
      apply list_elem_of_filter in Hin' as [Hlen Hin']. cbn in Hlen.
      pose proof (get_elem_of _ _ _ Hu Hin') as Hv'. rewrite Hget in Hv'. subst v'.
      lia.
    + apply list_elem_of_fmap.
      exists (y, group_of_year in_dir patterns y). split; [done|].
      apply list_elem_of_filter. split; [cbn; lia|done].
Qed.

End get_files_facts.

(** ** [_fix_coordinates] works on a copy *)

Section frame_facts.
Context `{!External}.

Lemma writes_only_ret {A} (l : loc) (a : A) : writes_only l (mret a).
Proof. intros h h' a' [= <- <-] l' _. done. Qed.

Lemma writes_only_bind {A B} (l : loc) (m : M A) (k : A → M B) :
  writes_only l m → (∀ a, writes_only l (k a)) → writes_only l (m ≫= k).
Proof.
  intros Hm Hk h h' b Hrun l' Hl'.
  apply bind_inv in Hrun as (a & h1 & Hrun1 & Hrun2).
  rewrite (Hk a _ _ _ Hrun2 l' Hl'). by apply (Hm _ _ _ Hrun1).
Qed.

Lemma writes_only_read (l l0 : loc) : writes_only l (read l0).
Proof.
  intros h h' a Hrun l' _. unfold read in Hrun.
  destruct (h !! l0); by simplify_eq.
Qed.

Lemma writes_only_lift {A} (l : loc) (r : Res A) : writes_only l (lift r).
Proof. intros h h' a Hrun l' _. unfold lift in Hrun. destruct r; by simplify_eq. Qed.

Lemma writes_only_modify (l : loc) (f : Cube.t → Cube.t) : writes_only l (modify l f).
Proof.
  intros h h' a Hrun l' Hl'. unfold modify in Hrun.
  destruct (h !! l); simplify_eq. by rewrite lookup_insert_ne.
Qed.

Lemma writes_only_when (l : loc) (b : bool) (m : M unit) :
  writes_only l m → writes_only l (when b m).
Proof. intros Hm. destruct b; [done|apply writes_only_ret]. Qed.

Lemma writes_only_fix_axis (cube : loc) (definition : VariableInfo) (axis : Axis) :
  writes_only cube (EraInterim.fix_axis cube definition axis).
Proof.
  unfold EraInterim.fix_axis.
  destruct (vi_coordinates definition axis); [|apply writes_only_ret].
  apply writes_only_bind; [apply writes_only_read|intros ?].
  apply writes_only_bind; [apply writes_only_lift|intros ?].
  apply writes_only_bind; [apply writes_only_lift|intros ?].
  apply writes_only_modify.
Qed.

(** Whatever [_fix_coordinates] does, it does to a cube of its own: when
    it returns, every cube that was in the store, the one passed in
    included, is as it was. *)
Lemma _fix_coordinates_frame (cube : loc) (definition : VariableInfo)
    (h h' : store) :
  EraInterim._fix_coordinates cube definition h = Ok (tt, h') →
  ∀ l c, h !! l = Some c → h' !! l = Some c.
Proof.
  unfold EraInterim._fix_coordinates. intros Hrun l c Hl.
  apply bind_inv in Hrun as (c0 & h0 & Hread & Hrun).
  pose proof (writes_only_read l cube _ _ _ Hread) as Hsame0.
  apply bind_inv in Hrun as (copy & h1 & Halloc & Hrun).
  unfold alloc in Halloc. injection Halloc as <- <-.
  assert (l ≠ fresh (dom h0)) as Hfresh.
  { intros ->. assert (fresh (dom h0) ∈ dom h0) as Hin.
    { apply elem_of_dom. unfold read in Hread.
      destruct (h !! cube); simplify_eq. by exists c. }
    by apply is_fresh in Hin. }
  assert (writes_only (fresh (dom h0))
    (when (bool_decide ("height2m" ∈ vi_dimensions definition))
       (modify (fresh (dom h0)) (add_scalar_height_coord 2));;
     when (bool_decide ("height10m" ∈ vi_dimensions definition))
       (modify (fresh (dom h0)) (add_scalar_height_coord 10));;
     EraInterim.fix_axis (fresh (dom h0)) definition AxisT;;
     EraInterim.fix_axis (fresh (dom h0)) definition AxisX;;
     EraInterim.fix_axis (fresh (dom h0)) definition AxisY;;
     EraInterim.fix_axis (fresh (dom h0)) definition AxisZ)) as Hw.
  { repeat (apply writes_only_bind; [|intros _]);
      try apply writes_only_when; try apply writes_only_modify;
      apply writes_only_fix_axis. }
  rewrite (Hw _ _ _ Hrun l Hfresh).
  rewrite lookup_insert_ne by done.
  unfold read in Hread. destruct (h !! cube); by simplify_eq.
Qed.

End frame_facts.

(** ** Daily aggregation *)

Section fix_frequency_facts.
Context `{!External}.

Import EraInterim.

Lemma coord_inv (name : string) (c : Cube.t) (k : Coord.t) :
  Cube.coord name c = Ok k ↔ filter (λ k, Coord.name k = name) (Cube.coords c) = [k].
Proof.
  unfold Cube.coord.
  destruct (filter _ (Cube.coords c)) as [|k1 [|k2 l]]; split; intros; by simplify_eq.
Qed.

Lemma filter_name_filter (n n' : string) (l : list Coord.t) :
  n ≠ n' →
  filter (λ k, Coord.name k = n) (filter (λ k, Coord.name k ≠ n') l)
  = filter (λ k, Coord.name k = n) l.
Proof.
  intros Hn. induction l as [|k l IH]; [done|].
  rewrite !filter_cons. repeat case_decide; rewrite ?filter_cons;
    repeat case_decide; try congruence; by f_equal.
Qed.

Lemma filter_map_elem_of {A} (P : A → Prop) `{!∀ x, Decision (P x)} (g : A → A)
    (l : list A) :
  (∀ x, x ∈ l → (P (g x) ↔ P x)) →
  filter P (map g l) = map g (filter P l).
Proof.
  induction l as [|x l IH]; intros Hg; [done|]. cbn [map].
  rewrite !filter_cons.
  pose proof (Hg x ltac:(set_solver)) as Hx.
  rewrite IH by (intros y Hy; apply Hg; set_solver).
  repeat case_decide; try tauto; done.
Qed.

Lemma coord_remove (n n' : string) (c : Cube.t) (k r : Coord.t) :
  n ≠ n' → Coord.name r = n' →
  Cube.coord n c = Ok k → Cube.coord n (Cube.remove_coord r c) = Ok k.
Proof.
  intros Hn Hr Hk. apply coord_inv. apply coord_inv in Hk.
  unfold Cube.remove_coord. cbn. rewrite Hr. by rewrite filter_name_filter.
Qed.

Lemma coord_name (n : string) (c : Cube.t) (k : Coord.t) :
  Cube.coord n c = Ok k → Coord.name k = n.
Proof.
  intros Hk. apply coord_inv in Hk.
  assert (k ∈ filter (λ k, Coord.name k = n) (Cube.coords c)) as Hin
    by (rewrite Hk; set_solver).
  by apply list_elem_of_filter in Hin as [? _].
Qed.

Lemma coord_update_time (f : Coord.t → Coord.t) (c : Cube.t) (k : Coord.t) :
  Coord.name (f k) = "time" →
  Cube.coord "time" c = Ok k →
  Cube.coord "time" (Cube.update_coords is_time f c) = Ok (f k).
Proof.
  intros Hf Hk. pose proof (coord_name _ _ _ Hk) as Hname.
  apply coord_inv. apply coord_inv in Hk.
  unfold Cube.update_coords. cbn.
  rewrite filter_map_elem_of.
  - rewrite Hk. cbn. unfold is_time. by rewrite bool_decide_eq_true_2.
  - intros x Hx. unfold is_time. case_bool_decide as Hx'; [|done].
    assert (x ∈ filter (λ k, Coord.name k = "time") (Cube.coords c)) as Hin
      by (by apply list_elem_of_filter).
    rewrite Hk in Hin. apply list_elem_of_singleton in Hin as ->. by rewrite Hf.
Qed.

Lemma modify_res_bound (l : loc) (f : Cube.t → Res Cube.t) (h : store)
    (c c' : Cube.t) :
  h !! l = Some c → f c = Ok c' → modify_res l f h = Ok (tt, <[l := c']> h).
Proof.
  intros Hl Hf. unfold modify_res.
  rewrite (bind_ok _ _ _ _ _ (read_bound _ _ _ Hl)).
  unfold mbind at 1, M_bind, bind, lift. rewrite Hf.
  exact (modify_bound l (λ _, c') h c Hl).
Qed.

(** Setting the hour keeps the day and gives that hour sharp. *)
Lemma replace_hour_same_day (h : Z) (t : datetime) :
  (0 ≤ h < 24)%Z →
  (replace_hour h t `div` microseconds_per_day = t `div` microseconds_per_day)%Z
  ∧ (replace_hour h t `mod` microseconds_per_day
     = h * 3600 * microseconds_per_second)%Z.
Proof.
  intros Hh. unfold replace_hour.
  assert (0 ≤ h * 3600 * microseconds_per_second < microseconds_per_day)%Z as Hsmall
    by (unfold microseconds_per_day, microseconds_per_second; lia).
  assert (microseconds_per_day ≠ 0)%Z as Hday by (vm_compute; discriminate).
  split.
  - rewrite Z.div_add_l by exact Hday. rewrite (Z.div_small _ _ Hsmall). lia.
  - rewrite Z.add_comm, Z.mod_add by exact Hday. by apply Z.mod_small.
Qed.

(** The if/elif chain picks the reducer of the variable. *)
Lemma reducer_chain (c : Cube.t) :
  (if decide (Cube.var_name c = Some "tasmax") then
     alloc (daily_statistics c "max")
   else if decide (Cube.var_name c = Some "tasmin") then
     alloc (daily_statistics c "min")
   else if name_in (Cube.var_name c)
             ["pr"; "rsds"; "hfds"; "evspsbl"; "rsdt"; "rss"; "prsn"] then
     alloc (daily_statistics c "sum")
   else
     alloc (daily_statistics c "mean"))
  = alloc (daily_statistics c (reducer (Cube.var_name c))).
Proof.
  unfold reducer, accumulated_variables.
  repeat case_decide; try done. by destruct (name_in _ _).
Qed.

(** C7.  For a variable of a daily table ([day], [Eday], [CFday]) whose
    cube has a time coordinate, [_fix_frequency] returns a new cube made in
    these steps: for the end-of-interval variables (the extrema and the
    accumulated fluxes) every time stamp is first moved back by one second;
    the cube is then aggregated by [daily_statistics] with the reducer of
    the variable (max for tasmax, min for tasmin, sum for the accumulated
    fluxes, mean otherwise); the helper coordinates [day_of_year] and
    [year] are removed; every time stamp is set to 12:00 of its day and the
    time bounds are guessed anew.  Metadata and data are those of the
    aggregate.  (The aggregate is taken to carry the coordinates [time],
    [day_of_year] and [year], with at least two days.) *)
Theorem fix_frequency_daily (h : store) (cube : loc) (var : Var) (c : Cube.t)
    (time agg_time doy yr : Coord.t) :
  mip var ∈ ["day"; "Eday"; "CFday"] →
  h !! cube = Some c →
  Cube.coord "time" c = Ok time →
  let shifted :=
    if name_in (Cube.var_name c) end_of_interval_variables
    then Cube.update_coords is_time
           (Coord.set_points (one_second_earlier (Coord.units time) (Coord.points time))) c
    else c in
  let agg := daily_statistics shifted (reducer (Cube.var_name c)) in
  Cube.coord "time" agg = Ok agg_time →
  Cube.coord "day_of_year" agg = Ok doy →
  Cube.coord "year" agg = Ok yr →
  (2 ≤ length (Coord.points agg_time))%nat →
  let points := at_midday (Coord.units agg_time) (Coord.points agg_time) in
  let new_time :=
    Coord.set_bounds (Some (guessed_bounds points)) (Coord.set_points points agg_time) in
  ∃ out h' result,
    _fix_frequency cube var h = Ok (out, h')
    ∧ h' !! out = Some result
    ∧ out ≠ cube
    ∧ Cube.metadata result = Cube.metadata agg
    ∧ Cube.data result = Cube.data agg
    ∧ Cube.coords result
      = map (λ k, if is_time k then new_time else k)
          (filter (λ k, Coord.name k ≠ "year")
             (filter (λ k, Coord.name k ≠ "day_of_year") (Cube.coords agg))).
Proof.
  intros Hmip Hc Htime shifted agg Hat Hdoy Hyr Hlen points new_time.
  unfold _fix_frequency. rewrite bool_decide_eq_true_2 by done.
  rewrite (bind_ok _ _ _ _ _ (read_bound _ _ _ Hc)).
  (* the shift *)
  set (h1 := if name_in (Cube.var_name c) end_of_interval_variables
             then <[cube := shifted]> h else h).
  assert (when (name_in (Cube.var_name c) end_of_interval_variables)
               (modify_res cube shift_time_points) h = Ok (tt, h1)
          ∧ h1 !! cube = Some shifted) as [Hshift Hh1].
  { subst h1 shifted. destruct (name_in _ _); cbn [when]; [|done].
    split; [|apply lookup_insert_eq].
    apply (modify_res_bound _ _ _ c); [done|].
    unfold shift_time_points. rewrite Htime. done. }
  unfold end_of_interval_variables in Hshift.
  rewrite (bind_ok _ _ _ _ _ Hshift).
  rewrite (bind_ok _ _ _ _ _ (read_bound _ _ _ Hh1)).
  (* the aggregation *)
  assert (Cube.var_name shifted = Cube.var_name c) as Hname
    by (subst shifted; by destruct (name_in _ _)).
  rewrite reducer_chain, Hname. fold agg.
  set (out := fresh (dom h1)).
  assert (alloc agg h1 = Ok (out, <[out := agg]> h1)) as Halloc by done.
  rewrite (bind_ok _ _ _ _ _ Halloc).
  (* the helper coordinates *)
  pose proof (coord_name _ _ _ Hdoy) as Hndoy.
  pose proof (coord_name _ _ _ Hyr) as Hnyr.
  set (c3 := Cube.remove_coord doy agg).
  assert (Cube.coord "year" c3 = Ok yr) as Hyr3 by (by apply (coord_remove _ "day_of_year")).
  assert (Cube.coord "time" c3 = Ok agg_time) as Ht3
    by (by apply (coord_remove _ "day_of_year")).
  set (c4 := Cube.remove_coord yr c3).
  assert (Cube.coord "time" c4 = Ok agg_time) as Ht4 by (by apply (coord_remove _ "year")).
  erewrite bind_ok; last first.
  { apply (modify_res_bound _ _ _ agg c3); [apply lookup_insert_eq|].
    unfold remove_named_coord. by rewrite Hdoy. }
  rewrite insert_insert_eq.
  erewrite bind_ok; last first.
  { apply (modify_res_bound _ _ _ c3 c4); [apply lookup_insert_eq|].
    unfold remove_named_coord. by rewrite Hyr3. }
  rewrite insert_insert_eq.
  (* midday and bounds *)
  pose proof (coord_name _ _ _ Hat) as Hntime.
  set (c5 := Cube.update_coords is_time (Coord.set_points points) c4).
  assert (Cube.coord "time" c5 = Ok (Coord.set_points points agg_time)) as Ht5
    by (by apply coord_update_time).
  set (c6 := Cube.update_coords is_time (Coord.set_bounds None) c5).
  assert (Cube.coord "time" c6
          = Ok (Coord.set_bounds None (Coord.set_points points agg_time))) as Ht6
    by (by apply coord_update_time).
  set (c7 := Cube.update_coords is_time (λ _, new_time) c6).
  erewrite bind_ok; last first.
  { apply (modify_res_bound _ _ _ c4 c5); [apply lookup_insert_eq|].
    unfold reset_time_points. by rewrite Ht4. }
  rewrite insert_insert_eq.
  erewrite bind_ok; last first.
  { apply (modify_res_bound _ _ _ c5 c6); [apply lookup_insert_eq|].
    unfold clear_time_bounds. by rewrite Ht5. }
  rewrite insert_insert_eq.
  erewrite bind_ok; last first.
  { apply (modify_res_bound _ _ _ c6 c7); [apply lookup_insert_eq|].
    unfold guess_time_bounds. rewrite Ht6. cbn.
    unfold coord_guess_bounds. cbn.
    rewrite decide_False; [done|].
    subst points. unfold at_midday. rewrite length_map. lia. }
  rewrite insert_insert_eq.
  exists out, (<[out := c7]> h1), c7. split_and!; [done|apply lookup_insert_eq| |done|done|].
  - intros Heq. assert (out ∈ dom h1) as Hin
      by (rewrite Heq; apply elem_of_dom; by exists shifted).
    by apply is_fresh in Hin.
  - subst c7 c6 c5 c4 c3. unfold Cube.update_coords, Cube.remove_coord. cbn.
    rewrite Hndoy, Hnyr, !map_map. apply map_ext. intros k.
    unfold is_time. cbn beta.
    destruct (decide (Coord.name k = "time")) as [Hk|Hk].
    + rewrite (bool_decide_eq_true_2 (Coord.name k = "time")) by done.
      cbv iota.
      change (Coord.name (Coord.set_points points k)) with (Coord.name k).
      rewrite (bool_decide_eq_true_2 (Coord.name k = "time")) by done.
      cbv iota.
      change (Coord.name (Coord.set_bounds None (Coord.set_points points k)))
        with (Coord.name k).
      by rewrite (bool_decide_eq_true_2 (Coord.name k = "time")) by done.
    + rewrite (bool_decide_eq_false_2 (Coord.name k = "time")) by done.
      cbv iota.
      rewrite (bool_decide_eq_false_2 (Coord.name k = "time")) by done.
      cbv iota.
      by rewrite (bool_decide_eq_false_2 (Coord.name k = "time")) by done.
Qed.

End fix_frequency_facts.

(** ** The dispatcher *)

Section dispatch_facts.
Context `{!External}.

Import EraInterim.

Lemma collect_all_succeeded (futures : list (Task * Res Artifact))
    (log : list LogRecord) :
  Forall (λ f, succeeded f.2) futures →
  collect futures log = (log ++ map (λ f, finished_record f.1) futures, Ok tt).
Proof.
  revert log. induction futures as [|[t r] futures IH]; intros log Hall; cbn [collect map].
  - by rewrite app_nil_r.
  - apply Forall_cons in Hall as [Hr Hall]. destruct r as [a|e]; [|done].
    rewrite IH by done. by rewrite <-app_assoc.
Qed.

Lemma collect_first_failure (pre post : list (Task * Res Artifact)) (t : Task)
    (e : Exn) (log : list LogRecord) :
  Forall (λ f, succeeded f.2) pre →
  collect (pre ++ (t, Raise e) :: post) log
  = (log ++ map (λ f, finished_record f.1) pre ++ [failed_record t], Raise e).
Proof.
  revert log. induction pre as [|[t' r] pre IH]; intros log Hall; cbn [collect map app].
  - done.
  - apply Forall_cons in Hall as [Hr Hall]. destruct r as [a|e']; [|done].
    rewrite IH by done. by rewrite <-app_assoc.
Qed.

Lemma first_failure {A} (l : list (A * Res Artifact)) :
  ¬ Forall (λ f, succeeded f.2) l →
  ∃ pre t e post, l = pre ++ (t, Raise e) :: post ∧ Forall (λ f, succeeded f.2) pre.
Proof.
  induction l as [|[t r] l IH]; intros Hnot.
  - exfalso. apply Hnot. constructor.
  - destruct r as [a|e].
    + destruct IH as (pre & t' & e & post & -> & Hpre).
      { intros Hall. apply Hnot. by constructor. }
      exists ((t, Ok a) :: pre), t', e, post. split; [done|]. by constructor.
    + exists [], t, e, l. split; [done|constructor].
Qed.

Lemma omap_lookup_seq {A} (l : list A) :
  omap (λ i, l !! i) (seq 0 (length l)) = l.
Proof.
  induction l as [|x l IH]; [done|]. cbn [length seq omap list_omap lookup list_lookup].
  rewrite <-fmap_S_seq. f_equal.
  rewrite <-IH at 2. apply list_omap_ext.
  apply Forall2_fmap_l, Forall_Forall2_diag, Forall_forall. done.
Qed.

(** The futures in the order [as_completed] yields them: each one, once. *)
Lemma observed_permutation {A} (l : list A) (order : list nat) :
  order ≡ₚ seq 0 (length l) → omap (λ i, l !! i) order ≡ₚ l.
Proof. intros ->. by rewrite omap_lookup_seq. Qed.

Lemma submit_variable_spec (in_dir short : string) (var : Var) :
  ∃ tasks log,
    submit_variable in_dir short var = (tasks, log, Ok tt)
    ∧ Forall (λ r, levelname r = INFO ∧ msg r ≠ "Finished CMORizing %s") log.
Proof.
  unfold submit_variable.
  set (var' := match short_name var with Some _ => var | None => _ end).
  assert (∃ name, short_name var' = Some name) as [name Hname].
  { subst var'. destruct (short_name var) eqn:Hs; cbn; eauto. }
  destruct (files var') as [patterns|] eqn:Hfiles; [|by eexists _, _].
  rewrite (_get_files_spec in_dir var' patterns name Hfiles Hname).
  eexists _, _. split; [done|].
  apply Forall_forall. intros r Hr.
  apply list_elem_of_fmap in Hr as (kv & -> & _). done.
Qed.

Lemma submit_all_spec (in_dir : string) (vars : list (string * Var)) :
  ∃ tasks log,
    submit_all in_dir vars = (tasks, log, Ok tt)
    ∧ Forall (λ r, levelname r = INFO ∧ msg r ≠ "Finished CMORizing %s") log.
Proof.
  induction vars as [|[short var] vars IH]; cbn [submit_all].
  - eexists _, _. split; [done|constructor].
  - destruct (submit_variable_spec in_dir short var) as (tasks & log & -> & Hlog).
    destruct IH as (tasks' & log' & -> & Hlog').
    eexists _, _. split; [done|]. by apply Forall_app.
Qed.

(** No record of a run carries the exception of a task. *)
Lemma collect_exc_info (futures : list (Task * Res Artifact)) (log : list LogRecord) :
  Forall (λ r, exc_info r = None) log →
  Forall (λ r, exc_info r = None) (collect futures log).1.
Proof.
  revert log. induction futures as [|[t r] futures IH]; intros log Hlog; [done|].
  cbn [collect]. destruct r as [a|e].
  - apply IH. apply Forall_app. split; [done|]. by repeat constructor.
  - cbn. apply Forall_app. split; [done|]. by repeat constructor.
Qed.

(** C3, as amended.  Let the run get as far as the pool (the comment
    and the table key are in the configuration), and let [as_completed]
    yield each future once.  Then every task the loop over the variables
    submits is run, and the artifacts written are those of all the tasks
    that succeed, whether or not another task fails.  The futures are observed in some order
    [observed].  When no task fails the run returns normally and the log
    ends with one "Finished" record per task, each task once.  When some
    task fails, the log ends with the "Finished" records of the tasks
    observed before the first failed one, followed by one error record
    "Failed to CMORize" with the key of that task (its file path, or the
    list of the paths of its group), and the run raises the exception of
    that task.  The records before these are informational and none is a
    "Finished" record. *)
Theorem cmorization_dispatch (in_dir : string) (cfg : Cfg) (table comment : string) :
  cfg_attributes cfg !! "comment" = Some comment →
  (∀ n, as_completed (seq 0 n) ≡ₚ seq 0 n) →
  let run := cmorization in_dir cfg (Some table) in
  let outcomes := map (run_task (dispatched_cfg cfg comment)) (run_attempted run) in
  run_attempted run = (submit_all in_dir (cfg_variables cfg)).1.1
  ∧ run_written run = artifacts outcomes
  ∧ ∃ prelude observed,
      observed ≡ₚ zip (run_attempted run) outcomes
      ∧ Forall (λ r, levelname r = INFO ∧ msg r ≠ "Finished CMORizing %s") prelude
      ∧ (Forall (λ r, succeeded r) outcomes →
           run_result run = Ok tt
           ∧ run_log run = prelude ++ map (λ f, finished_record f.1) observed)
      ∧ (¬ Forall (λ r, succeeded r) outcomes →
           ∃ pre t e post,
             observed = pre ++ (t, Raise e) :: post
             ∧ Forall (λ f, succeeded f.2) pre
             ∧ run_result run = Raise e
             ∧ run_log run
               = prelude ++ map (λ f, finished_record f.1) pre ++ [failed_record t]).
Proof.
  intros Hcomment Horder. unfold cmorization. rewrite Hcomment.
  fold (dispatched_cfg cfg comment). cbn [cfg_variables dispatched_cfg].
  destruct (submit_all_spec in_dir (cfg_variables cfg)) as (tasks & log' & -> & Hlog').
  set (cfg' := dispatched_cfg cfg comment).
  set (futures := zip tasks (map (run_task cfg') tasks)).
  set (prelude := [info "Using at most %s workers" [ArgInt n_workers]] ++ log').
  set (observed := omap (λ i, futures !! i) (as_completed (seq 0 (length futures)))).
  assert (observed ≡ₚ futures) as Hobs by apply observed_permutation, Horder.
  assert (Forall (λ r, levelname r = INFO ∧ msg r ≠ "Finished CMORizing %s") prelude)
    as Hprelude.
  { subst prelude. apply Forall_app. split; [|done]. by repeat constructor. }
  assert (∀ l : list (Task * Res Artifact), l ≡ₚ futures →
            (Forall (λ f, succeeded f.2) l
             ↔ Forall (λ r, succeeded r) (map (run_task cfg') tasks))) as Hall.
  { intros l ->. subst futures. rewrite !Forall_forall. split.
    - intros Hf r Hr. apply list_elem_of_fmap in Hr as (t & -> & Ht).
      apply (Hf (t, run_task cfg' t)).
      apply list_elem_of_lookup in Ht as [i Hi]. apply list_elem_of_lookup. exists i.
      apply lookup_zip_with_Some. eexists _, _. split_and!; [done..|].
      by rewrite list_lookup_fmap, Hi.
    - intros Hf [t r] Hin. cbn.
      apply list_elem_of_lookup in Hin as [i Hi].
      apply lookup_zip_with_Some in Hi as (t' & r' & [= <- <-] & _ & Hr).
      apply Hf. apply list_elem_of_lookup. by exists i. }
  destruct (decide (Forall (λ f, succeeded f.2) observed)) as [Hok|Hfail].
  - rewrite (collect_all_succeeded observed prelude Hok). cbn.
    split; [done|]. split; [done|]. exists prelude, observed. split_and!; [done..| |].
    + done.
    + intros Hnot. exfalso. apply Hnot. by apply (Hall observed).
  - destruct (first_failure observed Hfail) as (pre & t & e & post & Hsplit & Hpre).
    rewrite Hsplit, (collect_first_failure pre post t e prelude Hpre). cbn.
    split; [done|]. split; [done|]. exists prelude, (pre ++ (t, Raise e) :: post).
    split_and!; [by rewrite <-Hsplit|done| |].
    + intros Hsucc. exfalso. apply Hfail. by apply (Hall observed).
    + intros _. by exists pre, t, e, post.
Qed.

End dispatch_facts.

(** ** The properties at concrete inputs *)

Section worked_examples.

Import EraInterim Example.

(** *** inmcm4 and netcre *)

(** C9.  The fixes save [cube.metadata], multiply in place and assign the
    saved tuple back, so as to keep the metadata.  The tuple holds the
    attributes dictionary of the cube, not a copy, and the multiplication
    empties that dictionary.  At a field of inmcm4 with two attributes:
    the cube returned has the names, the units, the cell methods and the
    coordinates it had, its data scaled by -1 (gpp) or 0.01 (lai), and no
    attribute left. *)
Theorem fix_data_loses_attributes :
  Cube.attributes gpp_inmcm4
  = {[ "model_id" := "inmcm4"; "experiment_id" := "historical" ]}
  ∧ Forall (λ run : Res (positive * gmap positive Cube.t) * Q,
       ∃ c', run.1 = Ok (1%positive, {[1%positive := c']})
             ∧ Cube.attributes c' = ∅
             ∧ Cube.metadata c' ≠ Cube.metadata gpp_inmcm4
             ∧ Cube.standard_name c' = Cube.standard_name gpp_inmcm4
             ∧ Cube.long_name c' = Cube.long_name gpp_inmcm4
             ∧ Cube.var_name c' = Cube.var_name gpp_inmcm4
             ∧ Cube.units c' = Cube.units gpp_inmcm4
             ∧ Cube.cell_methods c' = Cube.cell_methods gpp_inmcm4
             ∧ Cube.coords c' = Cube.coords gpp_inmcm4
             ∧ Cube.data c' = Cube.map_data (λ x, x * run.2)%Q (Cube.data gpp_inmcm4))
      [(@Inmcm4.gpp.fix_data three_cpus 1%positive {[1%positive := gpp_inmcm4]},
        (-1)%Q);
       (@Inmcm4.lai.fix_data three_cpus 1%positive {[1%positive := gpp_inmcm4]},
        0.01%Q)].
Proof.
  split; [reflexivity|].
  assert (({[1%positive := gpp_inmcm4]} : gmap positive Cube.t) !! 1%positive
          = Some gpp_inmcm4) as Hbound by (vm_compute; reflexivity).
  repeat (apply Forall_cons; split); [..|done].
  - destruct (@fix_data_result three_cpus _ _ _ (-1)%Q (@Inmcm4.gpp.fix_data three_cpus)
                (or_introl (conj eq_refl eq_refl)) Hbound)
      as (c' & Hrun & Hs & Hl & Hv & Hu & Hm & Ha & Hc & Hd).
    exists c'. cbn [fst snd]. rewrite Hrun, insert_singleton.
    split_and!; try done.
    intros Heq. apply (f_equal md_attributes) in Heq.
    change (md_attributes (Cube.metadata c')) with (Cube.attributes c') in Heq.
    rewrite Ha in Heq. vm_compute in Heq. discriminate.
  - destruct (@fix_data_result three_cpus _ _ _ 0.01%Q (@Inmcm4.lai.fix_data three_cpus)
                (or_intror (conj eq_refl eq_refl)) Hbound)
      as (c' & Hrun & Hs & Hl & Hv & Hu & Hm & Ha & Hc & Hd).
    exists c'. cbn [fst snd]. rewrite Hrun, insert_singleton.
    split_and!; try done.
    intros Heq. apply (f_equal md_attributes) in Heq.
    change (md_attributes (Cube.metadata c')) with (Cube.attributes c') in Heq.
    rewrite Ha in Heq. vm_compute in Heq. discriminate.
Qed.

Lemma calculate_is_sum_witness :
  lwcre fluxes = Ok (Cube.mk (mkMetadata None None None (UStr "W m-2") ∅ [])
                       [[[20; 20]; [30; 30]; [10; 10]]]%Q
                       [raw_time [12]%Q; raw_latitude; raw_longitude])
  ∧ ∃ netcre,
      @Netcre.calculate three_cpus lwcre swcre fluxes = Ok netcre
      ∧ Cube.units netcre = UStr "W m-2".
Proof.
  split; [vm_compute; reflexivity|].
  destruct (@calculate_is_sum three_cpus lwcre swcre fluxes
              (Cube.mk (mkMetadata None None None (UStr "W m-2") ∅ [])
                 [[[20; 20]; [30; 30]; [10; 10]]]%Q
                 [raw_time [12]%Q; raw_latitude; raw_longitude])
              (Cube.mk (mkMetadata None None None (UStr "W m-2") ∅ [])
                 [[[-50; -50]; [-50; -50]; [-10; -10]]]%Q
                 [raw_time [12]%Q; raw_latitude; raw_longitude]))
    as (netcre & Hrun & _ & Hunits);
    [vm_compute; reflexivity..|].
  exists netcre. split; [exact Hrun|exact Hunits].
Defined.

(** C10 as stated fails: a list that holds the four fluxes, the longwave
    ones in W m-2 and the shortwave ones in kW m-2.  Both cloud radiative
    effects are computed from it, and their sum is refused for the
    differing units: [calculate] raises and returns no cube. *)
Lemma calculate_refuses_mixed_units :
  Forall (λ name, Exists (λ c, Cube.standard_name c = Some name) fluxes_mixed_units)
         ["toa_outgoing_longwave_flux";
          "toa_outgoing_longwave_flux_assuming_clear_sky";
          "toa_outgoing_shortwave_flux";
          "toa_outgoing_shortwave_flux_assuming_clear_sky"]
  ∧ (∃ lw sw,
       lwcre fluxes_mixed_units = Ok lw
       ∧ swcre fluxes_mixed_units = Ok sw
       ∧ Cube.units lw = UStr "W m-2"
       ∧ Cube.units sw = UStr "kW m-2")
  ∧ @Netcre.calculate three_cpus lwcre swcre fluxes_mixed_units
    = Raise (NotYetImplementedError "Differing units")
  ∧ ¬ ∃ netcre,
        @Netcre.calculate three_cpus lwcre swcre fluxes_mixed_units = Ok netcre.
Proof.
  split_and!.
  - apply (bool_decide_unpack _). vm_compute. exact I.
  - eexists _, _. split_and!; vm_compute; reflexivity.
  - vm_compute. reflexivity.
  - intros [netcre Hrun]. vm_compute in Hrun. discriminate.
Qed.

(** The net effect of the example fluxes. *)
Example calculate_example :
  Cube.data <$> (match @Netcre.calculate three_cpus lwcre swcre fluxes with
                 | Ok c => Some c
                 | Raise _ => None
                 end)
  = Some [[[-30; -30]; [-20; -20]; [0; 0]]]%Q.
Proof. vm_compute. reflexivity. Qed.

(** *** The rules *)

(** C4 as stated fails: [e] is in two rules, and exchanging them changes
    the units the cube ends with. *)
Lemma rules_do_not_commute_for_e :
  Cube.var_name e_2000 = Some "e"
  ∧ length (applicable (Cube.var_name e_2000)) = 2%nat
  ∧ rules_exchanged ≡ₚ rules
  ∧ apply_rules tas_info rules_exchanged e_2000 ≠ apply_rules tas_info rules e_2000
  ∧ dimension (Cube.units (apply_rules tas_info rules e_2000)) = Some (-2, 1, -1)%Z
  ∧ dimension (Cube.units (apply_rules tas_info rules_exchanged e_2000))
    = Some (1, 0, 0)%Z.
Proof.
  split_and!; try (vm_compute; reflexivity).
  - apply perm_swap.
  - intros Heq. apply (f_equal Cube.units) in Heq. vm_compute in Heq. discriminate.
Qed.

Lemma rules_commute_unless_e_sf_witness :
  rules_exchanged ≡ₚ rules
  ∧ apply_rules tas_info rules_exchanged (@set_global_atts three_cpus attributes tp_2000)
    = @_set_global_attributes three_cpus tp_2000 attributes tas_info.
Proof.
  split; [apply perm_swap|].
  apply (@rules_commute_unless_e_sf three_cpus tp_2000 attributes tas_info
           rules_exchanged).
  - vm_compute. discriminate.
  - vm_compute. discriminate.
  - apply perm_swap.
Defined.

(** *** The file resolver *)

Lemma get_files_group_sizes_witness :
  files hfds_var = Some ["ERA-Interim_ssr_monthly_*.nc"; "ERA-Interim_str_monthly_*.nc"]
  ∧ ∃ d log,
      @_get_files incomplete_2001 "/in" hfds_var = Ok (d, log)
      ∧ Forall (λ kv, length kv.2 = 2%nat) d.
Proof.
  split; [reflexivity|].
  apply (@get_files_group_sizes incomplete_2001 "/in" hfds_var
           ["ERA-Interim_ssr_monthly_*.nc"; "ERA-Interim_str_monthly_*.nc"] "hfds");
    reflexivity.
Defined.

(** The scenario of the specification: both fields for 2000, one for
    2001. *)
Example get_files_example :
  @_get_files incomplete_2001 "/in" hfds_var
  = Ok ([("2000", ["/in/ERA-Interim_ssr_monthly_2000.nc";
                   "/in/ERA-Interim_str_monthly_2000.nc"])],
        [dropped_record "hfds" "2001" 2]).
Proof. vm_compute. reflexivity. Qed.

(** C5 as stated fails: with two files of the first pattern for 2000
    and none of the second, the group of 2000 has the right length and is
    returned, and nothing is logged; yet it holds no file of the second
    pattern. *)
Lemma get_files_emits_group_without_second_pattern :
  @_get_files twice_2000 "/in" hfds_var
  = Ok ([("2000", ["/in/ERA-Interim_ssr_monthly_a_2000.nc";
                   "/in/ERA-Interim_ssr_monthly_b_2000.nc"])], [])
  ∧ @glob twice_2000 "/in" "ERA-Interim_str_monthly_*.nc" = []
  ∧ ¬ @one_per_pattern twice_2000 "/in"
        ["ERA-Interim_ssr_monthly_*.nc"; "ERA-Interim_str_monthly_*.nc"] "2000"
        ["/in/ERA-Interim_ssr_monthly_a_2000.nc";
         "/in/ERA-Interim_ssr_monthly_b_2000.nc"].
Proof.
  split_and!; [vm_compute; reflexivity..|].
  unfold one_per_pattern. intros Hall.
  apply Forall2_cons in Hall as [_ Hall].
  apply Forall2_cons in Hall as [[Hin _] _].
  vm_compute in Hin. by apply elem_of_nil in Hin.
Qed.

Lemma incomplete_2001_one_match_per_year :
  @one_match_per_year incomplete_2001 "/in"
    ["ERA-Interim_ssr_monthly_*.nc"; "ERA-Interim_str_monthly_*.nc"].
Proof.
  intros pattern year Hin.
  assert (year_of "/in/ERA-Interim_ssr_monthly_2000.nc" = "2000") as H00
    by (vm_compute; reflexivity).
  assert (year_of "/in/ERA-Interim_ssr_monthly_2001.nc" = "2001") as H01
    by (vm_compute; reflexivity).
  apply elem_of_cons in Hin as [->|Hin]; [|apply elem_of_cons in Hin as [->|Hin]].
  - replace (@glob incomplete_2001 "/in" "ERA-Interim_ssr_monthly_*.nc")
      with ["/in/ERA-Interim_ssr_monthly_2000.nc"; "/in/ERA-Interim_ssr_monthly_2001.nc"]
      by (vm_compute; reflexivity).
    rewrite !filter_cons, filter_nil, H00, H01.
    destruct (decide ("2000" = year)) as [H0|H0];
      destruct (decide ("2001" = year)) as [H1|H1]; cbn; try lia.
    congruence.
  - replace (@glob incomplete_2001 "/in" "ERA-Interim_str_monthly_*.nc")
      with ["/in/ERA-Interim_str_monthly_2000.nc"] by (vm_compute; reflexivity).
    rewrite filter_cons, filter_nil. case_decide; cbn; lia.
  - by apply elem_of_nil in Hin.
Defined.

Lemma get_files_one_per_pattern_witness :
  ∃ d log,
    @_get_files incomplete_2001 "/in" hfds_var = Ok (d, log)
    ∧ (∀ year group, (year, group) ∈ d →
         @one_per_pattern incomplete_2001 "/in"
           ["ERA-Interim_ssr_monthly_*.nc"; "ERA-Interim_str_monthly_*.nc"] year group)
    ∧ ("2001" ∉ map fst d)
    ∧ dropped_record "hfds" "2001" 2 ∈ log.
Proof.
  destruct (@get_files_one_per_pattern incomplete_2001 "/in" hfds_var
              ["ERA-Interim_ssr_monthly_*.nc"; "ERA-Interim_str_monthly_*.nc"] "hfds"
              eq_refl eq_refl incomplete_2001_one_match_per_year)
    as (d & log & Hrun & Hgroups & Hdropped).
  exists d, log. split; [exact Hrun|]. split; [exact Hgroups|].
  apply (Hdropped "2001" "ERA-Interim_str_monthly_*.nc").
  - vm_compute. discriminate.
  - apply elem_of_cons. right. apply elem_of_cons. by left.
  - vm_compute. reflexivity.
Defined.

(** *** Daily maxima *)

Lemma fix_frequency_daily_witness :
  mip tasmax_var ∈ ["day"; "Eday"; "CFday"]
  ∧ ∃ out h' result,
      @_fix_frequency three_cpus 1%positive tasmax_var {[1%positive := tasmax_12h]}
      = Ok (out, h')
      ∧ h' !! out = Some result
      ∧ Cube.data result
        = [[[285; 285]; [305; 305]; [275; 275]];
           [[283; 283]; [303; 303]; [273; 273]]]%Q
      ∧ Coord.points <$> (match Cube.coord "time" result with
                          | Ok k => Some k
                          | Raise _ => None
                          end)
        = Some [12; 36]%Q.
Proof.
  assert (mip tasmax_var ∈ ["day"; "Eday"; "CFday"]) as Hmip
    by (apply elem_of_cons; by left).
  split; [exact Hmip|].
  edestruct (@fix_frequency_daily three_cpus {[1%positive := tasmax_12h]} 1%positive
               tasmax_var tasmax_12h (raw_time [12; 24; 36; 48]%Q))
    as (out & h' & result & Hrun & Hres & _ & _ & Hdata & Hcoords);
    [exact Hmip|lazy; reflexivity..|cbn; lia|].
  exists out, h', result. split_and!; [exact Hrun|exact Hres|..].
  - rewrite Hdata. vm_compute. reflexivity.
  - unfold Cube.coord. rewrite Hcoords. vm_compute. reflexivity.
Defined.

(** C7 as stated fails: the stamps are moved back by one second, not by
    one unit of the time coordinate.  The stamps of the twelve-hourly
    maxima are in hours: after the call the cube given has 24 at
    86399/3600, a second before midnight, and not at 23. *)
Lemma shift_is_a_second_not_a_unit :
  ∃ out h' shifted time,
    @_fix_frequency three_cpus 1%positive tasmax_var {[1%positive := tasmax_12h]}
    = Ok (out, h')
    ∧ Cube.coord "time" tasmax_12h = Ok (raw_time [12; 24; 36; 48]%Q)
    ∧ h' !! 1%positive = Some shifted
    ∧ Cube.coord "time" shifted = Ok time
    ∧ Coord.units time = hours_since_1900
    ∧ Coord.points time = [43199 # 3600; 86399 # 3600; 129599 # 3600; 172799 # 3600]
    ∧ one_unit_earlier [12; 24; 36; 48]%Q = [12 - 1; 24 - 1; 36 - 1; 48 - 1]%Q
    ∧ ¬ Forall2 Qeq (Coord.points time) (one_unit_earlier [12; 24; 36; 48]%Q).
Proof.
  destruct (@_fix_frequency three_cpus 1%positive tasmax_var
              {[1%positive := tasmax_12h]}) as [[out h']|e] eqn:Hrun;
    [|vm_compute in Hrun; discriminate].
  exists out, h'.
  assert (∃ shifted, h' !! 1%positive = Some shifted
                     ∧ Cube.coord "time" shifted
                       = Ok (raw_time [43199 # 3600; 86399 # 3600;
                                       129599 # 3600; 172799 # 3600])) as Hshifted.
  { vm_compute in Hrun. injection Hrun as <- <-. eexists. split; vm_compute; reflexivity. }
  destruct Hshifted as (shifted & Hl & Htime).
  exists shifted, (raw_time [43199 # 3600; 86399 # 3600; 129599 # 3600; 172799 # 3600]).
  split_and!; [reflexivity|vm_compute; reflexivity|exact Hl|exact Htime|reflexivity..|].
  intros Hall. apply Forall2_cons in Hall as [Heq _]. vm_compute in Heq. discriminate.
Qed.

(** Paths are ordered by their components, not as strings: a directory
    comes before one whose name continues with a hyphen. *)
Example sorted_by_components :
  sorted ["/in/a-b/ssr_2000.nc"; "/in/a/ssr_2000.nc"; "/in/a/ssr_1999.nc"]
  = ["/in/a/ssr_1999.nc"; "/in/a/ssr_2000.nc"; "/in/a-b/ssr_2000.nc"]
  ∧ parts "/in//a/./ssr_2000.nc" = ["/"; "in"; "a"; "ssr_2000.nc"]
  ∧ String.leb "/in/a-b/ssr_2000.nc" "/in/a/ssr_2000.nc" = true.
Proof. split_and!; vm_compute; reflexivity. Qed.

(** A project that has no table: the extraction stops at the lookup. *)
Example extract_variable_without_table :
  @_extract_variable three_cpus (OneFile "/in/ERA-Interim_t2m_monthly_2000.nc")
     tas_var (mkCfg (<["project_id" := "OBS7"]> attributes) [("tas", tas_var)]) ∅
  = Raise (KeyError "OBS7").
Proof. vm_compute. reflexivity. Qed.

(** *** The dispatcher *)

(** C3 as stated fails: when the task of 2001 fails, the run raises its
    exception, and the error record of the log holds the path of the
    file; the exception is in no record. *)
Lemma failure_record_has_no_exception :
  let run := @cmorization broken_2001 "/in" tas_cfg (Some "cmor_table") in
  run_result run = Raise (ConstraintMismatchError "t2m")
  ∧ run_log run
    = [info "Using at most %s workers" [ArgInt 2];
       error "Failed to CMORize %s" [ArgStr "/in/ERA-Interim_t2m_monthly_2001.nc"]]
  ∧ ¬ logs_exception (run_log run) (ConstraintMismatchError "t2m").
Proof.
  split_and!; [vm_compute; reflexivity..|].
  intros (r & Hr & _ & Hexc). vm_compute in Hr.
  apply elem_of_cons in Hr as [->|Hr]; [discriminate|].
  apply elem_of_cons in Hr as [->|Hr]; [discriminate|].
  by apply elem_of_nil in Hr.
Qed.

Lemma cmorization_dispatch_witness :
  cfg_attributes tas_cfg !! "comment" = Some "downloaded"
  ∧ (∀ n, @as_completed broken_2001 (seq 0 n) ≡ₚ seq 0 n)
  ∧ let run := @cmorization broken_2001 "/in" tas_cfg (Some "cmor_table") in
    length (run_attempted run) = 2%nat
    ∧ run_written run
      = artifacts (map (@run_task broken_2001 (@dispatched_cfg broken_2001 tas_cfg
                                                  "downloaded"))
                       (run_attempted run))
    ∧ length (run_written run) = 1%nat.
Proof.
  assert (cfg_attributes tas_cfg !! "comment" = Some "downloaded") as Hcomment
    by (vm_compute; reflexivity).
  assert (∀ n, @as_completed broken_2001 (seq 0 n) ≡ₚ seq 0 n) as Horder
    by (intros n; symmetry; apply Permutation_rev).
  split; [exact Hcomment|]. split; [exact Horder|].
  destruct (@cmorization_dispatch broken_2001 "/in" tas_cfg "cmor_table" "downloaded"
              Hcomment Horder) as (_ & Hwritten & _).
  split_and!; [vm_compute; reflexivity|exact Hwritten|vm_compute; reflexivity].
Defined.

(** The scenario of the specification: one file, one artifact, one
    completion record, a normal return. *)
Example cmorization_example :
  let run := @cmorization three_cpus "/in" tas_cfg (Some "cmor_table") in
  run_result run = Ok tt
  ∧ run_log run
    = [info "Using at most %s workers" [ArgInt 2];
       info "Finished CMORizing %s" [ArgStr "/in/ERA-Interim_t2m_monthly_2000.nc"]]
  ∧ length (run_written run) = 1%nat.
Proof. vm_compute. done. Qed.

(** *** The pool *)

(** The number computed from the processing units goes to the log only:
    whenever the run gets as far as the pool, the pool has one worker. *)
Theorem pool_has_one_worker `{!External} (in_dir : string) (cfg : Cfg)
    (table comment : string) :
  cfg_attributes cfg !! "comment" = Some comment →
  run_pool_size (cmorization in_dir cfg (Some table)) = 1%Z.
Proof.
  intros Hcomment. unfold cmorization. rewrite Hcomment.
  destruct (submit_all_spec in_dir (cfg_variables cfg)) as (tasks & log' & Hsub & _).
  cbn [cfg_variables]. rewrite Hsub.
  by destruct (collect _ _).
Qed.

(** C2 at a concrete machine: with three processing units the log
    announces two workers (int(3 / 1.5) = 2) and the pool has one, where
    the claim has two. *)
Example pool_with_three_cpus :
  @cpu_count three_cpus = 3%Z
  ∧ @n_workers three_cpus = 2%Z
  ∧ run_pool_size (@cmorization three_cpus "/in" tas_cfg (Some "cmor_table")) = 1%Z.
Proof. vm_compute. done. Qed.

(** With one processing unit the number logged is zero. *)
Example n_workers_with_one_cpu :
  @n_workers (library listing content table 1 (λ l, l)) = 0%Z.
Proof. reflexivity. Qed.

(** *** Coordinates of the cube that is written *)

(** C1 fails on the code: [_fix_coordinates] works on the copy it makes
    and returns nothing, and [_extract_variable] goes on with the cube it
    had.  For a monthly 2 metre temperature file the cube written has the
    coordinates of the raw file: latitudes from north to south, the raw
    names, the raw time unit, no bounds and no height coordinate; the data
    rows are in the raw order. *)
Theorem extract_variable_writes_raw_coordinates :
  ∃ c,
    written_cube (@_extract_variable three_cpus
                   (OneFile "/in/ERA-Interim_t2m_monthly_2000.nc") tas_var tas_cfg ∅)
    = Some c
    ∧ Cube.coords c = [raw_time [12]%Q; raw_latitude; raw_longitude]
    ∧ Coord.points raw_latitude = [90; 0; -90]%Q
    ∧ Cube.data c = Cube.data t2m_2000
    ∧ Cube.var_name c = Some "tas".
Proof. eexists. split; [vm_compute; reflexivity|]. vm_compute. done. Qed.

(** What the copy inside [_fix_coordinates] looks like, for comparison:
    latitudes from south to north, the rows of the data with them. *)
Example reversed_copy :
  Cube.data (Cube.slice_reverse_dim1 t2m_2000)
  = [[[231; 232]; [301; 302]; [251; 252]]]%Q
  ∧ Coord.points <$> (match Cube.coord "latitude" (Cube.slice_reverse_dim1 t2m_2000) with
                      | Ok k => Some k
                      | Raise _ => None
                      end)
    = Some [-90; 0; 90]%Q.
Proof. vm_compute. done. Qed.

End worked_examples.

(** * Further properties of the ERA-Interim script *)

(** ** What the rules do to a cube *)

Section rule_effects.
Context `{!External}.

Import EraInterim.

(** The rules that fire for a raw name, as a decision table. *)
Lemma applicable_cases (s : string) :
  applicable (Some s)
  = if decide (s ∈ ["e"; "sf"]) then [rule_metres; rule_mass_flux]
    else if decide (s ∈ ["tp"; "pev"]) then [rule_mass_flux]
    else if decide (s ∈ ["ssr"; "ssrd"; "tisr"; "hfds"]) then [rule_per_day]
    else if decide (s ∈ ["iews"; "inss"]) then [rule_stress]
    else if decide (s ∈ ["lsm"; "tcc"]) then [rule_percent]
    else if decide (s = "z") then [rule_geopotential]
    else [].
Proof.
  destruct (decide (s = "e")) as [->|?]; [by vm_compute|].
  destruct (decide (s = "sf")) as [->|?]; [by vm_compute|].
  destruct (decide (s = "tp")) as [->|?]; [by vm_compute|].
  destruct (decide (s = "pev")) as [->|?]; [by vm_compute|].
  destruct (decide (s = "ssr")) as [->|?]; [by vm_compute|].
  destruct (decide (s = "ssrd")) as [->|?]; [by vm_compute|].
  destruct (decide (s = "tisr")) as [->|?]; [by vm_compute|].
  destruct (decide (s = "hfds")) as [->|?]; [by vm_compute|].
  destruct (decide (s = "iews")) as [->|?]; [by vm_compute|].
  destruct (decide (s = "inss")) as [->|?]; [by vm_compute|].
  destruct (decide (s = "lsm")) as [->|?]; [by vm_compute|].
  destruct (decide (s = "tcc")) as [->|?]; [by vm_compute|].
  destruct (decide (s = "z")) as [->|?]; [by vm_compute|].
  repeat (rewrite (decide_False (P := s ∈ _))
            by (rewrite !elem_of_cons, elem_of_nil; tauto)).
  unfold applicable, rules, rule_metres, rule_mass_flux, rule_per_day, rule_stress,
    rule_percent, rule_geopotential.
  rewrite !filter_cons, filter_nil.
  unfold rule_applies, name_in. cbn [rule_names].
  repeat (rewrite (bool_decide_eq_false_2 (s ∈ _))
            by (rewrite !elem_of_cons, elem_of_nil; tauto)).
  by vm_compute.
Qed.

(** [_set_global_attributes] comes down to the actions of the rules that
    fire for the name, in table order. *)
Lemma _set_global_attributes_applicable (cube : Cube.t) (attributes : gmap string string)
    (definition : VariableInfo) :
  _set_global_attributes cube attributes definition
  = fold_left (λ c r, rule_action r definition c)
      (applicable (Cube.var_name (set_global_atts attributes cube)))
      (set_global_atts attributes cube).
Proof. by rewrite _set_global_attributes_table, apply_rules_filter. Qed.

Lemma rule_action_frame (r : Rule) (definition : VariableInfo) (c : Cube.t) :
  Cube.coords (rule_action r definition c) = Cube.coords c
  ∧ Cube.var_name (rule_action r definition c) = Cube.var_name c
  ∧ Cube.standard_name (rule_action r definition c) = Cube.standard_name c
  ∧ Cube.long_name (rule_action r definition c) = Cube.long_name c
  ∧ Cube.cell_methods (rule_action r definition c) = Cube.cell_methods c.
Proof.
  unfold rule_action.
  by destruct (rule_units r), (rule_scaling r), (rule_positive r).
Qed.

Lemma rule_actions_frame (rs : list Rule) (definition : VariableInfo) (c : Cube.t) :
  let c' := fold_left (λ c r, rule_action r definition c) rs c in
  Cube.coords c' = Cube.coords c
  ∧ Cube.var_name c' = Cube.var_name c
  ∧ Cube.standard_name c' = Cube.standard_name c
  ∧ Cube.long_name c' = Cube.long_name c
  ∧ Cube.cell_methods c' = Cube.cell_methods c.
Proof.
  cbn zeta. revert c. induction rs as [|r rs IH]; intros c; [done|].
  cbn [fold_left].
  destruct (IH (rule_action r definition c)) as (-> & -> & -> & -> & ->).
  apply rule_action_frame.
Qed.

(** The rules leave the coordinates, the three names and the cell methods
    of the cube as [utils.set_global_atts] left them, for every raw name. *)
Theorem set_global_attributes_keeps_names_and_coordinates (cube : Cube.t)
    (attributes : gmap string string) (definition : VariableInfo) :
  let before := set_global_atts attributes cube in
  let after := _set_global_attributes cube attributes definition in
  Cube.coords after = Cube.coords before
  ∧ Cube.var_name after = Cube.var_name before
  ∧ Cube.standard_name after = Cube.standard_name before
  ∧ Cube.long_name after = Cube.long_name before
  ∧ Cube.cell_methods after = Cube.cell_methods before.
Proof.
  cbn zeta. rewrite _set_global_attributes_applicable.
  apply rule_actions_frame.
Qed.

Ltac literal_name s lit :=
  destruct (decide (s = lit)) as [->|?]; [vm_compute; reflexivity|].

Ltac by_rule_cases :=
  cbn zeta; rewrite _set_global_attributes_applicable;
  match goal with
  | |- context [set_global_atts ?a ?c] => generalize (set_global_atts a c)
  end;
  let c0 := fresh "c0" in
  let s := fresh "s" in
  intros c0; destruct (Cube.var_name c0) as [s|]; [|vm_compute; reflexivity];
  literal_name s "e"; literal_name s "sf"; literal_name s "tp";
  literal_name s "pev"; literal_name s "ssr"; literal_name s "ssrd";
  literal_name s "tisr"; literal_name s "hfds"; literal_name s "iews";
  literal_name s "inss"; literal_name s "lsm"; literal_name s "tcc";
  literal_name s "z";
  rewrite applicable_cases; unfold name_in;
  repeat (rewrite (decide_False (P := s ∈ _))
            by (rewrite !elem_of_cons, elem_of_nil; tauto));
  rewrite (decide_False (P := s = "z")) by done;
  repeat (rewrite (bool_decide_eq_false_2 (s ∈ _))
            by (rewrite !elem_of_cons, elem_of_nil; tauto));
  reflexivity.

(** The data are changed for seven raw names only: multiplied by 1000
    for [e], [sf], [tp], [pev], by 100 for [lsm], [tcc], divided by 9.80665
    for [z]; for every other name they stay as they were. *)
Theorem set_global_attributes_data (cube : Cube.t) (attributes : gmap string string)
    (definition : VariableInfo) :
  let before := set_global_atts attributes cube in
  Cube.data (_set_global_attributes cube attributes definition)
  = if name_in (Cube.var_name before) ["e"; "sf"; "tp"; "pev"]
    then Cube.map_data (λ x, x * 1000)%Q (Cube.data before)
    else if name_in (Cube.var_name before) ["lsm"; "tcc"]
    then Cube.map_data (λ x, x * 100)%Q (Cube.data before)
    else if name_in (Cube.var_name before) ["z"]
    then Cube.map_data (λ x, x / 9.80665)%Q (Cube.data before)
    else Cube.data before.
Proof. by_rule_cases. Qed.

(** The attribute [positive] is set to [down] for the radiation fluxes
    and the surface stresses ([ssr], [ssrd], [tisr], [hfds], [iews],
    [inss]); for every other name the attributes stay as they were. *)
Theorem set_global_attributes_positive (cube : Cube.t) (attributes : gmap string string)
    (definition : VariableInfo) :
  let before := set_global_atts attributes cube in
  Cube.attributes (_set_global_attributes cube attributes definition)
  = if name_in (Cube.var_name before) ["ssr"; "ssrd"; "tisr"; "hfds"; "iews"; "inss"]
    then <["positive" := "down"]> (Cube.attributes before)
    else Cube.attributes before.
Proof. by_rule_cases. Qed.

(** The units after the rules: for [e] and [sf] the raw unit is dropped
    and the result is metre times [kg m-3 day-1]; [tp] and [pev] get their
    unit times [kg m-3 day-1]; the four radiation names their unit times
    [day-1]; [lsm] and [tcc] the unit of the table; [z] its unit over
    [m s-2]; every other name keeps its unit. *)
Theorem set_global_attributes_units (cube : Cube.t) (attributes : gmap string string)
    (definition : VariableInfo) :
  let before := set_global_atts attributes cube in
  Cube.units (_set_global_attributes cube attributes definition)
  = if name_in (Cube.var_name before) ["e"; "sf"]
    then UMul (UStr "m") (UStr "kg m-3 day-1")
    else if name_in (Cube.var_name before) ["tp"; "pev"]
    then UMul (Cube.units before) (UStr "kg m-3 day-1")
    else if name_in (Cube.var_name before) ["ssr"; "ssrd"; "tisr"; "hfds"]
    then UMul (Cube.units before) (UStr "day-1")
    else if name_in (Cube.var_name before) ["lsm"; "tcc"]
    then UStr (vi_units definition)
    else if name_in (Cube.var_name before) ["z"]
    then UDiv (Cube.units before) (UStr "m s-2")
    else Cube.units before.
Proof. by_rule_cases. Qed.

End rule_effects.

(** ** The year key of a file name *)

Section year_key.

Import EraInterim.

Lemma take_until_app (sep : ascii) (a b : list ascii) :
  sep ∉ a → take_until sep (a ++ sep :: b) = a.
Proof.
  induction a as [|c a IH]; cbn; intros Hsep.
  - by rewrite decide_True.
  - rewrite decide_False by set_solver. f_equal. apply IH. set_solver.
Qed.

Lemma take_until_all (sep : ascii) (a : list ascii) :
  sep ∉ a → take_until sep a = a.
Proof.
  induction a as [|c a IH]; cbn; intros Hsep; [done|].
  rewrite decide_False by set_solver. f_equal. apply IH. set_solver.
Qed.

Lemma elem_of_rev {A} (x : A) (l : list A) : x ∈ rev l ↔ x ∈ l.
Proof. rewrite !list_elem_of_In. symmetry. apply in_rev. Qed.

(** What follows the last separator. *)
Lemma last_field_app (sep : ascii) (a b : list ascii) :
  sep ∉ b → last_field sep (a ++ sep :: b) = b.
Proof.
  intros Hsep. unfold last_field.
  rewrite rev_app_distr. cbn [rev]. rewrite <-app_assoc. cbn [app].
  rewrite take_until_app by (by rewrite elem_of_rev).
  apply rev_involutive.
Qed.

(** Without a separator, everything. *)
Lemma last_field_all (sep : ascii) (a : list ascii) :
  sep ∉ a → last_field sep a = a.
Proof.
  intros Hsep. unfold last_field.
  rewrite take_until_all by (by rewrite elem_of_rev).
  apply rev_involutive.
Qed.

(** The stem of [dir/base.ext]. *)
Lemma stem_named_file (dir base ext : list ascii) :
  "/"%char ∉ base → "/"%char ∉ ext → "."%char ∉ ext → base ≠ [] → ext ≠ [] →
  stem (String.string_of_list_ascii (dir ++ "/"%char :: base ++ "."%char :: ext))
  = String.string_of_list_ascii base.
Proof.
  intros Hb He Hdot Hbase Hext. unfold stem.
  rewrite String.list_ascii_of_string_of_list_ascii.
  rewrite last_field_app by set_solver.
  rewrite decide_True by set_solver.
  rewrite last_field_app by done.
  rewrite !length_app. cbn [length].
  replace (length base + S (length ext) - length ext - 1)%nat with (length base) by lia.
  destruct base as [|b base]; [done|]. destruct ext as [|x ext]; [done|].
  rewrite decide_True by (cbn; lia).
  by rewrite take_app_length.
Qed.

(** The key under which [_get_files] files [dir/prefix_year.ext] is
    [year]: the directory and whatever precedes the last underscore do not
    matter, as long as the year itself has no underscore, dot or slash and
    the extension is a single non-empty suffix. *)
Theorem year_of_named_file (dir prefix year ext : list ascii) :
  "/"%char ∉ prefix → "/"%char ∉ year → "/"%char ∉ ext →
  "."%char ∉ year → "."%char ∉ ext → "_"%char ∉ year → ext ≠ [] →
  year_of (String.string_of_list_ascii
             (dir ++ "/"%char :: prefix ++ "_"%char :: year ++ "."%char :: ext))
  = String.string_of_list_ascii year.
Proof.
  intros Hp Hy He Hdy Hde Huy Hext. unfold year_of.
  replace (dir ++ "/"%char :: prefix ++ "_"%char :: year ++ "."%char :: ext)
    with (dir ++ "/"%char :: (prefix ++ "_"%char :: year) ++ "."%char :: ext)
    by (by rewrite <-app_assoc).
  rewrite stem_named_file; [|set_solver|done..|by destruct prefix|done].
  rewrite String.list_ascii_of_string_of_list_ascii.
  by rewrite last_field_app.
Qed.

(** A file name without underscore is filed under its whole stem. *)
Lemma year_of_plain_file (dir base ext : list ascii) :
  "/"%char ∉ base → "/"%char ∉ ext → "."%char ∉ ext → "_"%char ∉ base →
  base ≠ [] → ext ≠ [] →
  year_of (String.string_of_list_ascii (dir ++ "/"%char :: base ++ "."%char :: ext))
  = String.string_of_list_ascii base.
Proof.
  intros Hb He Hdot Hu Hbase Hext. unfold year_of.
  rewrite stem_named_file by done.
  rewrite String.list_ascii_of_string_of_list_ascii.
  by rewrite last_field_all.
Qed.

Lemma year_of_named_file_witness :
  year_of "/in/ERA-Interim_ssr_monthly_2000.nc" = "2000".
Proof.
  apply (year_of_named_file
           (String.list_ascii_of_string "/in")
           (String.list_ascii_of_string "ERA-Interim_ssr_monthly")
           (String.list_ascii_of_string "2000")
           (String.list_ascii_of_string "nc"));
    try (apply (bool_decide_unpack _); vm_compute; exact I).
Defined.

End year_key.

(** ** The years the file resolver keeps *)

Section resolver_years.
Context `{!External}.

Import EraInterim.

(** The keys of the first loop are the years for which some pattern
    matches a file. *)
Lemma collect_files_key (in_dir : string) (patterns : list string) (year : string) :
  year ∈ map fst (collect_files in_dir patterns)
  ↔ group_of_year in_dir patterns year ≠ [].
Proof.
  destruct (collect_files_spec in_dir patterns) as (Hget & Hu & Hne).
  split.
  - intros Hkey. apply list_elem_of_fmap in Hkey as ([y v] & -> & Hin). cbn.
    rewrite <-Hget, (get_elem_of _ _ _ Hu Hin).
    unfold no_empty_entry in Hne. rewrite Forall_forall in Hne.
    apply (Hne _ Hin).
  - intros Hsome.
    destruct (decide (year ∈ map fst (collect_files in_dir patterns))); [done|].
    exfalso. apply Hsome. rewrite <-Hget. by apply get_not_key.
Qed.

Lemma collect_files_entry (in_dir : string) (patterns : list string)
    (year : string) (group : list string) :
  (year, group) ∈ collect_files in_dir patterns
  ↔ group = group_of_year in_dir patterns year ∧ group ≠ [].
Proof.
  destruct (collect_files_spec in_dir patterns) as (Hget & Hu & Hne).
  split.
  - intros Hin. split.
    + by rewrite <-Hget, (get_elem_of _ _ _ Hu Hin).
    + unfold no_empty_entry in Hne. rewrite Forall_forall in Hne.
      apply (Hne _ Hin).
  - intros [-> Hsome]. apply collect_files_key in Hsome.
    apply list_elem_of_fmap in Hsome as ([y v] & -> & Hin). cbn.
    by rewrite <-Hget, (get_elem_of _ _ _ Hu Hin).
Qed.

(** The resolver sorts the years into two classes.  A year is a key of
    the result, once, exactly when the files matched for it over all
    patterns are as many as the patterns; its group is then all these
    files, pattern by pattern and sorted within a pattern.  Every other
    year with a file is logged. *)
Theorem get_files_years (in_dir : string) (var : Var) (patterns : list string)
    (name : string) :
  files var = Some patterns →
  short_name var = Some name →
  ∃ d log,
    _get_files in_dir var = Ok (d, log)
    ∧ NoDup (map fst d)
    ∧ (∀ year group,
         (year, group) ∈ d
         ↔ group = group_of_year in_dir patterns year
           ∧ group ≠ [] ∧ length group = length patterns)
    ∧ (∀ year,
         dropped_record name year (length patterns) ∈ log
         ↔ group_of_year in_dir patterns year ≠ []
           ∧ length (group_of_year in_dir patterns year) ≠ length patterns).
Proof.
  intros Hfiles Hname. eexists _, _.
  split; [by apply _get_files_spec|].
  destruct (collect_files_spec in_dir patterns) as (Hget & Hu & Hne).
  split_and!.
  - unfold unique_keys in Hu.
    eapply sublist_NoDup; [exact Hu|].
    apply (fmap_sublist fst), sublist_filter.
  - intros year group. rewrite list_elem_of_filter, collect_files_entry. cbn. tauto.
  - intros year. rewrite list_elem_of_fmap. split.
    + intros ([y v] & Heq & Hin). cbn in Heq. injection Heq as ->.
      apply list_elem_of_filter in Hin as [Hlen Hin]. cbn in Hlen.
      apply collect_files_entry in Hin as [-> Hsome]. done.
    + intros [Hsome Hlen].
      exists (year, group_of_year in_dir patterns year). split; [done|].
      apply list_elem_of_filter. split; [done|].
      by apply collect_files_entry.
Qed.

(** The second loop for a variable without [short_name]: it gets through
    as long as every entry is complete, and stops at the first one that
    is not. *)
Lemma check_complete_unnamed (var : Var) (n : nat) (kept todo : files_dict)
    (log : list LogRecord) :
  short_name var = None →
  unique_keys (kept ++ todo) →
  check_complete var n (map fst todo) (kept ++ todo) log
  = if decide (Forall (λ kv, length kv.2 = n) todo)
    then Ok (kept ++ todo, log)
    else Raise (KeyError "short_name").
Proof.
  intros Hname. revert kept.
  induction todo as [|[k v] todo IH]; intros kept Hu;
    cbn [map fst snd check_complete].
  - by rewrite decide_True by constructor.
  - assert (k ∉ map fst kept) as Hk.
    { unfold unique_keys in Hu. rewrite map_app in Hu.
      apply NoDup_app in Hu as (_ & Hdisj & _).
      intros Hin. apply (Hdisj k Hin). cbn. set_solver. }
    rewrite get_app_r by done. cbn [get].
    rewrite (decide_True (P := k = k)) by done.
    destruct (decide (length v ≠ n)) as [Hlen|Hlen].
    + unfold var_short_name. rewrite Hname.
      rewrite decide_False; [done|].
      intros Hall. by apply Forall_cons in Hall as [? _].
    + apply dec_stable in Hlen.
      replace (kept ++ (k, v) :: todo) with ((kept ++ [(k, v)]) ++ todo)
        by (by rewrite <-app_assoc).
      rewrite IH by (by rewrite <-app_assoc).
      destruct (decide (Forall (λ kv, length kv.2 = n) todo)) as [Hall|Hall].
      * rewrite decide_True; [done|]. by constructor.
      * rewrite decide_False; [done|].
        intros Hall'. by apply Forall_cons in Hall' as [_ ?].
Qed.

(** The name of the variable is looked up for the log record only.  For
    a variable without [short_name] the resolver raises [KeyError] exactly
    when a year with a file lacks or exceeds the number of patterns, and
    otherwise returns every year, with nothing logged. *)
Theorem get_files_without_short_name (in_dir : string) (var : Var)
    (patterns : list string) :
  files var = Some patterns →
  short_name var = None →
  (_get_files in_dir var = Raise (KeyError "short_name")
   ↔ ∃ year, group_of_year in_dir patterns year ≠ []
             ∧ length (group_of_year in_dir patterns year) ≠ length patterns)
  ∧ ((∀ year, group_of_year in_dir patterns year ≠ [] →
              length (group_of_year in_dir patterns year) = length patterns) →
     _get_files in_dir var = Ok (collect_files in_dir patterns, [])).
Proof.
  intros Hfiles Hname.
  assert (_get_files in_dir var
          = if decide (Forall (λ kv, length kv.2 = length patterns)
                         (collect_files in_dir patterns))
            then Ok (collect_files in_dir patterns, [])
            else Raise (KeyError "short_name")) as Hrun.
  { unfold _get_files, var_files. rewrite Hfiles. cbn.
    apply (check_complete_unnamed var (length patterns) []); [done|].
    apply collect_files_spec. }
  rewrite Hrun. split.
  - destruct (decide _) as [Hall|Hall].
    + split; [done|]. intros (year & Hsome & Hlen). exfalso.
      rewrite Forall_forall in Hall.
      apply Hlen, (Hall (year, group_of_year in_dir patterns year)).
      by apply collect_files_entry.
    + split; [|done]. intros _.
      apply not_Forall_Exists in Hall; [|intros ?; apply _].
      apply Exists_exists in Hall as ([y v] & Hin & Hlen). cbn in Hlen.
      apply collect_files_entry in Hin as [-> Hsome]. by exists y.
  - intros Hall. rewrite decide_True; [done|].
    apply Forall_forall. intros [y v] Hin. cbn.
    apply collect_files_entry in Hin as [-> Hsome]. by apply Hall.
Qed.

End resolver_years.

(** ** One axis of [_fix_coordinates] *)

Section coordinate_fix.
Context `{!External}.

Import EraInterim.

(** What the loop body of [_fix_coordinates] does to the coordinate of an
    axis.  With more than one point and bounds already there it raises,
    because [guess_bounds] refuses a coordinate that has bounds; in every
    other case it returns the coordinate under the three names of the
    table, with as many points as before, and, when there is more than
    one point, with the bounds guessed from the new points. *)
Theorem fix_coordinate_outcome (axis : Axis) (coord_def : CoordinateInfo)
    (coord : Coord.t) :
  ((1 < length (Coord.points coord))%nat ∧ is_Some (Coord.bounds coord) →
   fix_coordinate axis coord_def coord = Raise (ValueError "Coord already has bounds"))
  ∧ (¬ ((1 < length (Coord.points coord))%nat ∧ is_Some (Coord.bounds coord)) →
     ∃ k,
       fix_coordinate axis coord_def coord = Ok k
       ∧ Coord.standard_name k = Some (ci_standard_name coord_def)
       ∧ Coord.var_name k = Some (ci_out_name coord_def)
       ∧ Coord.long_name k = Some (ci_long_name coord_def)
       ∧ length (Coord.points k) = length (Coord.points coord)
       ∧ Coord.dim k = Coord.dim coord
       ∧ Coord.axis k = Coord.axis coord
       ∧ ((1 < length (Coord.points coord))%nat →
          Coord.bounds k = Some (guessed_bounds (Coord.points k)))).
Proof.
  destruct coord as [sn ln vn u pts bnds dim ax].
  unfold fix_coordinate, coord_guess_bounds, coord_convert_units.
  cbn [Coord.points Coord.bounds]. split.
  - intros [Hlen [b ->]].
    destruct (decide (axis = AxisT)), (decide (axis = AxisZ)); cbn; rewrite ?length_map;
      (rewrite decide_True by done); done.
  - intros Hnot.
    destruct (decide (1 < length pts)%nat) as [Hlen|Hlen].
    + destruct bnds as [b|]; [exfalso; apply Hnot; eauto|].
      destruct (decide (axis = AxisT)), (decide (axis = AxisZ)); cbn; rewrite ?length_map;
        (rewrite decide_True by done);
        (rewrite decide_False by lia);
        eexists; (split; [reflexivity|]); cbn; rewrite ?length_map; done.
    + destruct (decide (axis = AxisT)), (decide (axis = AxisZ)); cbn; rewrite ?length_map;
        (rewrite decide_False by done);
        eexists; (split; [reflexivity|]); cbn; rewrite ?length_map;
        split_and!; try done.
Qed.

End coordinate_fix.

(** ** What [_extract_variable] loads and writes *)

Section extraction.
Context `{!External}.

Import EraInterim.






(** The first statement of the extraction, for an entry with a short
    name and an input it can list. *)
Lemma log_extracting_ok (in_file : InFile) (var : Var) (name : string) :
  short_name var = Some name →
  (∀ path, in_file = OneFile path → files var = None) →
  ∃ record, log_extracting in_file var = Ok record.
Proof.
  intros Hname Hfiles. unfold log_extracting, var_short_name.
  rewrite Hname, Res_bind_Ok.
  destruct (files var) as [patterns|], in_file as [path|items]; eauto.
  by specialize (Hfiles path eq_refl).
Qed.

(** An extraction that writes a cube has logged its input and found the
    table of the project. *)
Lemma extract_variable_ok_inv (in_file : InFile) (var : Var) (cfg : Cfg)
    (h h' : store) (a : Artifact) :
  _extract_variable in_file var cfg h = Ok (a, h') →
  ∃ record project,
    log_extracting in_file var = Ok record
    ∧ cfg_attributes cfg !! "project_id" = Some project
    ∧ has_cmor_table project = true.
Proof.
  unfold _extract_variable. intros Hrun.
  destruct (log_extracting in_file var) as [record|e] eqn:Hlog; [|done].
  erewrite bind_ok in Hrun by reflexivity. cbn zeta in Hrun.
  rewrite lookup_insert_ne in Hrun by done.
  destruct (cfg_attributes cfg !! "project_id") as [project|]; [|done].
  erewrite bind_ok in Hrun by reflexivity. cbv beta in Hrun.
  destruct (has_cmor_table project) eqn:Htable; [eauto|done].
Qed.

(** A project without a table: [CMOR_TABLES[project_id]] raises before
    anything is loaded. *)
Lemma extract_variable_unknown_project (in_file : InFile) (var : Var) (cfg : Cfg)
    (project name : string) (h : store) :
  short_name var = Some name →
  (∀ path, in_file = OneFile path → files var = None) →
  cfg_attributes cfg !! "project_id" = Some project →
  has_cmor_table project = false →
  _extract_variable in_file var cfg h = Raise (KeyError project).
Proof.
  intros Hname Hfiles Hproject Htable. unfold _extract_variable.
  destruct (log_extracting_ok in_file var name Hname Hfiles) as [record ->].
  erewrite bind_ok by reflexivity. cbn zeta.
  rewrite lookup_insert_ne by done. rewrite Hproject.
  erewrite bind_ok by reflexivity. cbv beta. by rewrite Htable.
Qed.

(** With file patterns and an operator other than [sum], or with an
    empty group, no cube is bound by the time the script uses it: for a
    project that has a table, the extraction raises [UnboundLocalError]. *)
Theorem extract_variable_unbound_cube (items : list string) (var : Var) (cfg : Cfg)
    (patterns : list string) (project name op : string) (h : store) :
  cfg_attributes cfg !! "project_id" = Some project →
  has_cmor_table project = true →
  short_name var = Some name →
  files var = Some patterns →
  operator var = Some op →
  op ≠ "sum" ∨ items = [] →
  _extract_variable (FileGroup items) var cfg h = Raise (UnboundLocalError "cube").
Proof.
  intros Hproject Htable Hname Hfiles Hop Hcase. unfold _extract_variable.
  destruct (log_extracting_ok (FileGroup items) var name Hname) as [record ->];
    [done|].
  erewrite bind_ok by reflexivity. cbn zeta.
  rewrite lookup_insert_ne by done. rewrite Hproject.
  erewrite bind_ok by reflexivity. cbv beta. rewrite Htable.
  erewrite bind_ok by reflexivity.
  unfold var_short_name. rewrite Hname.
  erewrite bind_ok by reflexivity.
  unfold load_input. rewrite Hfiles, Hop.
  destruct (decide (op = "sum")) as [->|Hne]; [|done].
  destruct Hcase as [?| ->]; done.
Qed.

(** For a variable that is not daily, nothing [_fix_coordinates] and
    [_fix_frequency] do reaches the output.  Whenever the extraction
    writes a cube, the cube has the coordinates of the loaded cube as
    [utils.set_global_atts] left them (names, units, points and bounds of
    every axis, and no height coordinate added), under the names and the
    unit of the table. *)
Theorem extract_variable_not_daily (in_file : InFile) (var : Var) (cfg : Cfg)
    (project name : string) (definition : VariableInfo) (h h1 h' : store) (l : loc)
    (loaded : Cube.t) (a : Artifact) :
  mip var ∉ ["day"; "Eday"; "CFday"] →
  cfg_attributes cfg !! "project_id" = Some project →
  short_name var = Some name →
  get_variable project (mip var) name = Some definition →
  load_input in_file var h = Ok (l, h1) →
  h1 !! l = Some loaded →
  _extract_variable in_file var cfg h = Ok (a, h') →
  Cube.coords (saved_cube a)
  = Cube.coords (set_global_atts (<["mip" := mip var]> (cfg_attributes cfg)) loaded)
  ∧ Cube.var_name (saved_cube a) = Some (vi_short_name definition)
  ∧ Cube.standard_name (saved_cube a) = Some (vi_standard_name definition)
  ∧ Cube.long_name (saved_cube a) = Some (vi_long_name definition)
  ∧ Cube.units (saved_cube a) = UStr (vi_units definition)
  ∧ saved_short_name a = Some (vi_short_name definition).
Proof.
  intros Hmip Hproject Hname Hdef Hload Hl Hrun.
  destruct (extract_variable_ok_inv _ _ _ _ _ _ Hrun)
    as (record & project' & Hlog & Hproject' & Htable).
  rewrite Hproject in Hproject'. injection Hproject' as <-.
  unfold _extract_variable in Hrun. rewrite Hlog in Hrun.
  erewrite bind_ok in Hrun by reflexivity. cbn zeta in Hrun.
  rewrite lookup_insert_ne in Hrun by done. rewrite Hproject in Hrun.
  erewrite bind_ok in Hrun by reflexivity. cbv beta in Hrun.
  rewrite Htable in Hrun.
  erewrite bind_ok in Hrun by reflexivity.
  unfold var_short_name in Hrun. rewrite Hname in Hrun.
  erewrite bind_ok in Hrun by reflexivity. cbv beta in Hrun.
  rewrite Hdef in Hrun.
  erewrite bind_ok in Hrun by exact Hload.
  erewrite bind_ok in Hrun by reflexivity.
  erewrite bind_ok in Hrun by (apply modify_bound, Hl).
  do 4 (erewrite bind_ok in Hrun by (apply modify_bound, lookup_insert_eq)).
  rewrite !insert_insert_eq in Hrun.
  apply bind_inv in Hrun as ([] & h2 & Hfix & Hrun).
  pose proof (_fix_coordinates_frame _ _ _ _ Hfix l _ (lookup_insert_eq _ _ _)) as Hl2.
  unfold _fix_frequency in Hrun.
  rewrite bool_decide_eq_false_2 in Hrun by done.
  erewrite bind_ok in Hrun by reflexivity.
  erewrite bind_ok in Hrun by (apply modify_bound, Hl2).
  erewrite bind_ok in Hrun by (apply read_bound, lookup_insert_eq).
  injection Hrun as <- _. cbn.
  rewrite _set_global_attributes_applicable.
  destruct (rule_actions_frame
              (applicable (Cube.var_name
                 (set_global_atts (<["mip" := mip var]> (cfg_attributes cfg)) loaded)))
              definition
              (set_global_atts (<["mip" := mip var]> (cfg_attributes cfg)) loaded))
    as (Hcoords & _).
  done.
Qed.

End extraction.

(** ** [_fix_coordinates] and the cubes of its caller *)

Section coordinates_copy.
Context `{!External}.

Import EraInterim.

(** [_fix_coordinates] changes no cube that exists when it is called:
    after it has returned, every cube of the store, the one it was given
    included, is what it was. *)
Theorem fix_coordinates_changes_no_cube (cube : loc) (definition : VariableInfo)
    (h h' : store) :
  _fix_coordinates cube definition h = Ok (tt, h') →
  ∀ l, l ∈ dom h → h' !! l = h !! l.
Proof.
  intros Hrun l Hl. apply elem_of_dom in Hl as [c Hc].
  rewrite Hc. by apply (_fix_coordinates_frame cube definition h h' Hrun).
Qed.

End coordinates_copy.

(** ** inmcm4: the sign fix applied twice *)

Section inmcm4_twice.
Context `{!External}.

(** [gpp.fix_data] undoes its own change of the data: run twice on a
    cube it gives back the values, the names, the units, the cell methods
    and the coordinates the cube had.  (The attributes are not among
    them: they are what the multiplications left.) *)
Theorem gpp_fix_data_twice (h : store) (cube : loc) (c : Cube.t) :
  h !! cube = Some c →
  ∃ c',
    (Inmcm4.gpp.fix_data cube ≫= Inmcm4.gpp.fix_data) h = Ok (cube, <[cube := c']> h)
    ∧ Cube.standard_name c' = Cube.standard_name c
    ∧ Cube.long_name c' = Cube.long_name c
    ∧ Cube.var_name c' = Cube.var_name c
    ∧ Cube.units c' = Cube.units c
    ∧ Cube.cell_methods c' = Cube.cell_methods c
    ∧ Cube.coords c' = Cube.coords c
    ∧ data_equiv (Cube.data c') (Cube.data c).
Proof.
  intros Hc. eexists. split.
  - erewrite bind_ok by (by apply (scaled_in_place Inmcm4.gpp.fix_data (-1))).
    rewrite (scaled_in_place Inmcm4.gpp.fix_data (-1) (λ _, eq_refl) _ _ _
               (lookup_insert_eq _ _ _)).
    by rewrite insert_insert_eq.
  - split_and!; [done..|]. cbn.
    apply map_data_round_trip. intros x. ring.
Qed.

End inmcm4_twice.

(** ** The further properties at concrete inputs *)

Section further_examples.

Import EraInterim Example.

Lemma get_files_years_witness :
  ∃ d log,
    @_get_files incomplete_2001 "/in" hfds_var = Ok (d, log)
    ∧ NoDup (map fst d)
    ∧ (∀ year group,
         (year, group) ∈ d
         ↔ group = @group_of_year incomplete_2001 "/in"
                     ["ERA-Interim_ssr_monthly_*.nc"; "ERA-Interim_str_monthly_*.nc"] year
           ∧ group ≠ [] ∧ length group = 2%nat)
    ∧ (∀ year,
         dropped_record "hfds" year 2 ∈ log
         ↔ @group_of_year incomplete_2001 "/in"
             ["ERA-Interim_ssr_monthly_*.nc"; "ERA-Interim_str_monthly_*.nc"] year ≠ []
           ∧ length (@group_of_year incomplete_2001 "/in"
                       ["ERA-Interim_ssr_monthly_*.nc"; "ERA-Interim_str_monthly_*.nc"]
                       year) ≠ 2%nat).
Proof.
  apply (@get_files_years incomplete_2001 "/in" hfds_var
           ["ERA-Interim_ssr_monthly_*.nc"; "ERA-Interim_str_monthly_*.nc"] "hfds");
    reflexivity.
Defined.

Lemma get_files_without_short_name_witness :
  @_get_files incomplete_2001 "/in" hfds_unnamed = Raise (KeyError "short_name").
Proof.
  destruct (@get_files_without_short_name incomplete_2001 "/in" hfds_unnamed
              ["ERA-Interim_ssr_monthly_*.nc"; "ERA-Interim_str_monthly_*.nc"]
              eq_refl eq_refl) as [Hraise _].
  apply Hraise. exists "2001". split; vm_compute; [discriminate|lia].
Defined.

Lemma fix_coordinates_changes_no_cube_witness :
  ∃ h',
    @_fix_coordinates three_cpus 1%positive tas_info {[1%positive := t2m_2000]}
    = Ok (tt, h')
    ∧ h' !! 1%positive = Some t2m_2000.
Proof.
  destruct (@_fix_coordinates three_cpus 1%positive tas_info {[1%positive := t2m_2000]})
    as [[[] h']|e] eqn:Hrun.
  - exists h'. split; [reflexivity|].
    rewrite (@fix_coordinates_changes_no_cube three_cpus 1%positive tas_info _ h' Hrun).
    + vm_compute. reflexivity.
    + apply elem_of_dom. eexists. vm_compute. reflexivity.
  - vm_compute in Hrun. discriminate.
Defined.


Lemma extract_variable_unbound_cube_witness :
  @_extract_variable radiation_2000
     (FileGroup ["/in/ERA-Interim_ssr_monthly_2000.nc";
                 "/in/ERA-Interim_str_monthly_2000.nc"]) hfds_mean tas_cfg ∅
  = Raise (UnboundLocalError "cube").
Proof.
  apply (@extract_variable_unbound_cube radiation_2000 _ hfds_mean tas_cfg
           ["ERA-Interim_ssr_monthly_*.nc"; "ERA-Interim_str_monthly_*.nc"]
           "OBS" "hfds" "mean");
    [vm_compute; reflexivity|reflexivity..|].
  left. discriminate.
Defined.

Lemma extract_variable_not_daily_witness :
  ∃ a h',
    @_extract_variable three_cpus (OneFile "/in/ERA-Interim_t2m_monthly_2000.nc")
       tas_var tas_cfg ∅ = Ok (a, h')
    ∧ Cube.coords (saved_cube a)
      = Cube.coords (@set_global_atts three_cpus
                       (<["mip" := "Amon"]> attributes) t2m_2000)
    ∧ Cube.var_name (saved_cube a) = Some "tas"
    ∧ Cube.units (saved_cube a) = UStr "K".
Proof.
  destruct (@_extract_variable three_cpus (OneFile "/in/ERA-Interim_t2m_monthly_2000.nc")
              tas_var tas_cfg ∅) as [[a h']|e] eqn:Hrun;
    [|vm_compute in Hrun; discriminate].
  exists a, h'. split; [reflexivity|].
  destruct (@extract_variable_not_daily three_cpus
              (OneFile "/in/ERA-Interim_t2m_monthly_2000.nc") tas_var tas_cfg
              "OBS" "tas" tas_info ∅
              (<[fresh (dom (∅ : gmap positive Cube.t)) := t2m_2000]> ∅) h'
              (fresh (dom (∅ : gmap positive Cube.t))) t2m_2000 a)
    as (Hcoords & Hvar & _ & _ & Hunits & _).
  - vm_compute. intros Hin. repeat (apply elem_of_cons in Hin as [Hin|Hin]; [discriminate|]).
    by apply elem_of_nil in Hin.
  - vm_compute. reflexivity.
  - reflexivity.
  - vm_compute. reflexivity.
  - vm_compute. reflexivity.
  - apply lookup_insert_eq.
  - exact Hrun.
  - split_and!; [exact Hcoords|exact Hvar|exact Hunits].
Defined.

Lemma gpp_fix_data_twice_witness :
  ∃ c',
    (@Inmcm4.gpp.fix_data three_cpus 1%positive ≫= @Inmcm4.gpp.fix_data three_cpus)
      {[1%positive := gpp_inmcm4]}
    = Ok (1%positive, <[1%positive := c']> {[1%positive := gpp_inmcm4]})
    ∧ Cube.var_name c' = Some "gpp"
    ∧ Cube.cell_methods c' = ["time: mean"]
    ∧ data_equiv (Cube.data c') (Cube.data gpp_inmcm4).
Proof.
  destruct (@gpp_fix_data_twice three_cpus {[1%positive := gpp_inmcm4]} 1%positive
              gpp_inmcm4)
    as (c' & Hrun & _ & _ & Hvar & _ & Hcells & _ & Hdata); [vm_compute; reflexivity|].
  exists c'. split_and!; [exact Hrun|exact Hvar|exact Hcells|exact Hdata].
Defined.

End further_examples.

(** * Properties of the Duveiller2018 script *)

(** ** The time axis *)

Section duveiller_time.

Import Duveiller2018.

(** The loop over the months gives the months of 2010. *)
Lemma time_axis_2010 : time_bnds = bounds_2010 ∧ time_midpoints = midpoints_2010.
Proof. by vm_compute. Qed.

Lemma filter_map_iff {A} (P Q : A → Prop) `{!∀ x, Decision (P x)}
    `{!∀ x, Decision (Q x)} (g : A → A) (l : list A) :
  (∀ x, x ∈ l → (P (g x) ↔ Q x)) →
  filter P (map g l) = map g (filter Q l).
Proof.
  induction l as [|x l IH]; intros Hg; [done|]. cbn [map].
  rewrite !filter_cons.
  pose proof (Hg x ltac:(set_solver)) as Hx.
  rewrite IH by (intros y Hy; apply Hg; set_solver).
  repeat case_decide; try tauto; done.
Qed.

(** Updating the coordinates of a name again, after an update that gave
    that name to the selected coordinates and to no other. *)
Lemma update_named_twice (n : string) (sel : Coord.t → bool) (f g : Coord.t → Coord.t)
    (l : list Coord.t) :
  (∀ k, k ∈ l → sel k = true → Coord.name (f k) = n) →
  (∀ k, k ∈ l → sel k = false → Coord.name k ≠ n) →
  map (λ k, if named n k then g k else k) (map (λ k, if sel k then f k else k) l)
  = map (λ k, if sel k then g (f k) else k) l.
Proof.
  intros Hsel Hother. rewrite map_map. apply map_ext_in. intros k Hk.
  apply list_elem_of_In in Hk. unfold named.
  destruct (sel k) eqn:Hs.
  - by rewrite bool_decide_eq_true_2 by (by apply Hsel).
  - by rewrite bool_decide_eq_false_2 by (by apply Hother).
Qed.

Lemma coord_of_replaced (n : string) (sel : Coord.t → bool) (t k0 : Coord.t)
    (l : list Coord.t) :
  Coord.name t = n →
  filter (λ k, sel k = true) l = [k0] →
  (∀ k, k ∈ l → sel k = false → Coord.name k ≠ n) →
  filter (λ k, Coord.name k = n) (map (λ k, if sel k then t else k) l) = [t].
Proof.
  intros Ht Hsel Hother.
  rewrite (filter_map_iff _ (λ k, sel k = true)).
  - rewrite Hsel. cbn.
    assert (k0 ∈ filter (λ k, sel k = true) l) as Hin by (rewrite Hsel; set_solver).
    apply list_elem_of_filter in Hin as [-> _]. done.
  - intros k Hk. destruct (sel k) eqn:Hs; [done|].
    split; [|done]. intros Hn. by apply Hother in Hn.
Qed.

Lemma filter_named (n : string) (l : list Coord.t) :
  filter (λ k, named n k = true) l = filter (λ k, Coord.name k = n) l.
Proof.
  apply list_filter_iff. intros k. unfold named.
  by rewrite bool_decide_eq_true.
Qed.

Lemma named_false (n : string) (k : Coord.t) : named n k = false → Coord.name k ≠ n.
Proof. unfold named. by rewrite bool_decide_eq_false. Qed.

(** For a cube with one coordinate named [Month], of twelve points, and
    no coordinate named [time], [fix_time_coord_duveiller2018] puts in
    the place of the month coordinate the time axis of the year 2010:
    standard name [time], no long name and no var name, days since
    1950-01-01, the twelve months from their first day to the first day
    of the next as bounds (December ending on 2011-01-01), and the middle of
    each month as points.  Nothing else of the cube changes. *)
Theorem fix_time_coord_sets_2010 (cube : Cube.t) (month : Coord.t) :
  filter (λ k, Coord.name k = "Month") (Cube.coords cube) = [month] →
  Forall (λ k, Coord.name k ≠ "time") (Cube.coords cube) →
  length (Coord.points month) = 12%nat →
  fix_time_coord_duveiller2018 cube
  = Ok (Cube.update_coords (named "Month") (λ _, time_2010 month) cube).
Proof.
  intros Hmonth Hno Hlen.
  destruct time_axis_2010 as [Hbnds Hmid].
  assert (∀ k, k ∈ Cube.coords cube → named "Month" k = false → Coord.name k ≠ "time")
    as Hother.
  { intros k Hk _. rewrite Forall_forall in Hno. by apply Hno. }
  assert (filter (λ k, named "Month" k = true) (Cube.coords cube) = [month]) as Hsel
    by (by rewrite filter_named).
  assert (∀ t, Coord.name t = "time" →
            Cube.coord "time" (Cube.update_coords (named "Month") (λ _, t) cube) = Ok t)
    as Hfind.
  { intros t Ht. apply coord_inv. cbn. by apply (coord_of_replaced _ _ _ month). }
  assert (∀ (f g : Coord.t → Coord.t), (∀ k, Coord.name (f k) = "time") →
            Cube.update_coords (named "time") g
              (Cube.update_coords (named "Month") f cube)
            = Cube.update_coords (named "Month") (λ k, g (f k)) cube) as Hagain.
  { intros f g Hf. unfold Cube.update_coords, Cube.set_coords. cbn. f_equal.
    apply update_named_twice; [intros; apply Hf|done]. }
  assert (Cube.update_coords (named "Month") (rename "time") cube
          = Cube.update_coords (named "Month") (λ _, rename "time" month) cube) as Hfirst.
  { unfold Cube.update_coords. f_equal. apply map_ext_in. intros k Hk.
    apply list_elem_of_In in Hk. destruct (named "Month" k) eqn:Hs; [|done].
    assert (k ∈ filter (λ k, named "Month" k = true) (Cube.coords cube)) as Hin
      by (by apply list_elem_of_filter).
    rewrite Hsel in Hin. by apply list_elem_of_singleton in Hin as ->. }
  unfold fix_time_coord_duveiller2018.
  rewrite (proj2 (coord_inv "Month" cube month) Hmonth), Res_bind_Ok.
  cbv zeta. rewrite Hfirst.
  rewrite (Hfind (rename "time" month)) by done. rewrite Res_bind_Ok.
  unfold assign_bounds. rewrite decide_True by (rewrite Hbnds; cbn; by rewrite Hlen).
  rewrite Res_bind_Ok. rewrite Hagain by done.
  rewrite Hfind by done. rewrite Res_bind_Ok.
  unfold assign_points. rewrite decide_True by (rewrite Hmid; cbn; by rewrite Hlen).
  rewrite Res_bind_Ok. rewrite Hagain by done.
  rewrite Hfind by done. rewrite Res_bind_Ok.
  rewrite Hagain by done.
  rewrite Hbnds, Hmid. by destruct month.
Qed.

(** The two ways [fix_time_coord_duveiller2018] fails: without exactly
    one coordinate named [Month] the lookup raises; with a month
    coordinate that has not twelve points the new bounds are refused. *)
Theorem fix_time_coord_errors (cube : Cube.t) :
  (length (filter (λ k, Coord.name k = "Month") (Cube.coords cube)) ≠ 1%nat →
   fix_time_coord_duveiller2018 cube = Raise (CoordinateNotFoundError "Month"))
  ∧ (∀ month,
       filter (λ k, Coord.name k = "Month") (Cube.coords cube) = [month] →
       Forall (λ k, Coord.name k ≠ "time") (Cube.coords cube) →
       length (Coord.points month) ≠ 12%nat →
       fix_time_coord_duveiller2018 cube
       = Raise (ValueError "Bounds shape must be compatible with points shape.")).
Proof.
  split.
  - intros Hlen. unfold fix_time_coord_duveiller2018, Cube.coord.
    by destruct (filter _ (Cube.coords cube)) as [|k1 [|k2 l]].
  - intros month Hmonth Hno Hlen.
    assert (filter (λ k, named "Month" k = true) (Cube.coords cube) = [month]) as Hsel
      by (by rewrite filter_named).
    assert (Cube.coord "time" (Cube.update_coords (named "Month") (rename "time") cube)
            = Ok (rename "time" month)) as Hfind.
    { apply coord_inv. cbn.
      rewrite (filter_map_iff _ (λ k, named "Month" k = true)).
      - rewrite Hsel. cbn. unfold named. rewrite bool_decide_eq_true_2; [done|].
        assert (month ∈ filter (λ k, Coord.name k = "Month") (Cube.coords cube)) as Hin
          by (rewrite Hmonth; set_solver).
        by apply list_elem_of_filter in Hin as [? _].
      - intros k Hk. destruct (named "Month" k) eqn:Hs; [done|].
        split; [|done]. intros Hn. rewrite Forall_forall in Hno. by apply Hno in Hn. }
    unfold fix_time_coord_duveiller2018.
    rewrite (proj2 (coord_inv "Month" cube month) Hmonth), Res_bind_Ok.
    cbv zeta. rewrite Hfind, Res_bind_Ok.
    unfold assign_bounds. rewrite decide_False; [done|].
    destruct time_axis_2010 as [-> _]. cbn. done.
Qed.

End duveiller_time.

(** ** The latitude flip *)

Section duveiller_flip.

Import Duveiller2018.

Lemma flip_twice (axis : nat) (data data' : list (list (list Q))) :
  flip axis data = Ok data' → flip axis data' = Ok data.
Proof.
  destruct axis as [|[|[|axis]]]; cbn; intros [= <-]; f_equal.
  - apply rev_involutive.
  - rewrite map_map. rewrite <-(map_id data) at 2.
    apply map_ext. intros plane. apply rev_involutive.
  - rewrite map_map. rewrite <-(map_id data) at 2.
    apply map_ext. intros plane. rewrite map_map. rewrite <-(map_id plane) at 2.
    apply map_ext. intros row. apply rev_involutive.
Qed.

Lemma flip_bounds_twice (bounds : list (Q * Q)) :
  flip_columns (flip_rows (flip_columns (flip_rows bounds))) = bounds.
Proof.
  unfold flip_columns, flip_rows.
  rewrite <-map_rev, rev_involutive, map_map.
  rewrite <-(map_id bounds) at 2. apply map_ext. by intros [a b].
Qed.

(** What the success of the latitude block tells about the cube. *)
Lemma flip_latitude_inv (cube cube' : Cube.t) :
  flip_latitude cube = Ok cube' →
  ∃ coord d bounds data',
    filter (λ k, dim_coord_named "latitude" k = true) (Cube.coords cube) = [coord]
    ∧ Coord.dim coord = Some d
    ∧ Coord.bounds coord = Some bounds
    ∧ flip d (Cube.data cube) = Ok data'
    ∧ cube'
      = Cube.set_data data'
          (Cube.update_coords (dim_coord_named "latitude")
             (λ _, Coord.set_bounds (Some (flip_columns (flip_rows bounds)))
                     (Coord.set_points (rev (Coord.points coord)) coord))
             cube).
Proof.
  unfold flip_latitude.
  destruct (filter _ (Cube.coords cube)) as [|coord [|k2 l]] eqn:Hsel; [done| |done].
  destruct (Coord.dim coord) as [d|] eqn:Hd; [|done]. rewrite Res_bind_Ok.
  cbn [Coord.bounds Coord.set_points].
  destruct (Coord.bounds coord) as [bounds|] eqn:Hb; [|done]. rewrite Res_bind_Ok.
  destruct (flip d (Cube.data cube)) as [data'|e] eqn:Hflip; [|done].
  rewrite Res_bind_Ok. intros [= <-].
  exists coord, d, bounds, data'. split_and!; [done..|].
  by destruct coord.
Qed.

(** The three flips of the latitude block belong together: running the
    block a second time gives back the cube, with the points, the bounds
    and the data it had. *)
Theorem flip_latitude_twice (cube cube' : Cube.t) :
  flip_latitude cube = Ok cube' → flip_latitude cube' = Ok cube.
Proof.
  intros Hflip.
  destruct (flip_latitude_inv _ _ Hflip) as (coord & d & bounds & data' & Hsel & Hd & Hb
                                             & Hdata & ->).
  set (coord' := Coord.set_bounds (Some (flip_columns (flip_rows bounds)))
                   (Coord.set_points (rev (Coord.points coord)) coord)).
  assert (dim_coord_named "latitude" coord = true) as Hcoord.
  { assert (coord ∈ filter (λ k, dim_coord_named "latitude" k = true) (Cube.coords cube))
      as Hin by (rewrite Hsel; set_solver).
    by apply list_elem_of_filter in Hin as [? _]. }
  assert (dim_coord_named "latitude" coord' = true) as Hcoord' by done.
  assert (filter (λ k, dim_coord_named "latitude" k = true)
            (map (λ k, if dim_coord_named "latitude" k then coord' else k)
                 (Cube.coords cube)) = [coord']) as Hsel'.
  { rewrite (filter_map_iff _ (λ k, dim_coord_named "latitude" k = true)).
    - rewrite Hsel. cbn [map]. by rewrite Hcoord.
    - intros k Hk. destruct (dim_coord_named "latitude" k) eqn:Hs; [done|].
      by rewrite Hs. }
  unfold flip_latitude. cbn [Cube.coords Cube.set_data Cube.update_coords Cube.set_coords].
  rewrite Hsel'.
  replace (Coord.dim coord') with (Some d) by done. rewrite Res_bind_Ok.
  cbn [Coord.bounds Coord.set_points coord' Coord.set_bounds]. rewrite Res_bind_Ok.
  change (Cube.data (Cube.set_data data' _)) with data'.
  rewrite (flip_twice _ _ _ Hdata), Res_bind_Ok. f_equal.
  assert (Coord.set_bounds
            (Some (flip_columns (flip_rows (flip_columns (flip_rows bounds)))))
            (Coord.set_bounds (Some (flip_rows (flip_columns (flip_rows bounds))))
               (Coord.set_points (rev (Coord.points coord')) coord')) = coord) as ->.
  { rewrite flip_bounds_twice. subst coord'. destruct coord. cbn in *.
    by rewrite rev_involutive, Hb. }
  destruct cube as [metadata data coords].
  unfold Cube.set_data, Cube.update_coords, Cube.set_coords. cbn.
  cbn in Hsel. f_equal.
  rewrite map_map. rewrite <-(map_id coords) at 2.
  apply map_ext_in. intros k Hk. apply list_elem_of_In in Hk.
  destruct (dim_coord_named "latitude" k) eqn:Hs.
  - rewrite Hcoord'.
    assert (k ∈ filter (λ k, dim_coord_named "latitude" k = true) coords) as Hin
      by (by apply list_elem_of_filter).
    rewrite Hsel in Hin. by apply list_elem_of_singleton in Hin as ->.
  - by rewrite Hs.
Qed.

Lemma Forall2_rev {A B} (R : A → B → Prop) (l : list A) (k : list B) :
  Forall2 R l k → Forall2 R (rev l) (rev k).
Proof.
  induction 1 as [|x y l k Hxy Hlk IH]; [constructor|].
  cbn. apply Forall2_app; [done|]. by repeat constructor.
Qed.

(** For a cube with one latitude coordinate along a dimension, with
    bounds, the latitude block returns; the points come out in the
    reverse order and the data reversed along that dimension; and when
    every cell came with its upper bound first and its point in between,
    as for latitudes running from north to south, every cell of the
    result has its lower bound first and its point in between. *)
Theorem flip_latitude_cells (cube : Cube.t) (coord : Coord.t) (d : nat)
    (bounds : list (Q * Q)) :
  filter (λ k, dim_coord_named "latitude" k = true) (Cube.coords cube) = [coord] →
  Coord.dim coord = Some d →
  (d < 3)%nat →
  Coord.bounds coord = Some bounds →
  ∃ coord' bounds' data',
    flip_latitude cube
    = Ok (Cube.set_data data'
            (Cube.update_coords (dim_coord_named "latitude") (λ _, coord') cube))
    ∧ flip d (Cube.data cube) = Ok data'
    ∧ Coord.name coord' = "latitude"
    ∧ Coord.dim coord' = Some d
    ∧ Coord.points coord' = rev (Coord.points coord)
    ∧ Coord.bounds coord' = Some bounds'
    ∧ (Forall2 descending_cell (Coord.points coord) bounds →
       Forall2 ascending_cell (Coord.points coord') bounds').
Proof.
  intros Hsel Hd Hsmall Hb.
  assert (∃ data', flip d (Cube.data cube) = Ok data') as [data' Hdata].
  { destruct d as [|[|[|d]]]; cbn; eauto. lia. }
  assert (dim_coord_named "latitude" coord = true) as Hcoord.
  { assert (coord ∈ filter (λ k, dim_coord_named "latitude" k = true) (Cube.coords cube))
      as Hin by (rewrite Hsel; set_solver).
    by apply list_elem_of_filter in Hin as [? _]. }
  eexists _, _, data'. split_and!.
  - unfold flip_latitude. rewrite Hsel, Hd, Res_bind_Ok.
    cbn [Coord.bounds Coord.set_points]. rewrite Hb, Res_bind_Ok, Hdata, Res_bind_Ok.
    reflexivity.
  - done.
  - unfold dim_coord_named in Hcoord. apply bool_decide_eq_true in Hcoord as [Hn _].
    by destruct coord.
  - by destruct coord.
  - done.
  - done.
  - intros Hcells. cbn. unfold flip_columns, flip_rows.
    apply Forall2_fmap_r. apply Forall2_rev.
    eapply Forall2_impl; [exact Hcells|]. intros p [a b] [Hlow Hup]. by split.
Qed.

End duveiller_flip.

(** ** The cubes of the raw file *)

Section duveiller_extraction.
Context `{!External, !Duveiller2018.Utilities}.

Import Duveiller2018.

Lemma extract_cubes_skip (var_info : VariableInfo) (rawvar : string)
    (attrs : gmap string string) (cfg : Config) (skipped rest : list RawCube) :
  Forall (λ c, md_var_name (raw_metadata c) ≠ Some rawvar) skipped →
  extract_cubes var_info rawvar attrs cfg (skipped ++ rest)
  = extract_cubes var_info rawvar attrs cfg rest.
Proof.
  induction 1 as [|c skipped Hc Hskipped IH]; [done|].
  cbn [app extract_cubes]. by rewrite decide_False by done.
Qed.

(** A raw name that no cube of the file has: [extract_variable] returns
    normally, with nothing written and nothing logged. *)
Theorem extract_variable_without_match (var_info : VariableInfo)
    (raw_name raw_file : string) (attrs : gmap string string) (cfg : Config)
    (cubes : list RawCube) :
  iris_load raw_file = Ok cubes →
  Forall (λ c, md_var_name (raw_metadata c) ≠ Some raw_name) cubes →
  extract_variable (Some var_info) raw_name raw_file attrs cfg = mkOutcome [] [] (Ok tt).
Proof.
  intros Hload Hnone. unfold extract_variable. rewrite Hload.
  rewrite <-(app_nil_r cubes). by rewrite extract_cubes_skip.
Qed.

Lemma index_where_none (itr : Q) (points : list Q) :
  Forall (λ p, ¬ (p == itr)%Q) points →
  index_where itr points
  = Raise (IndexError "index 0 is out of bounds for axis 0 with size 0").
Proof.
  induction 1 as [|p points Hp Hpoints IH]; [done|].
  cbn [index_where]. destruct (Qeq_bool p itr) eqn:Heq.
  - by apply Qeq_bool_iff in Heq.
  - by rewrite IH.
Qed.

(** A transition code that the first cube with the raw name does not
    have: [extract_variable] raises [IndexError] and writes nothing,
    whatever cubes follow in the file. *)
Theorem extract_variable_unknown_code (var_info : VariableInfo)
    (raw_name raw_file : string) (attrs : gmap string string) (cfg : Config)
    (skipped rest : list RawCube) (cube : RawCube) (parameters : gmap string Q)
    (itr : Q) (code : Coord.t) (others : list Coord.t) :
  iris_load raw_file = Ok (skipped ++ cube :: rest) →
  Forall (λ c, md_var_name (raw_metadata c) ≠ Some raw_name) skipped →
  md_var_name (raw_metadata cube) = Some raw_name →
  config_parameters cfg = Some parameters →
  parameters !! "iTr" = Some itr →
  filter (λ k, Coord.name k = "Vegetation transition code") (raw_coords cube)
  = code :: others →
  Forall (λ p, ¬ (p == itr)%Q) (Coord.points code) →
  extract_variable (Some var_info) raw_name raw_file attrs cfg
  = mkOutcome [] []
      (Raise (IndexError "index 0 is out of bounds for axis 0 with size 0")).
Proof.
  intros Hload Hskipped Hcube Hparameters Hitr Hcode Hnone.
  unfold extract_variable. rewrite Hload, extract_cubes_skip by done.
  cbn [extract_cubes]. rewrite decide_True by done.
  unfold prepare_cube. rewrite Hparameters, Res_bind_Ok, Hitr, Res_bind_Ok.
  rewrite Hcode, Res_bind_Ok. by rewrite index_where_none.
Qed.

(** ** The loop over the variables *)

Lemma prepare_cube_parameters (var_info : VariableInfo) (cfg cfg' : Config)
    (cube : RawCube) :
  config_parameters cfg = config_parameters cfg' →
  prepare_cube var_info cfg cube = prepare_cube var_info cfg' cube.
Proof. intros Heq. unfold prepare_cube. by rewrite Heq. Qed.

Lemma extract_cubes_parameters (var_info : VariableInfo) (rawvar : string)
    (attrs : gmap string string) (cfg cfg' : Config) (cubes : list RawCube) :
  config_parameters cfg = config_parameters cfg' →
  extract_cubes var_info rawvar attrs cfg cubes
  = extract_cubes var_info rawvar attrs cfg' cubes.
Proof.
  intros Heq. induction cubes as [|cube cubes IH]; [done|].
  cbn [extract_cubes]. by rewrite IH, (prepare_cube_parameters _ cfg cfg').
Qed.

Lemma process_variables_parameters (in_dir : string) (cfg cfg' : Config)
    (glob_attrs : gmap string string) (variables : list (string * Vals)) :
  config_parameters cfg = config_parameters cfg' →
  process_variables in_dir cfg glob_attrs variables
  = process_variables in_dir cfg' glob_attrs variables.
Proof.
  intros Heq. revert glob_attrs.
  induction variables as [|[var vals] variables IH]; intros glob_attrs; [done|].
  cbn [process_variables].
  destruct (vals_file vals) as [file|]; [|done].
  destruct (vals_mip vals) as [mip|], (vals_raw vals) as [raw|]; try done.
  rewrite IH. unfold extract_variable.
  destruct (table_get_variable mip var) as [var_info|]; [|done].
  destruct (iris_load _) as [cubes|e]; [|done].
  by rewrite (extract_cubes_parameters _ _ _ cfg cfg').
Qed.

Lemma process_variables_stop (in_dir : string) (cfg : Config)
    (glob_attrs : gmap string string) (variables more : list (string * Vals))
    (e : Exn) :
  out_result (process_variables in_dir cfg glob_attrs variables) = Raise e →
  process_variables in_dir cfg glob_attrs (variables ++ more)
  = process_variables in_dir cfg glob_attrs variables.
Proof.
  revert glob_attrs.
  induction variables as [|[var vals] variables IH]; intros glob_attrs; [done|].
  cbn [app process_variables].
  destruct (vals_file vals) as [file|]; [|done].
  destruct (vals_mip vals) as [mip|], (vals_raw vals) as [raw|]; try done.
  destruct (out_result (extract_variable _ _ _ _ _)) as [[]|e']; [|done].
  cbn [out_result]. intros Hfail. by rewrite IH.
Qed.

(** The variables are worked on one after the other, and the run ends
    with the first one that fails: when a run fails, the variables that
    the configuration may list after those of the run change nothing,
    neither in what is written nor in what is logged nor in the
    exception. *)
Theorem cmorization_stops_at_failure (in_dir out_dir : string) (cfg : Config)
    (variables more : list (string * Vals)) (e : Exn) :
  config_variables cfg = Some variables →
  out_result (cmorization in_dir out_dir cfg) = Raise e →
  cmorization in_dir out_dir
    (mkConfig (config_cmor_table cfg) (config_attributes cfg)
              (Some (variables ++ more)) (config_parameters cfg))
  = cmorization in_dir out_dir cfg.
Proof.
  intros Hvariables. unfold cmorization. cbn [config_cmor_table config_attributes
    config_variables]. rewrite Hvariables.
  destruct (config_cmor_table cfg); [|done].
  destruct (config_attributes cfg) as [glob_attrs|]; [|done].
  destruct (glob_attrs !! "tier"); [|done].
  destruct (glob_attrs !! "dataset_id"); [|done].
  cbn [out_result]. intros Hfail.
  rewrite (process_variables_parameters in_dir _ cfg) by done.
  by rewrite (process_variables_stop _ _ _ _ _ e).
Qed.

End duveiller_extraction.

(** ** The properties at a concrete file *)

Section duveiller_examples.

Import Duveiller2018 DuveillerExample.

Lemma fix_time_coord_sets_2010_witness :
  fix_time_coord_duveiller2018 selected
  = Ok (Cube.update_coords (named "Month")
          (λ _, time_2010 (index_coord 1 month_coord)) selected).
Proof.
  apply fix_time_coord_sets_2010.
  - vm_compute. reflexivity.
  - apply (bool_decide_unpack _). vm_compute. exact I.
  - reflexivity.
Defined.

Lemma flip_latitude_twice_witness :
  ∃ flipped,
    flip_latitude selected = Ok flipped
    ∧ flip_latitude flipped = Ok selected.
Proof.
  destruct (flip_latitude selected) as [flipped|e] eqn:Hflip;
    [|vm_compute in Hflip; discriminate].
  exists flipped. split; [reflexivity|].
  apply (flip_latitude_twice selected flipped Hflip).
Defined.

Lemma flip_latitude_cells_witness :
  ∃ coord' bounds' data',
    flip_latitude selected
    = Ok (Cube.set_data data'
            (Cube.update_coords (dim_coord_named "latitude") (λ _, coord') selected))
    ∧ Coord.points coord' = [-45; 45]%Q
    ∧ Coord.bounds coord' = Some bounds'
    ∧ Forall2 ascending_cell (Coord.points coord') bounds'.
Proof.
  destruct (flip_latitude_cells selected (index_coord 1 latitude_coord) 1
              [(90, 0); (0, -90)]%Q)
    as (coord' & bounds' & data' & Hrun & _ & _ & _ & Hpoints & Hbounds & Hcells).
  - vm_compute. reflexivity.
  - reflexivity.
  - lia.
  - reflexivity.
  - exists coord', bounds', data'. split_and!; [exact Hrun|exact Hpoints|exact Hbounds|].
    apply Hcells. repeat constructor; vm_compute; discriminate.
Defined.

Lemma extract_variable_without_match_witness :
  @extract_variable Example.three_cpus utilities (Some albedo_info) "albedo"
     "/in/albedo_IGBPgen.nc" Example.attributes (config 2 [])
  = mkOutcome [] [] (Ok tt).
Proof.
  apply (@extract_variable_without_match Example.three_cpus utilities albedo_info
           "albedo" "/in/albedo_IGBPgen.nc" Example.attributes (config 2 [])
           [albedo_error; albedo_change]).
  - reflexivity.
  - repeat constructor; discriminate.
Defined.

Lemma extract_variable_unknown_code_witness :
  @extract_variable Example.three_cpus utilities (Some albedo_info) "Delta_albedo"
     "/in/albedo_IGBPgen.nc" Example.attributes (config 3 [])
  = mkOutcome [] []
      (Raise (IndexError "index 0 is out of bounds for axis 0 with size 0")).
Proof.
  apply (@extract_variable_unknown_code Example.three_cpus utilities albedo_info
           "Delta_albedo" "/in/albedo_IGBPgen.nc" Example.attributes (config 3 [])
           [albedo_error] [] albedo_change {[ "iTr" := 3%Q ]} 3%Q code_coord []).
  - reflexivity.
  - repeat constructor; discriminate.
  - reflexivity.
  - reflexivity.
  - vm_compute. reflexivity.
  - vm_compute. reflexivity.
  - repeat constructor; vm_compute; discriminate.
Defined.

Lemma cmorization_stops_at_failure_witness :
  @cmorization Example.three_cpus utilities "/in" "/out"
     (config 2 [("unknown", albedo_vals); ("albDiffiTr13", albedo_vals)])
  = @cmorization Example.three_cpus utilities "/in" "/out"
      (config 2 [("unknown", albedo_vals)]).
Proof.
  apply (@cmorization_stops_at_failure Example.three_cpus utilities "/in" "/out"
           (config 2 [("unknown", albedo_vals)]) [("unknown", albedo_vals)]
           [("albDiffiTr13", albedo_vals)]
           (AttributeError "'NoneType' object has no attribute 'short_name'")).
  - reflexivity.
  - vm_compute. reflexivity.
Defined.

(** A run over the file: the cube of the second transition code is
    written, with latitudes from south to north, the rows of the data
    with them, and the months of 2010 as time axis. *)
Example duveiller_run :
  let run := @cmorization Example.three_cpus utilities "/in" "/out"
               (config 2 [("albDiffiTr13", albedo_vals)]) in
  out_result run = Ok tt
  ∧ ∃ a,
      out_written run = [a]
      ∧ EraInterim.saved_short_name a = Some "albDiffiTr13"
      ∧ Cube.attributes (EraInterim.saved_cube a) !! "Vegetation transition code"
        = Some "2"
      ∧ (Coord.points <$> Cube.coords (EraInterim.saved_cube a))
        = [midpoints_2010; [-45; 45]%Q; [-90; 90]%Q]
      ∧ (Coord.bounds <$> Cube.coords (EraInterim.saved_cube a))
        = [Some bounds_2010; Some [(-90, 0); (0, 90)]%Q; Some [(-180, 0); (0, 180)]%Q]
      ∧ Cube.data (EraInterim.saved_cube a) !! 0%nat
        = Some [[1002; 1003]; [1000; 1001]]%Q.
Proof.
  cbn zeta. split; [vm_compute; reflexivity|].
  eexists. split; [vm_compute; reflexivity|]. vm_compute. done.
Qed.

(** With a variable the table does not have after it, the cube of the
    first variable is written and the run fails. *)
Example duveiller_partial_run :
  let run := @cmorization Example.three_cpus utilities "/in" "/out"
               (config 2 two_variables) in
  out_result run
  = Raise (AttributeError "'NoneType' object has no attribute 'short_name'")
  ∧ length (out_written run) = 1%nat.
Proof. vm_compute. done. Qed.

End duveiller_examples.

(** * Further properties of the netcre derivation *)

Section netcre_converse.
Context `{!External}.
Variable Lwcre_calculate Swcre_calculate : list Cube.t → Res Cube.t.

(** [calculate] returns a cube only when both cloud radiative effects
    were computed and come in the same units; the cube is then in these
    units.  When the two effects are also on the same coordinates and of
    the same shape, the cube has these coordinates and the elementwise
    sum as data. *)
Theorem calculate_returns_only_if (cubes : list Cube.t) (netcre : Cube.t) :
  Netcre.calculate Lwcre_calculate Swcre_calculate cubes = Ok netcre →
  ∃ lw sw,
    Lwcre_calculate cubes = Ok lw
    ∧ Swcre_calculate cubes = Ok sw
    ∧ Cube.units lw = Cube.units sw
    ∧ Cube.units netcre = Cube.units lw
    ∧ (Cube.coords lw = Cube.coords sw →
       Cube.shape (Cube.data lw) = Cube.shape (Cube.data sw) →
       Cube.coords netcre = Cube.coords lw
       ∧ Cube.data netcre = Cube.zip_data Qplus (Cube.data lw) (Cube.data sw)).
Proof.
  unfold Netcre.calculate.
  destruct (Lwcre_calculate cubes) as [lw|e]; [|done]. rewrite Res_bind_Ok.
  destruct (Swcre_calculate cubes) as [sw|e]; [|done]. rewrite Res_bind_Ok.
  destruct (decide (Cube.units lw = Cube.units sw)) as [Hu|Hu]; last first.
  { unfold cube_add. by rewrite decide_False by done. }
  destruct (cube_add lw sw) as [total|e] eqn:Hadd; [|done].
  rewrite Res_bind_Ok. intros [= <-]. exists lw, sw.
  split_and!; [done..|].
  intros Hcoords Hshape.
  rewrite (cube_add_ok _ _ Hu Hcoords Hshape) in Hadd. by injection Hadd as <-.
Qed.

End netcre_converse.

Section netcre_examples.

Import Example.

Lemma calculate_returns_only_if_witness :
  ∃ netcre lw sw,
    @Netcre.calculate three_cpus lwcre swcre fluxes = Ok netcre
    ∧ lwcre fluxes = Ok lw
    ∧ swcre fluxes = Ok sw
    ∧ Cube.units lw = Cube.units sw
    ∧ Cube.units netcre = UStr "W m-2"
    ∧ Cube.data netcre = [[[-30; -30]; [-20; -20]; [0; 0]]]%Q.
Proof.
  destruct (@Netcre.calculate three_cpus lwcre swcre fluxes) as [netcre|e] eqn:Hrun;
    [|vm_compute in Hrun; discriminate].
  destruct (@calculate_returns_only_if three_cpus lwcre swcre fluxes netcre Hrun)
    as (lw & sw & Hlw & Hsw & Hunits & Hnet & Hsum).
  exists netcre, lw, sw. split_and!; [done..| |].
  - rewrite Hnet. vm_compute in Hlw. by injection Hlw as <-.
  - vm_compute in Hlw, Hsw. injection Hlw as <-. injection Hsw as <-.
    destruct Hsum as [_ ->]; [reflexivity..|]. vm_compute. reflexivity.
Defined.

End netcre_examples.

(** * Properties of the ocean3d diagnostic *)

Section ocean3d_facts.
Context `{!Ocean3d.Libraries}.

Import Ocean3d.

Lemma bind_W_cong {A B} (m m' : W A) (k k' : A → W B) :
  m = m' → (∀ a, k a = k' a) → (m ≫= k) = (m' ≫= k').
Proof.
  intros -> Hk. unfold mbind, W_bind, bind_W.
  destruct m' as [trace [a|e]]; [|done]. by rewrite Hk.
Qed.

Lemma bind_W_silent {A B} (m m' : W A) (k k' : A → W B) (a a' : A) :
  m = ([], Ok a) → m' = ([], Ok a') → k a = k' a' → (m ≫= k) = (m' ≫= k').
Proof.
  intros -> -> Hk. unfold mbind, W_bind, bind_W. rewrite Hk.
  by destruct (k' a').
Qed.

Lemma for_each_cong {A} (l : list A) (body body' : A → W unit) :
  (∀ a, body a = body' a) → for_each l body = for_each l body'.
Proof.
  intros Hbody. induction l as [|a l IH]; [done|].
  cbn [for_each]. by rewrite Hbody, IH.
Qed.

Lemma if_then_cong (b : bool) (m m' : W unit) : m = m' → if_then b m = if_then b m'.
Proof. by intros ->. Qed.

Lemma item_other (cfg : Cfg) (key key' : string) (v : Value) :
  key ≠ key' → item (<[key := v]> cfg) key' = item cfg key'.
Proof. intros Hkey. unfold item. by rewrite lookup_insert_ne. Qed.

Lemma items_other (cfg : Cfg) (key key' : string) (v : Value) :
  key ≠ key' → items (<[key := v]> cfg) key' = items cfg key'.
Proof. intros Hkey. unfold items. by rewrite item_other. Qed.

Lemma limits_other (cfg : Cfg) (key key' : string) (v : Value) (n : nat) :
  key ≠ key' → limits (<[key := v]> cfg) key' n = limits cfg key' n.
Proof. intros Hkey. unfold limits. by rewrite item_other. Qed.

Lemma columns_other (cfg : Cfg) (key key' : string) (v : Value) :
  key ≠ key' → columns (<[key := v]> cfg) key' = columns cfg key'.
Proof. intros Hkey. unfold columns. by rewrite item_other. Qed.

Lemma colour_map_other (cfg : Cfg) (key key' : string) (v : Value) (n : nat) :
  key ≠ key' → colour_map (<[key := v]> cfg) key' n = colour_map cfg key' n.
Proof. intros Hkey. unfold colour_map. by rewrite item_other. Qed.

(** A number of columns that is configured is read without a trace. *)
Lemma columns_present (cfg : Cfg) (key : string) (v : Value) :
  cfg !! key = Some v → ∃ ncols, columns cfg key = ([], Ok ncols).
Proof.
  intros Hkey. unfold columns, item. rewrite Hkey.
  cbv [eval mbind W_bind bind_W]. destruct (truthy v); cbn; by eexists.
Qed.

Ltac same_leaf :=
  first
    [ reflexivity
    | assumption
    | (rewrite item_other by done; reflexivity)
    | (apply items_other; done)
    | (apply limits_other; done)
    | (apply columns_other; done)
    | (apply colour_map_other; done) ].

Ltac same_run :=
  repeat first
    [ same_leaf
    | match goal with
      | Hm : ∀ var, get_clim_model_filenames _ var = get_clim_model_filenames _ var
        |- models _ _ = models _ _ => unfold models; rewrite Hm; reflexivity
      | |- (let '(_, _) := ?p in _) = _ => destruct p
      | |- (columns _ _ ≫= _) = (columns _ _ ≫= _) =>
          first
            [ apply bind_W_cong; [apply columns_other; done|intros ?]
            | eapply bind_W_silent; [eassumption|eassumption|] ]
      end
    | (apply bind_W_cong; [|intros ?])
    | (apply for_each_cong; intros ?)
    | apply if_then_cong ].

(** The number of columns configured for the 2d maps and for the bias
    maps is read and then not used: whatever value stands under
    [plot2d_ncol] or [plot2d_bias_ncol], the run makes the same calls
    with the same arguments, writes the same log and ends in the same
    way, as long as the functions that are given the configuration do not
    look at that key. *)
Theorem main_ignores_plot2d_columns (cfg : Cfg) (key : string) (v v' : Value) :
  key = "plot2d_ncol" ∨ key = "plot2d_bias_ncol" →
  cfg !! key = Some v →
  dump (<[key := v']> cfg) = dump cfg →
  find_observations_name (<[key := v']> cfg) "thetao"
  = find_observations_name cfg "thetao" →
  get_fx_filenames (<[key := v']> cfg) "thetao" "areacello"
  = get_fx_filenames cfg "thetao" "areacello" →
  (∀ var, get_clim_model_filenames (<[key := v']> cfg) var
          = get_clim_model_filenames cfg var) →
  main (<[key := v']> cfg) = main cfg.
Proof.
  intros Hkey Hpresent Hdump Hobs Hfx Hmodels.
  destruct (columns_present cfg key v Hpresent) as [ncols Hncols].
  destruct (columns_present (<[key := v']> cfg) key v' (lookup_insert_eq _ _ _))
    as [ncols' Hncols'].
  unfold main, extract_hofm, plot_hofm, time_mean, plot_profiles, plot_2d, plot_2d_bias,
    plot_transects, atlantic_water_core, atlantic_water_core_2d, plot_ts.
  rewrite Hdump, Hobs, Hfx.
  destruct Hkey as [-> | ->]; same_run.
Qed.

(** With every switch present and off, the run reads no other key than
    the two directories: it dumps the configuration, looks up the name of
    the observations and the fx files, logs them, calls nothing and
    returns. *)
Theorem main_with_every_switch_off (cfg : Cfg) (work_dir plot_dir observations fx : Value) :
  cfg !! "work_dir" = Some work_dir →
  cfg !! "plot_dir" = Some plot_dir →
  dump cfg = Ok tt →
  find_observations_name cfg "thetao" = Ok observations →
  get_fx_filenames cfg "thetao" "areacello" = Ok fx →
  (∀ key, key ∈ switches → ∃ v, cfg !! key = Some v ∧ truthy v = false) →
  main cfg
  = ([Dumped;
      Logged "Starting APPLICATE/TRR Arctic Ocean diagnostics" [];
      Logged "Name of the Observations: %s{}" [observations];
      Logged "areacello_fx files: %s" [fx]],
     Ok tt).
Proof.
  intros Hwork Hplot Hdump Hobs Hfx Hoff.
  assert (∀ key, key ∈ switches →
            ∀ m, (flag ← eval (item cfg key); if_then (truthy flag) m) = mret tt)
    as Hskip.
  { intros key Hkey m. destruct (Hoff key Hkey) as (v & Hv & Hfalse).
    unfold item. rewrite Hv. cbv [eval mbind W_bind bind_W]. by rewrite Hfalse. }
  assert (∀ {A B} (m : W A) (k : A → W B) trace a,
            m = (trace, Ok a) →
            (m ≫= k) = (let '(trace', r) := k a in (trace ++ trace', r))) as Hrun.
  { by intros A B m k trace a ->. }
  unfold main.
  repeat
    (erewrite Hrun;
     [|solve
         [ by rewrite Hdump
         | unfold eval, item; by rewrite ?Hwork, ?Hplot
         | unfold eval; by rewrite ?Hobs, ?Hfx
         | reflexivity
         | unfold extract_hofm, plot_hofm, time_mean, plot_profiles, plot_2d,
             plot_2d_bias, plot_transects, atlantic_water_core, atlantic_water_core_2d;
           apply Hskip; unfold switches; rewrite !elem_of_cons; tauto ]];
     cbv beta).
  unfold plot_ts. rewrite Hskip by (unfold switches; rewrite !elem_of_cons; tauto).
  reflexivity.
Qed.

End ocean3d_facts.

Section ocean3d_examples.

Import Ocean3d OceanExample.

Lemma main_ignores_plot2d_columns_witness :
  @main libraries (<["plot2d_ncol" := VInt 2]> maps_only) = @main libraries maps_only.
Proof.
  apply (@main_ignores_plot2d_columns libraries maps_only "plot2d_ncol" (VInt 4) (VInt 2));
    [by left|vm_compute; reflexivity|reflexivity..].
Defined.

Lemma main_with_every_switch_off_witness :
  @main libraries (<["plot2d" := VBool false]> maps_only)
  = ([Dumped;
      Logged "Starting APPLICATE/TRR Arctic Ocean diagnostics" [];
      Logged "Name of the Observations: %s{}" [VStr "PHC"];
      Logged "areacello_fx files: %s" [VDict []]],
     Ok tt).
Proof.
  apply (@main_with_every_switch_off libraries (<["plot2d" := VBool false]> maps_only)
           (VStr "/work") (VStr "/plots") (VStr "PHC") (VDict []));
    [vm_compute; reflexivity| vm_compute; reflexivity|reflexivity..|].
  intros key Hkey. exists (VBool false). unfold switches in Hkey.
  repeat (apply elem_of_cons in Hkey as [->|Hkey]; [by vm_compute|]).
  by apply elem_of_nil in Hkey.
Defined.

(** The run for this configuration: the two maps, for the models in
    the order of their names. *)
Example maps_only_run :
  @main libraries maps_only
  = ([Dumped;
      Logged "Starting APPLICATE/TRR Arctic Ocean diagnostics" [];
      Logged "Name of the Observations: %s{}" [VStr "PHC"];
      Logged "areacello_fx files: %s" [VDict []];
      Called (mkCall "plot2d_original_grid"
                [VDict [("ACCESS", VStr "/work/access.nc");
                        ("MPI-ESM", VStr "/work/mpi.nc")];
                 VStr "thetao"; VInt 10]
                [("levels", VObject "levels"); ("diagworkdir", VStr "/work");
                 ("diagplotdir", VStr "/plots"); ("dpi", VInt 100)]);
      Called (mkCall "plot2d_original_grid"
                [VDict [("ACCESS", VStr "/work/access.nc");
                        ("MPI-ESM", VStr "/work/mpi.nc")];
                 VStr "thetao"; VInt 100]
                [("levels", VObject "levels"); ("diagworkdir", VStr "/work");
                 ("diagplotdir", VStr "/plots"); ("dpi", VInt 100)])],
     Ok tt).
Proof. vm_compute. reflexivity. Qed.

End ocean3d_examples.

(** * Further properties of the ERA-Interim dispatcher *)

Section submission.
Context `{!External}.

Import EraInterim.

Lemma submit_variable_tasks (in_dir short : string) (var : Var) :
  Forall (λ t, short_name (task_var t) = Some (default short (short_name var))
               ∧ mip (task_var t) = mip var
               ∧ raw (task_var t) = raw var
               ∧ file (task_var t) = file var
               ∧ files (task_var t) = files var
               ∧ operator (task_var t) = operator var)
         (submit_variable in_dir short var).1.1.
Proof.
  unfold submit_variable.
  set (var' := match short_name var with Some _ => var | None => _ end).
  assert (short_name var' = Some (default short (short_name var))
          ∧ mip var' = mip var ∧ raw var' = raw var ∧ file var' = file var
          ∧ files var' = files var ∧ operator var' = operator var) as Hvar'.
  { subst var'. by destruct (short_name var) eqn:Hs. }
  assert (Forall (λ t, task_var t = var')
            match file var' with
            | Some pattern =>
                map (λ in_file, mkTask (OneFile in_file) var' (ArgStr in_file))
                    (sorted (glob in_dir pattern))
            | None => []
            end) as Hsingle.
  { destruct (file var'); [|constructor].
    apply Forall_forall. intros t Ht. by apply list_elem_of_fmap in Ht as (? & -> & _). }
  destruct (files var') as [patterns|] eqn:Hfiles.
  - destruct (_get_files in_dir var') as [[d log]|e]; cbn [fst].
    + apply Forall_app. split.
      * eapply Forall_impl; [exact Hsingle|]. intros t ->. by rewrite Hfiles.
      * apply Forall_forall. intros t Ht.
        apply list_elem_of_fmap in Ht as (? & -> & _). cbn [task_var].
        by rewrite Hfiles.
    + eapply Forall_impl; [exact Hsingle|]. intros t ->. by rewrite Hfiles.
  - cbn [fst]. eapply Forall_impl; [exact Hsingle|]. intros t ->. by rewrite Hfiles.
Qed.

(** Every task the loop submits, up to the end or to the variable at
    which it stops, carries the entry of one variable of the configuration
    with a short name: the entry's own, or, when it has none, the key
    under which the variable is listed. *)
Theorem submitted_tasks_have_names (in_dir : string) (vars : list (string * Var)) :
  Forall (λ t, ∃ key var,
            (key, var) ∈ vars
            ∧ short_name (task_var t) = Some (default key (short_name var))
            ∧ mip (task_var t) = mip var
            ∧ raw (task_var t) = raw var
            ∧ file (task_var t) = file var
            ∧ files (task_var t) = files var
            ∧ operator (task_var t) = operator var)
         (submit_all in_dir vars).1.1.
Proof.
  induction vars as [|[short var] vars IH]; cbn [submit_all]; [constructor|].
  pose proof (submit_variable_tasks in_dir short var) as Htasks.
  assert (Forall (λ t, ∃ key var',
                    (key, var') ∈ (short, var) :: vars
                    ∧ short_name (task_var t) = Some (default key (short_name var'))
                    ∧ mip (task_var t) = mip var'
                    ∧ raw (task_var t) = raw var'
                    ∧ file (task_var t) = file var'
                    ∧ files (task_var t) = files var'
                    ∧ operator (task_var t) = operator var')
                 (submit_variable in_dir short var).1.1) as Hhere.
  { eapply Forall_impl; [exact Htasks|]. intros t Ht.
    exists short, var. split; [set_solver|done]. }
  destruct (submit_variable in_dir short var) as [[tasks log] [[]|e]];
    cbn [fst] in Hhere; [|exact Hhere].
  destruct (submit_all in_dir vars) as [[tasks' log'] r]. cbn [fst] in *.
  apply Forall_app. split; [exact Hhere|].
  eapply Forall_impl; [exact IH|]. intros t (key & var' & Hin & Ht).
  exists key, var'. split; [set_solver|done].
Qed.

End submission.
